(** * V20_ROM_Dump: the Teensy 3.5 sketch that dumps the memory of a V20 system

    A shallow embedding of [ROM_Dump/ROM_Dump.ino].  The sketch talks to three
    things it does not own: the pins wired to the V20 bus, the USB serial
    console and the SD card.  The pins and the console are observed through a
    recorder: every primitive of the Arduino core that the sketch calls
    appends one [Event] to the [trace] of the [World], and whatever the outside
    presents to the sketch (a logic level, a received character, the outcome
    of a storage operation) is a function of the events recorded so far.

    The first part of the proofs follows the sketch function by function: the
    address driver, the data sampler, the read cycle, the file names, the
    handshake, the dump.  The second part is about the sketch as a whole:
    what setup() and a pass of loop() leave behind however they end, and what
    the dump file holds when the target is a system with a memory. *)

From Stdlib Require Import ZArith List Bool String Ascii Lia DecimalString.
From Equations Require Import Equations.
Import ListNotations.

Local Open Scope Z_scope.

(** ** Constants of the sketch *)

Definition HIGH : bool := true.
Definition LOW : bool := false.

(* Values for BUSRQ (bus hold request) *)
Definition BUS_HOLD : bool := HIGH.
Definition BUS_RELEASE : bool := LOW.

(* Values for BUSAK (bus hold acknowledge) *)
Definition BUS_ACK : bool := HIGH.
Definition BUS_NAK : bool := LOW.

Definition ADDRESS_BUS_WIDTH : Z := 20.
Definition DATA_BUS_WIDTH : Z := 8.

(* Teensy pin definitions *)
Definition ASTB : Z := 37.
Definition BUFEN : Z := 38.
Definition BUFRW : Z := 39.
Definition IOMEM : Z := 14.
Definition WR : Z := 15.
Definition HLDAK : Z := 16.
Definition HLDRQ : Z := 17.
Definition RD : Z := 18.

(* The built-in LED of the Teensy 3.5 (the header comment of the sketch:
   pin 13 is skipped in the wiring because the LED uses it). *)
Definition LED_BUILTIN : Z := 13.

(* Teensy pin mapping of address/data bus starting from the LSB *)
Definition bus_pins : list Z :=
  [25;24;12;11;10;9;8;7;6;5;4;3;2;1;0;23;22;21;20;19].

(* bus_pins[i]; the sketch only indexes it with 0 <= i < 20. *)
Definition bus_pin (i : Z) : Z := nth (Z.to_nat i) bus_pins 0.

(* The six bus control signals the sketch drives during a capture. *)
Definition control_pins : list Z := [BUFEN; BUFRW; ASTB; RD; WR; IOMEM].

(** ** Recorded events and the outside world *)

Inductive PinMode := INPUT | OUTPUT.

Inductive Event :=
| EvPinMode (pin : Z) (m : PinMode)        (* pinMode(pin, m) *)
| EvWrite (pin : Z) (level : bool)         (* digitalWrite(pin, level) *)
| EvRead (pin : Z) (level : bool)          (* digitalRead(pin) returned level *)
| EvDelayMicros (us : Z)                   (* delayMicroseconds(us) *)
| EvDelay (ms : Z)                         (* delay(ms) *)
| EvSerialBegin (baud : Z)                 (* Serial.begin(baud) *)
| EvSerialOut (s : string)                 (* Serial.print / Serial.println *)
| EvSerialAvailable (n : Z)                (* Serial.available() returned n *)
| EvSerialRead (c : Z)                     (* Serial.read() returned c *)
| EvSdBegin (ok : bool)                    (* sd.begin() *)
| EvSdExists (name : string) (r : bool)    (* sd.exists(name) *)
| EvSdOpen (name : string) (ok : bool)     (* sd.open(name, FILE_WRITE) *)
| EvFileWrite (b : Z) (ok : bool)          (* dumpfile.write(b) *)
| EvFileClose (ok : bool).                 (* dumpfile.close() *)

(** What the sketch cannot decide: the level the wiring presents on a pin,
    the character waiting on the serial port, and whether the SD card
    carries out the next operation.  Each is a function of the history. *)
Record Env := {
  line_level : list Event -> Z -> bool;
  serial_rx : list Event -> option Z;
  sd_ok : list Event -> bool
}.

(** The state of the sketch and of the hardware it owns. *)
Record World := {
  pin_mode : Z -> PinMode;             (* direction of every Teensy pin *)
  pin_out : Z -> bool;                 (* output latch of every Teensy pin *)
  trace : list Event;                  (* the recorder *)
  file_number : Z;                     (* int file_number *)
  filename : string;                   (* char filename[] *)
  card : string -> option (list Z);    (* files on the SD card, by name *)
  dumpfile : option string             (* File dumpfile: the file it is open on *)
}.

Definition log (e : Event) (w : World) : World :=
  {| pin_mode := pin_mode w; pin_out := pin_out w; trace := trace w ++ [e];
     file_number := file_number w; filename := filename w;
     card := card w; dumpfile := dumpfile w |}.

Definition set_pin_mode (p : Z) (m : PinMode) (w : World) : World :=
  {| pin_mode := fun q => if q =? p then m else pin_mode w q;
     pin_out := pin_out w; trace := trace w;
     file_number := file_number w; filename := filename w;
     card := card w; dumpfile := dumpfile w |}.

Definition set_pin_out (p : Z) (v : bool) (w : World) : World :=
  {| pin_mode := pin_mode w;
     pin_out := fun q => if q =? p then v else pin_out w q;
     trace := trace w;
     file_number := file_number w; filename := filename w;
     card := card w; dumpfile := dumpfile w |}.

Definition set_file_number (n : Z) (w : World) : World :=
  {| pin_mode := pin_mode w; pin_out := pin_out w; trace := trace w;
     file_number := n; filename := filename w;
     card := card w; dumpfile := dumpfile w |}.

Definition set_filename (s : string) (w : World) : World :=
  {| pin_mode := pin_mode w; pin_out := pin_out w; trace := trace w;
     file_number := file_number w; filename := s;
     card := card w; dumpfile := dumpfile w |}.

Definition set_card (c : string -> option (list Z)) (w : World) : World :=
  {| pin_mode := pin_mode w; pin_out := pin_out w; trace := trace w;
     file_number := file_number w; filename := filename w;
     card := c; dumpfile := dumpfile w |}.

Definition set_dumpfile (d : option string) (w : World) : World :=
  {| pin_mode := pin_mode w; pin_out := pin_out w; trace := trace w;
     file_number := file_number w; filename := filename w;
     card := card w; dumpfile := d |}.

(** ** The monad of the sketch

    A statement either returns ([Ok]), reaches one of the sketch's
    [while (1);] ([Halted]: the sketch freezes until it is restarted), or is
    still spinning in a busy-wait when the polling budget is spent
    ([Blocked]). *)

Inductive Result (A : Type) :=
| Ok (a : A) (w : World)
| Halted (w : World)
| Blocked (w : World).
Arguments Ok {A} a w.
Arguments Halted {A} w.
Arguments Blocked {A} w.

Definition M (A : Type) : Type := World -> Result A.

Definition ret {A} (a : A) : M A := fun w => Ok a w.

Definition bind {A B} (m : M A) (k : A -> M B) : M B :=
  fun w => match m w with
           | Ok a w' => k a w'
           | Halted w' => Halted w'
           | Blocked w' => Blocked w'
           end.

(* while (1); *)
Definition halt {A} : M A := fun w => Halted w.

(* a busy-wait whose polling budget is spent *)
Definition blocked {A} : M A := fun w => Blocked w.

Declare Scope sketch_scope.
Delimit Scope sketch_scope with sketch.
Notation "x <- c1 ;; c2" := (bind c1 (fun x => c2))
  (at level 61, c1 at next level, right associativity) : sketch_scope.
Notation "c1 ;; c2" := (bind c1 (fun _ => c2))
  (at level 61, right associativity) : sketch_scope.
Local Open Scope sketch_scope.

(* The state a result carries, whichever way the statement ended. *)
Definition world_of {A} (r : Result A) : World :=
  match r with Ok _ w => w | Halted w => w | Blocked w => w end.

(* for (int i = lo; i < lo + n; i++) acc = body(i, acc); *)
Fixpoint for_int {A} (n : nat) (i : Z) (body : Z -> A -> M A) (acc : A) : M A :=
  match n with
  | O => ret acc
  | S n' => acc' <- body i acc ;; for_int n' (i + 1) body acc'
  end.

(** ** The effect of one recorded event

    Every primitive records its event and, through it, changes the hardware or
    the card:
    - [pinMode] sets the direction of the pin, [digitalWrite] its latch;
    - [sd.open(name, FILE_WRITE)] that succeeds leaves [dumpfile] open on
      [name], creating the file empty when the card does not have it and
      keeping what it holds when it does (FILE_WRITE positions at the end);
      one that fails leaves [dumpfile] invalid;
    - [dumpfile.write(b)] that succeeds appends [b] to the open file; one that
      fails leaves the file as it was;
    - [dumpfile.close()] leaves [dumpfile] closed. *)

Definition card_create (name : string) (c : string -> option (list Z))
  : string -> option (list Z) :=
  fun s => if String.eqb s name
           then match c name with Some bs => Some bs | None => Some [] end
           else c s.

Definition card_append (name : string) (b : Z) (c : string -> option (list Z))
  : string -> option (list Z) :=
  fun s => if String.eqb s name
           then match c name with Some bs => Some (bs ++ [b]) | None => None end
           else c s.

Definition effect (e : Event) (w : World) : World :=
  log e
    match e with
    | EvPinMode p m => set_pin_mode p m w
    | EvWrite p v => set_pin_out p v w
    | EvSdOpen name true => set_dumpfile (Some name) (set_card (card_create name (card w)) w)
    | EvSdOpen name false => set_dumpfile None w
    | EvFileWrite b true =>
        match dumpfile w with
        | Some name => set_card (card_append name b (card w)) w
        | None => w
        end
    | EvFileClose _ => set_dumpfile None w
    | _ => w
    end.

(* The effect of a sequence of events, oldest first. *)
Definition run (evs : list Event) (w : World) : World :=
  fold_left (fun w e => effect e w) evs w.

(* Read or replace a global of the sketch. *)
Definition load {A} (f : World -> A) : M A := fun w => Ok (f w) w.
Definition store (f : World -> World) : M unit := fun w => Ok tt (f w).

(* int is 32 bits wide on the Teensy 3.5: the value an int holds after an
   arithmetic result is stored in it. *)
Definition int_wrap (x : Z) : Z := (x + 2 ^ 31) mod 2 ^ 32 - 2 ^ 31.

(* unsigned long is 32 bits wide. *)
Definition ulong_wrap (x : Z) : Z := x mod 2 ^ 32.

(* byte is 8 bits wide. *)
Definition byte_wrap (x : Z) : Z := x mod 2 ^ 8.

(** Decimal conversion, as [Serial.print(int)] and the [%03d] of [sprintf]
    print an int. *)
Definition decimal (n : Z) : string :=
  if n <? 0 then "-" ++ NilZero.string_of_uint (N.to_uint (Z.to_N (- n)))
  else NilZero.string_of_uint (N.to_uint (Z.to_N n)).

Fixpoint zeros (k : nat) : string :=
  match k with O => EmptyString | S k' => String "0" (zeros k') end.

Definition zero_pad (width : nat) (s : string) : string :=
  (zeros (width - String.length s) ++ s)%string.

(* %03d *)
Definition fmt_03d (n : Z) : string :=
  if n <? 0
  then ("-" ++ zero_pad 2 (NilZero.string_of_uint (N.to_uint (Z.to_N (- n)))))%string
  else zero_pad 3 (NilZero.string_of_uint (N.to_uint (Z.to_N n))).

(* sprintf(filename, "CWMEM%03d.BIN", n) *)
Definition dump_name (n : Z) : string := ("CWMEM" ++ fmt_03d n ++ ".BIN")%string.

Definition nl : string := String (ascii_of_nat 10) EmptyString.
Definition crlf : string := String (ascii_of_nat 13) (String (ascii_of_nat 10) EmptyString).

Section Sketch.

Variable env : Env.

(** *** Primitives of the Arduino core and of SdFat *)

Definition pinMode (p : Z) (m : PinMode) : M unit :=
  fun w => Ok tt (effect (EvPinMode p m) w).

Definition digitalWrite (p : Z) (v : bool) : M unit :=
  fun w => Ok tt (effect (EvWrite p v) w).

Definition digitalRead (p : Z) : M bool :=
  fun w => let v := line_level env (trace w) p in Ok v (effect (EvRead p v) w).

Definition delayMicroseconds (us : Z) : M unit :=
  fun w => Ok tt (effect (EvDelayMicros us) w).

Definition delay (ms : Z) : M unit :=
  fun w => Ok tt (effect (EvDelay ms) w).

Definition Serial_begin (baud : Z) : M unit :=
  fun w => Ok tt (effect (EvSerialBegin baud) w).

Definition Serial_print (s : string) : M unit :=
  fun w => Ok tt (effect (EvSerialOut s) w).

Definition Serial_println (s : string) : M unit :=
  fun w => Ok tt (effect (EvSerialOut (s ++ crlf)) w).

(* Serial.available(): the number of characters waiting (here 0 or 1). *)
Definition Serial_available : M Z :=
  fun w => let n := match serial_rx env (trace w) with Some _ => 1 | None => 0 end in
           Ok n (effect (EvSerialAvailable n) w).

(* Serial.read(): the next character, or -1 when none is waiting. *)
Definition Serial_read : M Z :=
  fun w => let c := match serial_rx env (trace w) with Some c => c | None => -1 end in
           Ok c (effect (EvSerialRead c) w).

Definition sd_begin : M bool :=
  fun w => let ok := sd_ok env (trace w) in Ok ok (effect (EvSdBegin ok) w).

Definition sd_exists (name : string) : M bool :=
  fun w => let r := match card w name with Some _ => true | None => false end in
           Ok r (effect (EvSdExists name r) w).

(* dumpfile = sd.open(name, FILE_WRITE); the value is the validity of the
   File, what [!dumpfile] tests. *)
Definition sd_open (name : string) : M bool :=
  fun w => let ok := sd_ok env (trace w) in Ok ok (effect (EvSdOpen name ok) w).

(* dumpfile.write(b): the number of bytes written, 1 or 0. *)
Definition File_write (b : Z) : M Z :=
  fun w => let ok := match dumpfile w with
                     | Some _ => sd_ok env (trace w)
                     | None => false
                     end in
           Ok (if ok then 1 else 0) (effect (EvFileWrite b ok) w).

Definition File_close : M bool :=
  fun w => let ok := match dumpfile w with
                     | Some _ => sd_ok env (trace w)
                     | None => false
                     end in
           Ok ok (effect (EvFileClose ok) w).

(** *** The sketch *)

(* Go the next file number and name in sequence *)
Definition next_file : M unit :=
  n <- load file_number ;;
  store (set_file_number (int_wrap (n + 1))) ;;
  n <- load file_number ;;
  (if n >? 999
   then Serial_println "Too many files for our naming convention. Clean off the SD card!" ;;
        halt  (* panic *)
   else ret tt) ;;
  n <- load file_number ;;
  store (set_filename (dump_name n)).

(* Set the entire address bus to tristate (undriven) *)
Definition tristate_address_pins : M unit :=
  for_int (Z.to_nat ADDRESS_BUS_WIDTH) 0
    (fun i _ => pinMode (bus_pin i) INPUT) tt.

(* Drive the data bus with a specified value *)
Definition drive_address (addr : Z) : M unit :=
  for_int 20 0
    (fun i _ =>
       pinMode (bus_pin i) OUTPUT ;;
       digitalWrite (bus_pin i) (negb (Z.land addr (ulong_wrap (Z.shiftl 1 i)) =? 0)))
    tt.

(* Set the data portion of the bus to tristate (undriven) *)
Definition tristate_data_pins : M unit :=
  for_int (Z.to_nat DATA_BUS_WIDTH) 0
    (fun i _ => pinMode (bus_pin i) INPUT) tt.

(* Return the 8-bit value on the data bus *)
Definition read_data : M Z :=
  for_int 8 0
    (fun i val =>
       b <- digitalRead (bus_pin i) ;;
       if b then ret (byte_wrap (Z.lor val (Z.shiftl 1 i))) else ret val)
    0.

(* Set all the bus control signals to driven with the idle values *)
Definition bus_state_driven_idle : M unit :=
  digitalWrite BUFEN HIGH ;;    pinMode BUFEN OUTPUT ;;
  digitalWrite BUFRW LOW ;;     pinMode BUFRW OUTPUT ;;
  digitalWrite ASTB LOW ;;      pinMode ASTB OUTPUT ;;
  digitalWrite RD HIGH ;;       pinMode RD OUTPUT ;;
  digitalWrite WR HIGH ;;       pinMode WR OUTPUT ;;
  digitalWrite IOMEM LOW ;;     pinMode IOMEM OUTPUT.

(* Set all the bus control signals and the address bus to tristate (undriven) *)
Definition bus_state_not_driven : M unit :=
  pinMode BUFEN INPUT ;;
  pinMode BUFRW INPUT ;;
  pinMode ASTB INPUT ;;
  pinMode RD INPUT ;;
  pinMode WR INPUT ;;
  pinMode IOMEM INPUT ;;
  tristate_address_pins.

(* Perform a single read cycle on the bus and return the result. *)
Definition bus_read_cycle (address : Z) : M Z :=
  drive_address address ;;
  digitalWrite ASTB HIGH ;;      (* ASTB pulses high *)
  digitalWrite ASTB LOW ;;       (* external address latch on this edge *)
  tristate_data_pins ;;          (* free up the data bus for the memory read *)
  digitalWrite RD LOW ;;         (* start reading the memory device *)
  digitalWrite BUFEN LOW ;;      (* enable any external data buffers *)
  delayMicroseconds 1 ;;         (* wait for the slow memory devices *)
  value <- read_data ;;          (* get the result *)
  digitalWrite BUFEN HIGH ;;     (* return the bus to idle state *)
  digitalWrite RD HIGH ;;
  ret value.

(* while (cond) body;  at most [fuel] evaluations of [cond] are followed;
   the loop is still running after them when every one of them was true. *)
Fixpoint while_loop (fuel : nat) (cond : M bool) (body : M unit) : M unit :=
  match fuel with
  | O => blocked
  | S fuel' => c <- cond ;; if c then body ;; while_loop fuel' cond body else ret tt
  end.

(* sd.initErrorHalt(msg): print the message and stop. *)
Definition sd_initErrorHalt {A} (msg : string) : M A :=
  Serial_println msg ;; halt.

(* setup(), lines 268-271: Find the next filename in order that isn't
   already used *)
Definition skip_existing_files (fuel : nat) : M unit :=
  while_loop fuel (name <- load filename ;; sd_exists name)
    next_file.    (* skip over all the existing files *)

(* Standard Arduino setup routine, runs once on powerup *)
Definition setup (fuel : nat) : M unit :=
  delay 1000 ;;
  Serial_begin 9600 ;;
  Serial_println "Cadetwriter ROM dumper 0.2" ;;
  pinMode HLDRQ OUTPUT ;;
  digitalWrite HLDRQ BUS_RELEASE ;;
  pinMode HLDAK INPUT ;;
  pinMode LED_BUILTIN OUTPUT ;;
  (* Set up the SD card to accept our dumped data *)
  ok <- sd_begin ;;
  (if negb ok
   then Serial_println "SD card not working!" ;;
        sd_initErrorHalt "SdFatSdioEX begin() failed"
   else ret tt) ;;
  skip_existing_files fuel ;;
  (* Let the user know if there were already files on the card *)
  n <- load file_number ;;
  (if n =? 1 then Serial_println "One dump file already exists on this SD card."
   else if n >? 1 then
     Serial_print (decimal n) ;;
     Serial_println " dump files already exist on this SD card."
   else ret tt).

(* loop(), lines 288-289: prompt, and wait for the user to hit Enter. *)
Definition await_enter (fuel : nat) : M unit :=
  Serial_println (nl ++ nl ++ "Hit Enter to dump the entire address space to a file.") ;;
  while_loop fuel
    (n <- Serial_available ;;
     if n =? 0 then ret true
     else c <- Serial_read ;; ret (negb (c =? 10)))
    (ret tt).

(* loop(), lines 291-294: take the bus from the V20. *)
Definition seize_bus (fuel : nat) : M unit :=
  Serial_print "Seizing the bus ... " ;;
  digitalWrite HLDRQ BUS_HOLD ;;
  while_loop fuel (v <- digitalRead HLDAK ;; ret (negb (Bool.eqb v BUS_ACK))) (ret tt) ;;
  Serial_println "ok".

(* The number of addresses the dump loop still has to go through when its
   loop variable holds [addr]. *)
Definition addresses_left (addr : Z) : nat := Z.to_nat (0x100000 - addr).
#[local] Opaque addresses_left.

(* loop(), lines 310-313: the dump itself,
     for (unsigned long addr = ...; addr <= 0xFFFFFul; addr++)
       dumpfile.write(bus_read_cycle(addr));
   from the value [addr] of the loop variable on. *)
Equations? dump_from (addr : Z) : M unit by wf (addresses_left addr) lt :=
  dump_from addr with Z_le_gt_dec addr 0xFFFFF => {
    | left _ :=
        value <- bus_read_cycle addr ;;
        File_write value ;;     (* ignoring any errors here. *)
        dump_from (ulong_wrap (addr + 1));
    | right _ := ret tt }.
Proof.
  with_strategy transparent [addresses_left] unfold addresses_left.
  unfold ulong_wrap.
  pose proof (Z.mod_pos_bound (addr + 1) (2 ^ 32) ltac:(lia)) as Hb.
  destruct (Z_lt_le_dec addr 0) as [Hneg | Hpos].
  - lia.
  - rewrite Z.mod_small by lia. lia.
Qed.
#[local] Opaque dump_from.

(* loop(), lines 296-320: with the bus seized, dump the address space to a
   new file. *)
Definition dump_to_file : M unit :=
  digitalWrite LED_BUILTIN HIGH ;;    (* a little feedback on the hardware *)
  bus_state_driven_idle ;;            (* take over the control signals on the bus *)
  (* Create a new empty data dump file on the SD card *)
  name <- load filename ;;
  valid <- sd_open name ;;
  (if negb valid
   then Serial_print "Failed to open " ;;
        name <- load filename ;;
        Serial_println name ;;
        halt      (* hang forever, don't try to recover. *)
   else ret tt) ;;
  Serial_println "Dumping ..." ;;
  (* Do the actual data dump, writing the results in raw binary to the file *)
  dump_from 0 ;;
  (* Try to close out the dump file, checking for errors. *)
  closed <- File_close ;;
  (if negb closed
   then Serial_print "Failed to close " ;;
        name <- load filename ;;
        Serial_println name
        (* don't panic. Maybe it's safe to try again? *)
   else ret tt).

(* loop(), lines 286-320: from the prompt to the closing of the dump file;
   the sketch still holds the bus when this part returns. *)
Definition loop_hold (fuel : nat) : M unit :=
  store (set_dumpfile None) ;;     (* File dumpfile; *)
  await_enter fuel ;;
  seize_bus fuel ;;
  dump_to_file.

(* loop(), lines 322-326: Release the bus to the V20 *)
Definition release_bus (fuel : nat) : M unit :=
  Serial_print "Releasing the bus ... " ;;
  digitalWrite HLDRQ BUS_RELEASE ;;
  while_loop fuel (v <- digitalRead HLDAK ;; ret (Bool.eqb v BUS_ACK)) (ret tt) ;;
  Serial_println "ok".

(* Standard Arduino loop function. Called repeatedly, forever. *)
Definition loop (fuel : nat) : M unit :=
  loop_hold fuel ;;
  release_bus fuel ;;
  digitalWrite LED_BUILTIN LOW ;;    (* a little feedback on the hardware *)
  (* Inform the user of completion and provide the filename *)
  Serial_print "Memory dumped to file " ;;
  name <- load filename ;;
  Serial_println name ;;
  next_file.

End Sketch.

(* The Arduino core calls loop() again and again ("Called repeatedly,
   forever"): [k] passes in a row. *)
Fixpoint loop_passes (env : Env) (fuel : nat) (k : nat) : M unit :=
  match k with
  | O => ret tt
  | S k' => loop env fuel ;; loop_passes env fuel k'
  end.

(** ** What a recorder sees

    The definitions below describe traces; the theorems compare them with
    what the sketch records. *)

(* lo, lo + 1, ..., lo + n - 1 *)
Fixpoint Zrange (lo : Z) (n : nat) : list Z :=
  match n with
  | O => []
  | S n' => lo :: Zrange (lo + 1) n'
  end.

(* The pins of bus lines 0 to 7, the lines that double as the data bus. *)
Definition data_pins : list Z := firstn 8 bus_pins.

(* The levels a sequence of digitalRead calls on [pins] returns when the
   history is [h] at the first of them. *)
Fixpoint observe (env : Env) (h : list Event) (pins : list Z) : list bool :=
  match pins with
  | [] => []
  | p :: ps => let v := line_level env h p in
               v :: observe env (h ++ [EvRead p v]) ps
  end.

(* The number whose bit i is the i-th level of the list. *)
Fixpoint bits_to_byte (bits : list bool) : Z :=
  match bits with
  | [] => 0
  | b :: bs => Z.b2z b + 2 * bits_to_byte bs
  end.

(* Address drive: every bus line set to output and written with its bit. *)
Definition drive_events (a : Z) : list Event :=
  flat_map (fun i => [EvPinMode (bus_pin i) OUTPUT; EvWrite (bus_pin i) (Z.testbit a i)])
           (Zrange 0 20).

(* Release of the low byte of the bus to floating. *)
Definition release_data_events : list Event :=
  map (fun p => EvPinMode p INPUT) data_pins.

(* The sampling of the data lines, line 0 first. *)
Definition read_events (bits : list bool) : list Event :=
  map (fun pb => EvRead (fst pb) (snd pb)) (combine data_pins bits).

(* What a read cycle records before it samples. *)
Definition cycle_prefix (a : Z) : list Event :=
  drive_events a
  ++ [EvWrite ASTB HIGH; EvWrite ASTB LOW]
  ++ release_data_events
  ++ [EvWrite RD LOW; EvWrite BUFEN LOW]
  ++ [EvDelayMicros 1].

(* One read cycle at address [a] that sampled [bits]. *)
Definition cycle_events (a : Z) (bits : list bool) : list Event :=
  cycle_prefix a
  ++ read_events bits
  ++ [EvWrite BUFEN HIGH; EvWrite RD HIGH].

(* The levels a read cycle at address [a] samples when it starts with
   history [h]. *)
Definition cycle_bits (env : Env) (h : list Event) (a : Z) : list bool :=
  observe env (h ++ cycle_prefix a) data_pins.

(* One step of the dump: the read cycle at [a] that sampled [bits], then the
   forwarding of the sampled byte to the file, which the card accepted or not. *)
Definition capture_chunk (a : Z) (o : list bool * bool) : list Event :=
  cycle_events a (fst o) ++ [EvFileWrite (bits_to_byte (fst o)) (snd o)].

Fixpoint capture_events (addrs : list Z) (obs : list (list bool * bool)) : list Event :=
  match addrs, obs with
  | a :: addrs', o :: obs' => capture_chunk a o ++ capture_events addrs' obs'
  | _, _ => []
  end.

(* What the dump observes, address by address, from history [h] on: the
   sampled levels and whether the write went through ([opened]: the dump
   file is open). *)
Fixpoint observed (env : Env) (opened : bool) (h : list Event) (addrs : list Z)
  : list (list bool * bool) :=
  match addrs with
  | [] => []
  | a :: addrs' =>
      let bits := cycle_bits env h a in
      let ok := if opened then sd_ok env (h ++ cycle_events a bits) else false in
      (bits, ok) :: observed env opened (h ++ capture_chunk a (bits, ok)) addrs'
  end.

Definition is_open (w : World) : bool :=
  match dumpfile w with Some _ => true | None => false end.

(* The bytes the card accepted, in order. *)
Fixpoint written (evs : list Event) : list Z :=
  match evs with
  | [] => []
  | EvFileWrite b true :: evs' => b :: written evs'
  | _ :: evs' => written evs'
  end.

(* The bytes handed to dumpfile.write, accepted or not, in order. *)
Fixpoint forwarded (evs : list Event) : list Z :=
  match evs with
  | [] => []
  | EvFileWrite b _ :: evs' => b :: forwarded evs'
  | _ :: evs' => forwarded evs'
  end.

(* The value [val] holds after the passes of the loop of read_data for the
   lines [i], [i + 1], ... that read the levels [bits]. *)
Fixpoint pack (i : Z) (val : Z) (bits : list bool) : Z :=
  match bits with
  | [] => val
  | b :: bs => pack (i + 1) (if b then byte_wrap (Z.lor val (Z.shiftl 1 i)) else val) bs
  end.

(* The level of the output latch of [pin] after the events [h], when it was
   [v] before them: the last level written to the pin. *)
Fixpoint last_written (pin : Z) (h : list Event) (v : bool) : bool :=
  match h with
  | [] => v
  | EvWrite p x :: h' => last_written pin h' (if p =? pin then x else v)
  | _ :: h' => last_written pin h' v
  end.

(* The direction of [pin] after the events [h], when it was [m] before. *)
Fixpoint last_mode (pin : Z) (h : list Event) (m : PinMode) : PinMode :=
  match h with
  | [] => m
  | EvPinMode p x :: h' => last_mode pin h' (if p =? pin then x else m)
  | _ :: h' => last_mode pin h' m
  end.


(* What bus_state_driven_idle records. *)
Definition idle_events : list Event :=
  [EvWrite BUFEN HIGH; EvPinMode BUFEN OUTPUT;
   EvWrite BUFRW LOW;  EvPinMode BUFRW OUTPUT;
   EvWrite ASTB LOW;   EvPinMode ASTB OUTPUT;
   EvWrite RD HIGH;    EvPinMode RD OUTPUT;
   EvWrite WR HIGH;    EvPinMode WR OUTPUT;
   EvWrite IOMEM LOW;  EvPinMode IOMEM OUTPUT].

(* The hold request, [k] polls that read no acknowledge, and the poll that
   reads the acknowledge. *)
Definition seize_events (k : nat) : list Event :=
  [EvSerialOut "Seizing the bus ... "; EvWrite HLDRQ BUS_HOLD]
  ++ repeat (EvRead HLDAK BUS_NAK) k
  ++ [EvRead HLDAK BUS_ACK; EvSerialOut ("ok" ++ crlf)].

(* The withdrawal of the hold request, [k] polls that still read the
   acknowledge, and the poll that reads it withdrawn. *)
Definition release_events (k : nat) : list Event :=
  [EvSerialOut "Releasing the bus ... "; EvWrite HLDRQ BUS_RELEASE]
  ++ repeat (EvRead HLDAK BUS_ACK) k
  ++ [EvRead HLDAK BUS_NAK; EvSerialOut ("ok" ++ crlf)].

(* Traffic on the serial console. *)
Definition is_console (e : Event) : bool :=
  match e with
  | EvSerialOut _ | EvSerialAvailable _ | EvSerialRead _ => true
  | _ => false
  end.

(* What dump_to_file records before the dump loop, on a card that opens the
   file [name], and after it. *)
Definition dump_prologue (name : string) : list Event :=
  [EvWrite LED_BUILTIN HIGH] ++ idle_events
  ++ [EvSdOpen name true; EvSerialOut ("Dumping ..." ++ crlf)].

Definition dump_epilogue (name : string) (closed : bool) : list Event :=
  if closed then [EvFileClose true]
  else [EvFileClose false; EvSerialOut "Failed to close "; EvSerialOut (name ++ crlf)].

(* The direction a pin is left in by one read cycle, when it was [m]: the
   eight data lines float, the other bus lines are driven, any other pin is
   as it was. *)
Definition chunk_mode (p : Z) (m : PinMode) : PinMode :=
  if existsb (Z.eqb p) data_pins then INPUT
  else if existsb (Z.eqb p) bus_pins then OUTPUT
  else m.

(* What the sketch records while it waits for Enter on the test bench. *)
Definition bench_console : list Event :=
  [EvSerialOut (nl ++ nl ++ "Hit Enter to dump the entire address space to a file." ++ crlf);
   EvSerialAvailable 1; EvSerialRead 10].

(* What loop() records after the release of the bus. *)
Definition report_events (name : string) : list Event :=
  [EvWrite LED_BUILTIN LOW; EvSerialOut "Memory dumped to file ";
   EvSerialOut (name ++ crlf)].

(* What next_file prints before it stops the sketch. *)
Definition too_many_files : Event :=
  EvSerialOut ("Too many files for our naming convention. Clean off the SD card!" ++ crlf).

(* The probes of the names number [k], ..., [k + m - 1], all found, then the
   probe of number [k + m], not found. *)
Definition probes (k : Z) (m : nat) : list Event :=
  map (fun j => EvSdExists (dump_name j) true) (Zrange k m)
  ++ [EvSdExists (dump_name (k + Z.of_nat m)) false].

(* What dump_to_file records when the card refuses to open the file. *)
Definition open_failure (name : string) : list Event :=
  [EvWrite LED_BUILTIN HIGH] ++ idle_events
  ++ [EvSdOpen name false; EvSerialOut "Failed to open "; EvSerialOut (name ++ crlf)].

(* What setup() records before it turns to the SD card. *)
Definition setup_events : list Event :=
  [EvDelay 1000; EvSerialBegin 9600;
   EvSerialOut ("Cadetwriter ROM dumper 0.2" ++ crlf);
   EvPinMode HLDRQ OUTPUT; EvWrite HLDRQ BUS_RELEASE;
   EvPinMode HLDAK INPUT; EvPinMode LED_BUILTIN OUTPUT].

(* The number written in the three digits of a dump file name. *)
Definition digit_of (c : ascii) : Z := Z.of_nat (nat_of_ascii c) - 48.

Definition slot_of_name (s : string) : Z :=
  match s with
  | String _ (String _ (String _ (String _ (String _
      (String d2 (String d1 (String d0 _))))))) =>
      100 * digit_of d2 + 10 * digit_of d1 + digit_of d0
  | _ => -1
  end.

(* Events that leave the files on the card as they are. *)
Definition keeps_card (e : Event) : bool :=
  match e with
  | EvSdOpen _ true | EvFileWrite _ true => false
  | _ => true
  end.

(* What the file holds before a capture opens it. *)
Definition old_contents (w : World) : list Z :=
  match card w (filename w) with Some bs => bs | None => [] end.

(* Events that leave the dump file open or closed as it is. *)
Definition keeps_file (e : Event) : bool :=
  match e with
  | EvSdOpen _ _ | EvFileClose _ => false
  | _ => true
  end.

(* The events recorded between two states of one run. *)
Definition emitted (w w' : World) : list Event :=
  skipn (List.length (trace w)) (trace w').

Definition is_write (pin : Z) (level : bool) (e : Event) : bool :=
  match e with
  | EvWrite p v => (p =? pin) && Bool.eqb v level
  | _ => false
  end.

(* The position of the first event that satisfies [p]. *)
Fixpoint first_index (p : Event -> bool) (evs : list Event) : option nat :=
  match evs with
  | [] => None
  | e :: evs' => if p e then Some O
                 else match first_index p evs' with
                      | Some k => Some (S k)
                      | None => None
                      end
  end.

(* Both events occur, the first one earlier. *)
Definition precedes (p q : Event -> bool) (evs : list Event) : bool :=
  match first_index p evs, first_index q evs with
  | Some i, Some j => (i <? j)%nat
  | _, _ => false
  end.

(* The writes to the pins [outer] and [inner] among the events, in order. *)
Fixpoint enable_writes (outer inner : Z) (evs : list Event) : list (Z * bool) :=
  match evs with
  | [] => []
  | EvWrite p v :: evs' =>
      if (p =? outer) || (p =? inner)
      then (p, v) :: enable_writes outer inner evs'
      else enable_writes outer inner evs'
  | _ :: evs' => enable_writes outer inner evs'
  end.

(* The window of the active-low enable [outer] brackets the window of
   [inner]: the two enables are written four times in all, [outer] low,
   [inner] low, [inner] high, [outer] high, in this order.  Each window
   opens once and closes once, and [inner] is asserted only while [outer]
   is. *)
Definition brackets (outer inner : Z) (evs : list Event) : bool :=
  match enable_writes outer inner evs with
  | [(p1, false); (p2, false); (p3, true); (p4, true)] =>
      (p1 =? outer) && (p2 =? inner) && (p3 =? inner) && (p4 =? outer)
  | _ => false
  end.

(* The lines the sketch has in output mode. *)
Definition driven (w : World) (pins : list Z) : list Z :=
  filter (fun p => match pin_mode w p with OUTPUT => true | INPUT => false end) pins.

(** ** A test bench

    A target that answers the hold request at once (HLDAK follows the last
    level written to HLDRQ) and presents the bits of [pattern] on the data
    lines, an operator who has pressed Enter, and a card that carries out an
    operation when [card_ok] says so. *)

Fixpoint line_of_pin (p : Z) (pins : list Z) (i : Z) : option Z :=
  match pins with
  | [] => None
  | q :: pins' => if q =? p then Some i else line_of_pin p pins' (i + 1)
  end.

Definition bench (pattern : Z) (card_ok : list Event -> bool) : Env :=
  {| line_level := fun h p =>
       if p =? HLDAK then last_written HLDRQ h LOW
       else match line_of_pin p bus_pins 0 with
            | Some i => Z.testbit pattern i
            | None => false
            end;
     serial_rx := fun _ => Some 10;
     sd_ok := card_ok |}.

Definition is_file_write (e : Event) : bool :=
  match e with EvFileWrite _ _ => true | _ => false end.

Definition is_sd_open (e : Event) : bool :=
  match e with EvSdOpen _ _ => true | _ => false end.

(* A card that carries out everything. *)
Definition sound_card : list Event -> bool := fun _ => true.

(* A card that fails the first write to the dump file and nothing else. *)
Definition card_failing_first_write : list Event -> bool :=
  fun h => negb (existsb is_sd_open h) || existsb is_file_write h.

(* The card [c] has the dump file number [n]. *)
Definition on_card (c : string -> option (list Z)) (n : Z) : bool :=
  match c (dump_name n) with Some _ => true | None => false end.

(* The sketch at power-up, with the files [c] on the card. *)
Definition power_on (c : string -> option (list Z)) : World :=
  {| pin_mode := fun _ => INPUT; pin_out := fun _ => LOW; trace := [];
     file_number := 0; filename := "CWMEM000.BIN";
     card := c; dumpfile := None |}.

Definition empty_card : string -> option (list Z) := fun _ => None.

(* A card that holds the dump files of the numbers in [ns], all empty. *)
Definition card_with (ns : list Z) : string -> option (list Z) :=
  fun s => if existsb (fun n => String.eqb s (dump_name n)) ns then Some [] else None.

(** ** setup() and the passes of loop()

    Vocabulary for what the sketch as a whole records and leaves behind. *)

(* setup(), lines 273-279: what it tells the user about the [n] dump files
   it found on the card. *)
Definition files_found_report (n : Z) : list Event :=
  if n =? 1
  then [EvSerialOut ("One dump file already exists on this SD card." ++ crlf)]
  else if n >? 1
       then [EvSerialOut (decimal n);
             EvSerialOut (" dump files already exist on this SD card." ++ crlf)]
       else [].

(* The state [w] with the globals file_number and filename replaced. *)
Definition relabel (n : Z) (s : string) (w : World) : World :=
  set_filename s (set_file_number n w).

(* Events that change neither a pin nor the card nor the dump file. *)
Definition is_quiet (e : Event) : bool :=
  match e with
  | EvPinMode _ _ | EvWrite _ _ | EvSdOpen _ _ | EvFileWrite _ _ | EvFileClose _ => false
  | _ => true
  end.

(* loop(), line 288: the prompt. *)
Definition prompt : Event :=
  EvSerialOut (nl ++ nl ++ "Hit Enter to dump the entire address space to a file."
               ++ crlf).


(* What a file of the card holds; nothing when the card does not have it. *)
Definition contents_of (c : string -> option (list Z)) (s : string) : list Z :=
  match c s with Some bs => bs | None => [] end.

(** ** The bus lines between two statements *)

(* bus_state_driven_idle, lines 203-208: the idle level of a control line.
   The strobes BUFEN, RD and WR are active low and idle high; BUFRW, ASTB and
   IOMEM idle low. *)
Definition idle_level (p : Z) : bool := (p =? BUFEN) || (p =? RD) || (p =? WR).

Definition is_mode (pin : Z) (m : PinMode) (e : Event) : bool :=
  match e with
  | EvPinMode p x => (p =? pin) && match x, m with
                                   | INPUT, INPUT | OUTPUT, OUTPUT => true
                                   | _, _ => false
                                   end
  | _ => false
  end.

(* The latch of pin [p] after a read cycle at address [a], when it held [v]
   before: a bus line keeps the address bit written to it, the strobe and
   the enables are idle, any other pin is as it was. *)
Definition cycle_level (a : Z) (p : Z) (v : bool) : bool :=
  match line_of_pin p bus_pins 0 with
  | Some i => Z.testbit a i
  | None => if p =? ASTB then LOW
            else if (p =? RD) || (p =? BUFEN) then HIGH
            else v
  end.

(** ** A target with a memory

    The V20 system as the sketch meets it once it holds the bus: an address
    latch that takes the address off the bus lines when ASTB goes low, and a
    memory that presents the byte at the latched address on the data lines
    while RD is low.  As on the test bench, HLDAK follows HLDRQ and the
    operator has pressed Enter. *)

(* The address the levels [lines] of the twenty bus pins spell, line 0 the
   least significant bit. *)
Definition address_of (lines : Z -> bool) : Z :=
  bits_to_byte (map (fun i => lines (bus_pin i)) (Zrange 0 20)).

(* The address the latch holds after the events [h]: what the bus lines
   spelled when ASTB was last written low.  [lines] are the levels written to
   the pins so far, [held] is the address latched so far. *)
Fixpoint latched (h : list Event) (lines : Z -> bool) (held : Z) : Z :=
  match h with
  | [] => held
  | EvWrite p v :: h' =>
      let lines' := fun q => if p =? q then v else lines q in
      latched h' lines' (if (p =? ASTB) && negb v then address_of lines' else held)
  | _ :: h' => latched h' lines held
  end.

Definition target (mem : Z -> Z) (card_ok : list Event -> bool) : Env :=
  {| line_level := fun h p =>
       if p =? HLDAK then last_written HLDRQ h LOW
       else match line_of_pin p bus_pins 0 with
            | Some i => (i <? 8) && negb (last_written RD h HIGH)
                        && Z.testbit (mem (latched h (fun _ => LOW) 0)) i
            | None => false
            end;
     serial_rx := fun _ => Some 10;
     sd_ok := card_ok |}.

(* The first [n] bytes of the memory, as a dump file holds them. *)
Definition memory_image (mem : Z -> Z) (n : nat) : list Z :=
  map (fun a => mem a mod 2 ^ 8) (Zrange 0 n).

(* An operator who has pressed Enter and a target that grants and withdraws
   the hold acknowledge as soon as HLDRQ is written. *)
Definition responsive (env : Env) : Prop :=
  (forall h, serial_rx env h = Some 10)
  /\ (forall h, line_level env h HLDAK = last_written HLDRQ h LOW).

(* A card that refuses everything. *)
Definition dead_card : list Event -> bool := fun _ => false.

(* A card that fails what it is asked right after a write to the dump file.
   In this sketch that is the close of the file: every write follows a read
   cycle. *)
Definition card_failing_close : list Event -> bool :=
  fun h => match rev h with
           | EvFileWrite _ _ :: _ => false
           | _ => true
           end.

(** ** The shape of a pass of loop()

    Where a pass is when it returns, stops or is stuck in a busy-wait, and
    what it has recorded by then when it works on the file [name]; [n] is
    the number of addresses of the dump. *)

Inductive Stage :=
| Waiting        (* for Enter *)
| Requesting     (* HLDRQ raised, no acknowledge yet *)
| OpenFailed     (* stopped: the dump file could not be opened *)
| Releasing      (* HLDRQ lowered, the acknowledge not yet withdrawn *)
| Returned       (* loop() returned *)
| OutOfNames.    (* stopped in next_file *)

(* How loop() ends at each stage. *)
Definition outcome (st : Stage) (w : World) : Result unit :=
  match st with
  | Returned => Ok tt w
  | OpenFailed | OutOfNames => Halted w
  | Waiting | Requesting | Releasing => Blocked w
  end.

Inductive pass (name : string) (n : nat) : Stage -> list Event -> Prop :=
| pass_waiting console :
    forallb is_console console = true ->
    pass name n Waiting console
| pass_requesting console k :
    forallb is_console console = true ->
    pass name n Requesting
      (console ++ [EvSerialOut "Seizing the bus ... "; EvWrite HLDRQ BUS_HOLD]
       ++ repeat (EvRead HLDAK BUS_NAK) k)
| pass_open_failed console k :
    forallb is_console console = true ->
    pass name n OpenFailed (console ++ seize_events k ++ open_failure name)
| pass_releasing console k obs closed j :
    forallb is_console console = true ->
    List.length obs = n ->
    pass name n Releasing
      (console ++ seize_events k ++ dump_prologue name
       ++ capture_events (Zrange 0 n) obs ++ dump_epilogue name closed
       ++ [EvSerialOut "Releasing the bus ... "; EvWrite HLDRQ BUS_RELEASE]
       ++ repeat (EvRead HLDAK BUS_ACK) j)
| pass_returned console k obs closed j :
    forallb is_console console = true ->
    List.length obs = n ->
    pass name n Returned
      (console ++ seize_events k ++ dump_prologue name
       ++ capture_events (Zrange 0 n) obs ++ dump_epilogue name closed
       ++ release_events j ++ report_events name)
| pass_out_of_names console k obs closed j :
    forallb is_console console = true ->
    List.length obs = n ->
    pass name n OutOfNames
      (console ++ seize_events k ++ dump_prologue name
       ++ capture_events (Zrange 0 n) obs ++ dump_epilogue name closed
       ++ release_events j ++ report_events name ++ [too_many_files]).




(* Events that open no file but [name]. *)
Definition opens_only (name : string) (e : Event) : bool :=
  match e with
  | EvSdOpen s true => String.eqb s name
  | _ => true
  end.

(** * Proofs *)

(** ** Events and their effect *)

Lemma run_nil w : run [] w = w.
Proof. reflexivity. Qed.

Lemma run_cons e evs w : run (e :: evs) w = run evs (effect e w).
Proof. reflexivity. Qed.

Lemma run_app evs1 evs2 w : run (evs1 ++ evs2) w = run evs2 (run evs1 w).
Proof. unfold run. apply fold_left_app. Qed.

Lemma run_one e w : effect e w = run [e] w.
Proof. reflexivity. Qed.

Lemma trace_effect e w : trace (effect e w) = trace w ++ [e].
Proof.
  destruct e; try reflexivity.
  - destruct ok; reflexivity.
  - destruct ok; [destruct (dumpfile w) eqn:E; unfold effect; rewrite E |]; reflexivity.
Qed.

Lemma trace_run evs w : trace (run evs w) = trace w ++ evs.
Proof.
  revert w. induction evs as [| e evs IH]; intro w.
  - now rewrite app_nil_r.
  - rewrite run_cons, IH, trace_effect, <- app_assoc. reflexivity.
Qed.

Lemma file_number_effect e w : file_number (effect e w) = file_number w.
Proof.
  destruct e; try reflexivity.
  - destruct ok; reflexivity.
  - destruct ok; [destruct (dumpfile w) eqn:E; unfold effect; rewrite E |]; reflexivity.
Qed.

Lemma filename_effect e w : filename (effect e w) = filename w.
Proof.
  destruct e; try reflexivity.
  - destruct ok; reflexivity.
  - destruct ok; [destruct (dumpfile w) eqn:E; unfold effect; rewrite E |]; reflexivity.
Qed.

Lemma file_number_run evs w : file_number (run evs w) = file_number w.
Proof.
  revert w. induction evs as [| e evs IH]; intro w; [reflexivity |].
  rewrite run_cons, IH. apply file_number_effect.
Qed.

Lemma filename_run evs w : filename (run evs w) = filename w.
Proof.
  revert w. induction evs as [| e evs IH]; intro w; [reflexivity |].
  rewrite run_cons, IH. apply filename_effect.
Qed.

Lemma emitted_run evs w : emitted w (run evs w) = evs.
Proof.
  unfold emitted. rewrite trace_run.
  induction (trace w) as [| x t IH]; [reflexivity | exact IH].
Qed.

(* A statement that returns [a] and records [evs], nothing else. *)
Lemma bind_run {A B} (m : M A) (k : A -> M B) w a evs1 b evs2 :
  m w = Ok a (run evs1 w) ->
  k a (run evs1 w) = Ok b (run evs2 (run evs1 w)) ->
  bind m k w = Ok b (run (evs1 ++ evs2) w).
Proof.
  intros Hm Hk. unfold bind. rewrite Hm, Hk, run_app. reflexivity.
Qed.

Lemma Zrange_length lo n : List.length (Zrange lo n) = n.
Proof. revert lo. induction n; intro lo; simpl; [| rewrite IHn]; reflexivity. Qed.

Lemma Zrange_In lo n x : In x (Zrange lo n) <-> lo <= x < lo + Z.of_nat n.
Proof.
  revert lo. induction n as [| n IH]; intro lo.
  - simpl. lia.
  - cbn [Zrange In]. rewrite IH. lia.
Qed.

Lemma Zrange_nth lo n k : (k < n)%nat -> nth k (Zrange lo n) 0 = lo + Z.of_nat k.
Proof.
  revert lo k. induction n as [| n IH]; intros lo k Hk; [lia |].
  destruct k as [| k]; cbn [Zrange nth].
  - lia.
  - rewrite IH by lia. lia.
Qed.


(** ** The address driver and the data sampler *)

(* !!(addr & (1UL << i)) is bit i of addr. *)
Lemma address_bit a i :
  0 <= i < 32 -> negb (Z.land a (ulong_wrap (Z.shiftl 1 i)) =? 0) = Z.testbit a i.
Proof.
  intro Hi. unfold ulong_wrap.
  rewrite Z.shiftl_1_l.
  rewrite Z.mod_small
    by (split; [apply Z.pow_nonneg; lia | apply Z.pow_lt_mono_r; lia]).
  assert (Hland : Z.land a (2 ^ i) = if Z.testbit a i then 2 ^ i else 0).
  { apply Z.bits_inj'. intros n Hn.
    rewrite Z.land_spec, Z.pow2_bits_eqb by lia.
    destruct (Z.eqb_spec i n) as [-> | Hne].
    - destruct (Z.testbit a n); [now rewrite Z.pow2_bits_true by lia | now rewrite Z.bits_0].
    - rewrite andb_false_r.
      destruct (Z.testbit a i); [rewrite Z.pow2_bits_false by lia | rewrite Z.bits_0]; reflexivity. }
  rewrite Hland.
  destruct (Z.testbit a i); [| reflexivity].
  assert (0 < 2 ^ i) by (apply Z.pow_pos_nonneg; lia).
  destruct (Z.eqb_spec (2 ^ i) 0); [lia | reflexivity].
Qed.

Lemma drive_loop a n i w :
  0 <= i -> i + Z.of_nat n <= 32 ->
  for_int n i
    (fun i _ =>
       pinMode (bus_pin i) OUTPUT ;;
       digitalWrite (bus_pin i) (negb (Z.land a (ulong_wrap (Z.shiftl 1 i)) =? 0)))
    tt w
  = Ok tt (run (flat_map (fun i => [EvPinMode (bus_pin i) OUTPUT;
                                    EvWrite (bus_pin i) (Z.testbit a i)])
                         (Zrange i n)) w).
Proof.
  revert i w. induction n as [| n IH]; intros i w Hi Hn.
  - reflexivity.
  - cbn [for_int Zrange flat_map].
    apply (bind_run _ _ w tt [EvPinMode (bus_pin i) OUTPUT; EvWrite (bus_pin i) (Z.testbit a i)]).
    + unfold bind, pinMode, digitalWrite. rewrite address_bit by lia. reflexivity.
    + apply IH; lia.
Qed.

Lemma drive_address_run a w :
  drive_address a w = Ok tt (run (drive_events a) w).
Proof. apply drive_loop; lia. Qed.

Lemma tristate_loop n i w :
  for_int n i (fun i _ => pinMode (bus_pin i) INPUT) tt w
  = Ok tt (run (map (fun i => EvPinMode (bus_pin i) INPUT) (Zrange i n)) w).
Proof.
  revert i w. induction n as [| n IH]; intros i w.
  - reflexivity.
  - cbn [for_int Zrange map].
    apply (bind_run _ _ w tt [EvPinMode (bus_pin i) INPUT]); [reflexivity | apply IH].
Qed.

Lemma tristate_data_pins_run w :
  tristate_data_pins w = Ok tt (run release_data_events w).
Proof. apply (tristate_loop 8 0 w). Qed.

Lemma tristate_address_pins_run w :
  tristate_address_pins w = Ok tt (run (map (fun p => EvPinMode p INPUT) bus_pins) w).
Proof. apply (tristate_loop 20 0 w). Qed.

Lemma read_loop env n i val w :
  let bits := observe env (trace w) (map bus_pin (Zrange i n)) in
  for_int n i
    (fun i val =>
       b <- digitalRead env (bus_pin i) ;;
       if b then ret (byte_wrap (Z.lor val (Z.shiftl 1 i))) else ret val)
    val w
  = Ok (pack i val bits)
       (run (map (fun pb => EvRead (fst pb) (snd pb))
                 (combine (map bus_pin (Zrange i n)) bits)) w).
Proof.
  revert i val w. induction n as [| n IH]; intros i val w.
  - reflexivity.
  - cbn [for_int Zrange map observe combine pack fst snd].
    set (v := line_level env (trace w) (bus_pin i)).
    apply (bind_run _ _ w (if v then byte_wrap (Z.lor val (Z.shiftl 1 i)) else val)
                    [EvRead (bus_pin i) v]).
    + unfold bind, digitalRead. fold v. destruct v; reflexivity.
    + specialize (IH (i + 1) (if v then byte_wrap (Z.lor val (Z.shiftl 1 i)) else val)
                     (run [EvRead (bus_pin i) v] w)).
      cbv zeta in IH. rewrite trace_run in IH. exact IH.
Qed.

Lemma observe_length env h pins : List.length (observe env h pins) = List.length pins.
Proof.
  revert h. induction pins as [| p ps IH]; intro h; simpl; [| rewrite IH]; reflexivity.
Qed.

Lemma pack_byte b0 b1 b2 b3 b4 b5 b6 b7 :
  pack 0 0 [b0; b1; b2; b3; b4; b5; b6; b7]
  = bits_to_byte [b0; b1; b2; b3; b4; b5; b6; b7].
Proof.
  destruct b0, b1, b2, b3, b4, b5, b6, b7; vm_compute; reflexivity.
Qed.

Lemma eight_levels (bits : list bool) :
  List.length bits = 8%nat ->
  exists b0 b1 b2 b3 b4 b5 b6 b7, bits = [b0; b1; b2; b3; b4; b5; b6; b7].
Proof.
  intro H.
  do 8 (destruct bits as [| ? bits]; [discriminate |]).
  destruct bits; [| discriminate].
  repeat eexists.
Qed.

Lemma read_data_run env w :
  let bits := observe env (trace w) data_pins in
  read_data env w = Ok (bits_to_byte bits) (run (read_events bits) w).
Proof.
  intro bits. unfold read_data. rewrite read_loop.
  change (map bus_pin (Zrange 0 8)) with data_pins. fold bits.
  destruct (eight_levels bits) as (b0 & b1 & b2 & b3 & b4 & b5 & b6 & b7 & E).
  { unfold bits. now rewrite observe_length. }
  rewrite E, pack_byte. reflexivity.
Qed.

Lemma testbit_bits_to_byte bits i :
  0 <= i -> Z.testbit (bits_to_byte bits) i = nth (Z.to_nat i) bits false.
Proof.
  revert i. induction bits as [| b bs IH]; intros i Hi.
  - simpl. rewrite Z.bits_0. now destruct (Z.to_nat i).
  - cbn [bits_to_byte].
    replace (Z.b2z b + 2 * bits_to_byte bs) with (2 * bits_to_byte bs + Z.b2z b) by lia.
    destruct (Z.eq_dec i 0) as [-> | Hne].
    + now rewrite Z.testbit_0_r.
    + replace i with (Z.succ (i - 1)) at 1 by lia.
      rewrite Z.testbit_succ_r by lia.
      rewrite IH by lia.
      replace (Z.to_nat i) with (S (Z.to_nat (i - 1))) by lia.
      reflexivity.
Qed.

Lemma bits_to_byte_bound bits :
  0 <= bits_to_byte bits < 2 ^ Z.of_nat (List.length bits).
Proof.
  induction bits as [| b bs IH].
  - simpl. lia.
  - cbn [bits_to_byte List.length]. rewrite Nat2Z.inj_succ, Z.pow_succ_r by lia.
    destruct b; simpl Z.b2z; lia.
Qed.

(** ** The bus cycle engine *)

Lemma digitalWrite_run p v w : digitalWrite p v w = Ok tt (run [EvWrite p v] w).
Proof. reflexivity. Qed.

Lemma pinMode_run p m w : pinMode p m w = Ok tt (run [EvPinMode p m] w).
Proof. reflexivity. Qed.

Lemma delayMicroseconds_run us w : delayMicroseconds us w = Ok tt (run [EvDelayMicros us] w).
Proof. reflexivity. Qed.

Lemma ret_run {A} (a : A) w : ret a w = Ok a (run [] w).
Proof. reflexivity. Qed.

Lemma bus_read_cycle_run env a w :
  let bits := cycle_bits env (trace w) a in
  bus_read_cycle env a w = Ok (bits_to_byte bits) (run (cycle_events a bits) w).
Proof.
  intro bits.
  assert (Hbits : forall w', trace w' = trace w ++ cycle_prefix a ->
                             observe env (trace w') data_pins = bits).
  { intros w' ->. reflexivity. }
  clearbody bits.
  unfold bus_read_cycle.
  change (cycle_events a bits)
    with (drive_events a ++ [EvWrite ASTB HIGH] ++ [EvWrite ASTB LOW]
          ++ release_data_events ++ [EvWrite RD LOW] ++ [EvWrite BUFEN LOW]
          ++ [EvDelayMicros 1] ++ read_events bits
          ++ [EvWrite BUFEN HIGH] ++ [EvWrite RD HIGH] ++ []).
  eapply bind_run; [apply drive_address_run |].
  eapply bind_run; [apply digitalWrite_run |].
  eapply bind_run; [apply digitalWrite_run |].
  eapply bind_run; [apply tristate_data_pins_run |].
  eapply bind_run; [apply digitalWrite_run |].
  eapply bind_run; [apply digitalWrite_run |].
  eapply bind_run; [apply delayMicroseconds_run |].
  eapply bind_run.
  { rewrite read_data_run, Hbits; [reflexivity |].
    repeat rewrite trace_run. unfold cycle_prefix.
    repeat rewrite <- app_assoc. reflexivity. }
  eapply bind_run; [apply digitalWrite_run |].
  eapply bind_run; [apply digitalWrite_run |].
  apply ret_run.
Qed.

Lemma pin_mode_run evs w p : pin_mode (run evs w) p = last_mode p evs (pin_mode w p).
Proof.
  revert w. induction evs as [| e evs IH]; intro w; [reflexivity |].
  rewrite run_cons, IH.
  destruct e; try reflexivity.
  - cbn [last_mode effect log set_pin_mode pin_mode].
    rewrite (Z.eqb_sym p pin). reflexivity.
  - destruct ok; reflexivity.
  - destruct ok; [destruct (dumpfile w) eqn:E; unfold effect; rewrite E |]; reflexivity.
Qed.

Lemma pin_out_run evs w p : pin_out (run evs w) p = last_written p evs (pin_out w p).
Proof.
  revert w. induction evs as [| e evs IH]; intro w; [reflexivity |].
  rewrite run_cons, IH.
  destruct e; try reflexivity.
  - cbn [last_written effect log set_pin_out pin_out].
    rewrite (Z.eqb_sym p pin). reflexivity.
  - destruct ok; reflexivity.
  - destruct ok; [destruct (dumpfile w) eqn:E; unfold effect; rewrite E |]; reflexivity.
Qed.

Lemma last_mode_app p h1 h2 m : last_mode p (h1 ++ h2) m = last_mode p h2 (last_mode p h1 m).
Proof.
  revert m. induction h1 as [| e h1 IH]; intro m; [reflexivity |].
  destruct e; cbn [app last_mode]; apply IH.
Qed.

Lemma last_written_app p h1 h2 v :
  last_written p (h1 ++ h2) v = last_written p h2 (last_written p h1 v).
Proof.
  revert v. induction h1 as [| e h1 IH]; intro v; [reflexivity |].
  destruct e; cbn [app last_written]; apply IH.
Qed.

Lemma bus_line_cases i :
  0 <= i < 20 ->
  In i [0;1;2;3;4;5;6;7;8;9;10;11;12;13;14;15;16;17;18;19].
Proof.
  intro H. change (In i (Zrange 0 20)). apply Zrange_In. lia.
Qed.

Lemma drive_events_low_bits a : drive_events (a mod 2 ^ 20) = drive_events a.
Proof.
  unfold drive_events.
  assert (H : forall l, (forall i, In i l -> 0 <= i < 20) ->
            flat_map (fun i => [EvPinMode (bus_pin i) OUTPUT;
                                EvWrite (bus_pin i) (Z.testbit (a mod 2 ^ 20) i)]) l
            = flat_map (fun i => [EvPinMode (bus_pin i) OUTPUT;
                                  EvWrite (bus_pin i) (Z.testbit a i)]) l).
  { induction l as [| i l IH]; intro Hl; [reflexivity |].
    cbn [flat_map]. rewrite IH by (intros; apply Hl; now right).
    rewrite Z.mod_pow2_bits_low by (apply Hl; now left). reflexivity. }
  apply H. intros i Hi. apply Zrange_In in Hi. lia.
Qed.

Lemma drive_events_modes a i m :
  0 <= i < 20 -> last_mode (bus_pin i) (drive_events a) m = OUTPUT.
Proof.
  intro Hi. apply bus_line_cases in Hi.
  repeat (destruct Hi as [<- | Hi]; [reflexivity |]). destruct Hi.
Qed.

Lemma drive_events_levels a i v :
  0 <= i < 20 -> last_written (bus_pin i) (drive_events a) v = Z.testbit a i.
Proof.
  intro Hi. apply bus_line_cases in Hi.
  repeat (destruct Hi as [<- | Hi]; [reflexivity |]). destruct Hi.
Qed.

Lemma drive_events_other_pins a p :
  ~ In p bus_pins ->
  (forall m, last_mode p (drive_events a) m = m)
  /\ (forall v, last_written p (drive_events a) v = v).
Proof.
  intro Hp.
  assert (H : forall l m v,
            (forall i, In i l -> bus_pin i <> p) ->
            last_mode p (flat_map (fun i => [EvPinMode (bus_pin i) OUTPUT;
                                             EvWrite (bus_pin i) (Z.testbit a i)]) l) m = m
            /\ last_written p (flat_map (fun i => [EvPinMode (bus_pin i) OUTPUT;
                                             EvWrite (bus_pin i) (Z.testbit a i)]) l) v = v).
  { induction l as [| i l IH]; intros m v Hl; [split; reflexivity |].
    cbn [flat_map app last_mode last_written].
    assert (E : (bus_pin i =? p) = false) by (apply Z.eqb_neq, Hl; now left).
    rewrite E. apply IH. intros; apply Hl; now right. }
  assert (Hl : forall i, In i (Zrange 0 20) -> bus_pin i <> p).
  { intros i Hi <-. apply Hp.
    cbn [Zrange Z.add] in Hi.
    repeat (destruct Hi as [<- | Hi]; [(vm_compute; tauto) |]). destruct Hi. }
  split; intro x; [apply (H _ x LOW Hl) | apply (H _ INPUT x Hl)].
Qed.

Lemma cycle_bits_length env h a : List.length (cycle_bits env h a) = 8%nat.
Proof. unfold cycle_bits. now rewrite observe_length. Qed.

Lemma read_events_no_write p bits v : last_written p (read_events bits) v = v.
Proof.
  unfold read_events. generalize (combine data_pins bits). intro l.
  induction l as [| x l IH]; [reflexivity | exact IH].
Qed.

Lemma read_events_no_mode p bits m : last_mode p (read_events bits) m = m.
Proof.
  unfold read_events. generalize (combine data_pins bits). intro l.
  induction l as [| x l IH]; [reflexivity | exact IH].
Qed.

(* The control lines are left at their idle levels, whatever they were. *)
Lemma cycle_events_idle a bits v1 v2 v3 :
  last_written ASTB (cycle_events a bits) v1 = LOW
  /\ last_written RD (cycle_events a bits) v2 = HIGH
  /\ last_written BUFEN (cycle_events a bits) v3 = HIGH.
Proof.
  unfold cycle_events, cycle_prefix.
  repeat rewrite last_written_app.
  repeat rewrite read_events_no_write.
  assert (Hn : forall p, In p control_pins -> ~ In p bus_pins).
  { intros p Hp Hb. cbn in Hp, Hb.
    repeat (destruct Hp as [<- | Hp]; [vm_compute in Hb; intuition discriminate |]).
    destruct Hp. }
  rewrite (proj2 (drive_events_other_pins a ASTB (Hn ASTB ltac:(cbn; tauto)))).
  rewrite (proj2 (drive_events_other_pins a RD (Hn RD ltac:(cbn; tauto)))).
  rewrite (proj2 (drive_events_other_pins a BUFEN (Hn BUFEN ltac:(cbn; tauto)))).
  repeat split; reflexivity.
Qed.

(** C1.  One read cycle, at any address and from any state, returns without
    ever halting or blocking, and what it records is, in this order: the
    address driven onto the twenty bus lines, the address strobe written
    high then low, the eight data lines released to input, read-enable and
    buffer-enable asserted (written low), the settle delay of one
    microsecond, the eight data lines sampled, and the two enables
    deasserted (written high).  The value returned is the byte made of the
    sampled levels, and the strobe and the enables are left idle. *)
Theorem bus_read_cycle_sequence (env : Env) (a : Z) (w : World) :
  exists (bits : list bool) (value : Z) (w' : World),
    bus_read_cycle env a w = Ok value w'
    /\ bits = observe env (trace w ++ cycle_prefix a) data_pins
    /\ List.length bits = 8%nat
    /\ value = bits_to_byte bits
    /\ 0 <= value < 256
    /\ trace w' = trace w
                  ++ drive_events a
                  ++ [EvWrite ASTB HIGH; EvWrite ASTB LOW]
                  ++ release_data_events
                  ++ [EvWrite RD LOW; EvWrite BUFEN LOW]
                  ++ [EvDelayMicros 1]
                  ++ read_events bits
                  ++ [EvWrite BUFEN HIGH; EvWrite RD HIGH]
    /\ pin_out w' ASTB = LOW /\ pin_out w' RD = HIGH /\ pin_out w' BUFEN = HIGH.
Proof.
  pose proof (bus_read_cycle_run env a w) as Hrun. cbv zeta in Hrun.
  set (bits := cycle_bits env (trace w) a) in *.
  exists bits, (bits_to_byte bits), (run (cycle_events a bits) w).
  assert (Hlen : List.length bits = 8%nat) by apply cycle_bits_length.
  split; [exact Hrun |].
  split; [reflexivity |].
  split; [exact Hlen |].
  split; [reflexivity |].
  split.
  { pose proof (bits_to_byte_bound bits) as Hb. rewrite Hlen in Hb.
    change (2 ^ Z.of_nat 8) with 256 in Hb. exact Hb. }
  split.
  { rewrite trace_run. unfold cycle_events, cycle_prefix.
    repeat rewrite <- app_assoc. reflexivity. }
  repeat rewrite pin_out_run.
  apply cycle_events_idle.
Qed.

(** C3, against the claim.  On the test bench, at address 0 and from
    power-up, buffer-enable does not bracket read-enable: buffer-enable is
    not asserted before read-enable and not deasserted after it.
    Read-enable is asserted first and deasserted last: the two enables are
    written RD low, BUFEN low, BUFEN high, RD high. *)
Lemma buffer_enable_inside_read_enable :
  match bus_read_cycle (bench 0xAA sound_card) 0 (power_on empty_card) with
  | Ok _ w' =>
      brackets BUFEN RD (emitted (power_on empty_card) w') = false
      /\ precedes (is_write BUFEN LOW) (is_write RD LOW)
                  (emitted (power_on empty_card) w') = false
      /\ precedes (is_write RD HIGH) (is_write BUFEN HIGH)
                  (emitted (power_on empty_card) w') = false
      /\ enable_writes BUFEN RD (emitted (power_on empty_card) w')
         = [(RD, LOW); (BUFEN, LOW); (BUFEN, HIGH); (RD, HIGH)]
  | _ => False
  end.
Proof. vm_compute. repeat split. Qed.

(* What [brackets] rules out: a cycle that deasserts buffer-enable before it
   asserts it, and one that asserts it a second time. *)
Example brackets_rejects_other_orders :
  brackets RD BUFEN
    [EvWrite RD LOW; EvWrite BUFEN HIGH; EvRead 25 true; EvWrite BUFEN LOW;
     EvWrite RD HIGH] = false
  /\ brackets RD BUFEN
       [EvWrite RD LOW; EvWrite BUFEN LOW; EvWrite BUFEN HIGH; EvWrite BUFEN LOW;
        EvWrite RD HIGH] = false.
Proof. split; reflexivity. Qed.

(** C3, amended.  In every read cycle the read-enable window brackets the
    buffer-enable window: read-enable is asserted before buffer-enable is
    asserted, and deasserted after buffer-enable is deasserted.  The cycle
    writes the two enables exactly four times, RD low, BUFEN low, BUFEN
    high, RD high, in this order, so that each window opens once and closes
    once, buffer-enable is asserted only while read-enable is, and the eight
    samples are taken with both asserted: between the write that asserts
    buffer-enable and the one that deasserts it. *)
Theorem read_enable_brackets_buffer_enable (env : Env) (a : Z) (w : World) :
  exists (value : Z) (w' : World) (before : list Event) (bits : list bool),
    bus_read_cycle env a w = Ok value w'
    /\ brackets RD BUFEN (emitted w w') = true
    /\ enable_writes RD BUFEN (emitted w w')
       = [(RD, LOW); (BUFEN, LOW); (BUFEN, HIGH); (RD, HIGH)]
    /\ precedes (is_write RD LOW) (is_write BUFEN LOW) (emitted w w') = true
    /\ precedes (is_write BUFEN LOW) (is_write BUFEN HIGH) (emitted w w') = true
    /\ precedes (is_write BUFEN HIGH) (is_write RD HIGH) (emitted w w') = true
    /\ emitted w w'
       = before ++ [EvWrite RD LOW; EvWrite BUFEN LOW; EvDelayMicros 1]
         ++ read_events bits ++ [EvWrite BUFEN HIGH; EvWrite RD HIGH]
    /\ enable_writes RD BUFEN before = []
    /\ List.length bits = 8%nat.
Proof.
  pose proof (bus_read_cycle_run env a w) as Hrun. cbv zeta in Hrun.
  set (bits := cycle_bits env (trace w) a) in *.
  exists (bits_to_byte bits), (run (cycle_events a bits) w),
         (drive_events a ++ [EvWrite ASTB HIGH; EvWrite ASTB LOW] ++ release_data_events),
         bits.
  split; [exact Hrun |].
  rewrite emitted_run.
  destruct (eight_levels bits) as (b0 & b1 & b2 & b3 & b4 & b5 & b6 & b7 & E);
    [apply cycle_bits_length |].
  rewrite E.
  split; [vm_compute; reflexivity |].
  split; [vm_compute; reflexivity |].
  split; [vm_compute; reflexivity |].
  split; [vm_compute; reflexivity |].
  split; [vm_compute; reflexivity |].
  split.
  { unfold cycle_events, cycle_prefix. rewrite <- !app_assoc. reflexivity. }
  split; [vm_compute; reflexivity | reflexivity].
Qed.

(** ** The data sampler *)

(* Each sampled level is the level the line presents when it is read. *)
Lemma observe_nth env pins h k :
  (k < List.length pins)%nat ->
  nth k (observe env h pins) false
  = line_level env
      (h ++ firstn k (map (fun pb => EvRead (fst pb) (snd pb))
                          (combine pins (observe env h pins))))
      (nth k pins 0).
Proof.
  revert h k. induction pins as [| p ps IH]; intros h k Hk; [simpl in Hk; lia |].
  destruct k as [| k].
  - cbn. now rewrite app_nil_r.
  - cbn [observe nth combine map firstn fst snd].
    rewrite IH by (simpl in Hk; lia).
    rewrite <- app_assoc. reflexivity.
Qed.

Lemma observe_agree env env' pins h :
  (forall h' p, In p pins -> line_level env' h' p = line_level env h' p) ->
  observe env' h pins = observe env h pins.
Proof.
  revert h. induction pins as [| p ps IH]; intros h H; [reflexivity |].
  cbn [observe]. rewrite (H h p) by now left.
  f_equal. apply IH. intros; apply H; now right.
Qed.

Lemma data_line_cases i : 0 <= i < 8 -> In i [0;1;2;3;4;5;6;7].
Proof. intro H. change (In i (Zrange 0 8)). apply Zrange_In. lia. Qed.

Lemma data_pin_nth i : 0 <= i < 8 -> nth (Z.to_nat i) data_pins 0 = bus_pin i.
Proof.
  intro Hi. apply data_line_cases in Hi.
  repeat (destruct Hi as [<- | Hi]; [reflexivity |]). destruct Hi.
Qed.

Lemma data_pin_In p : In p data_pins -> exists i, 0 <= i < 8 /\ p = bus_pin i.
Proof.
  intro Hp. cbn in Hp.
  destruct Hp as [<- | Hp]; [exists 0; split; [lia | reflexivity] |].
  destruct Hp as [<- | Hp]; [exists 1; split; [lia | reflexivity] |].
  destruct Hp as [<- | Hp]; [exists 2; split; [lia | reflexivity] |].
  destruct Hp as [<- | Hp]; [exists 3; split; [lia | reflexivity] |].
  destruct Hp as [<- | Hp]; [exists 4; split; [lia | reflexivity] |].
  destruct Hp as [<- | Hp]; [exists 5; split; [lia | reflexivity] |].
  destruct Hp as [<- | Hp]; [exists 6; split; [lia | reflexivity] |].
  destruct Hp as [<- | Hp]; [exists 7; split; [lia | reflexivity] |].
  destruct Hp.
Qed.

(** C9.  [read_data] reads the eight lines 0 to 7 of the bus, line 0 first,
    and no other pin; bit i of the byte it returns is the level line i
    presented when it was read, for every i from 0 to 7, and the byte has no
    higher bit.  A wiring that presents the same levels on lines 0 to 7
    gives the same byte, whatever it presents on the other pins. *)
Theorem read_data_packs_the_data_lines (env : Env) (w : World) :
  exists (value : Z) (w' : World),
    read_data env w = Ok value w'
    /\ trace w' = trace w
                  ++ map (fun i => EvRead (bus_pin i) (Z.testbit value i)) (Zrange 0 8)
    /\ (forall i, 0 <= i < 8 ->
          Z.testbit value i
          = line_level env
              (trace w ++ map (fun j => EvRead (bus_pin j) (Z.testbit value j))
                              (Zrange 0 (Z.to_nat i)))
              (bus_pin i))
    /\ (forall i, 8 <= i -> Z.testbit value i = false)
    /\ 0 <= value < 256
    /\ (forall env' : Env,
          (forall h i, 0 <= i < 8 ->
             line_level env' h (bus_pin i) = line_level env h (bus_pin i)) ->
          exists w'', read_data env' w = Ok value w'').
Proof.
  pose proof (read_data_run env w) as Hrun. cbv zeta in Hrun.
  set (bits := observe env (trace w) data_pins) in *.
  assert (Hlen : List.length bits = 8%nat) by (unfold bits; now rewrite observe_length).
  assert (Hbit : forall i, 0 <= i -> Z.testbit (bits_to_byte bits) i
                                     = nth (Z.to_nat i) bits false)
    by (intros; now apply testbit_bits_to_byte).
  assert (Hev : read_events bits
                = map (fun i => EvRead (bus_pin i) (Z.testbit (bits_to_byte bits) i))
                      (Zrange 0 8)).
  { destruct (eight_levels bits Hlen) as (b0 & b1 & b2 & b3 & b4 & b5 & b6 & b7 & E).
    cbn [Zrange map Z.add].
    rewrite !Hbit by lia. rewrite E. reflexivity. }
  exists (bits_to_byte bits), (run (read_events bits) w).
  split; [exact Hrun |].
  split; [now rewrite trace_run, Hev |].
  split.
  { intros i Hi. rewrite Hbit by lia.
    unfold bits at 1. rewrite observe_nth by (cbn; lia).
    fold bits. rewrite data_pin_nth by exact Hi.
    f_equal. f_equal.
    change (map (fun pb => EvRead (fst pb) (snd pb)) (combine data_pins bits))
      with (read_events bits).
    rewrite Hev.
    apply data_line_cases in Hi.
    repeat (destruct Hi as [<- | Hi]; [reflexivity |]). destruct Hi. }
  split.
  { intros i Hi. rewrite Hbit by lia.
    apply nth_overflow. rewrite Hlen. lia. }
  split.
  { pose proof (bits_to_byte_bound bits) as Hb. rewrite Hlen in Hb.
    change (2 ^ Z.of_nat 8) with 256 in Hb. exact Hb. }
  intros env' Hagree.
  exists (run (read_events bits) w).
  rewrite (read_data_run env' w).
  assert (E : observe env' (trace w) data_pins = bits).
  { apply observe_agree. intros h' p Hp.
    destruct (data_pin_In p Hp) as (i & Hi & ->). now apply Hagree. }
  rewrite E. reflexivity.
Qed.

(** ** The address driver *)

(** C10.  [drive_address] looks at the low twenty bits of its argument
    only: for every value [a] it returns, having set each of the twenty bus
    lines to output with line i carrying bit i of [a] and having touched no
    other pin, and it leaves exactly the state that driving [a mod 2^20]
    leaves. *)
Theorem drive_address_low_twenty_bits (a : Z) (w : World) :
  exists w' : World,
    drive_address a w = Ok tt w'
    /\ drive_address (a mod 2 ^ 20) w = Ok tt w'
    /\ (forall i, 0 <= i < 20 ->
          pin_mode w' (bus_pin i) = OUTPUT /\ pin_out w' (bus_pin i) = Z.testbit a i)
    /\ (forall p, ~ In p bus_pins ->
          pin_mode w' p = pin_mode w p /\ pin_out w' p = pin_out w p)
    /\ trace w' = trace w
                  ++ flat_map (fun i => [EvPinMode (bus_pin i) OUTPUT;
                                         EvWrite (bus_pin i) (Z.testbit a i)])
                              (Zrange 0 20).
Proof.
  exists (run (drive_events a) w).
  split; [apply drive_address_run |].
  split; [rewrite drive_address_run, drive_events_low_bits; reflexivity |].
  split.
  { intros i Hi. rewrite pin_mode_run, pin_out_run.
    split; [now apply drive_events_modes | now apply drive_events_levels]. }
  split.
  { intros p Hp. rewrite pin_mode_run, pin_out_run.
    destruct (drive_events_other_pins a p Hp) as [Hm Hv].
    split; [apply Hm | apply Hv]. }
  rewrite trace_run. reflexivity.
Qed.

(** ** The file slot allocator *)

Lemma int_wrap_small x : - 2 ^ 31 <= x < 2 ^ 31 -> int_wrap x = x.
Proof.
  intro H. unfold int_wrap. rewrite Z.mod_small; lia.
Qed.

Lemma next_file_unfold w :
  next_file w
  = let n := int_wrap (file_number w + 1) in
    if n >? 999
    then Halted (effect too_many_files (set_file_number n w))
    else Ok tt (set_filename (dump_name n) (set_file_number n w)).
Proof.
  unfold next_file, bind, load, store. cbn [file_number set_file_number].
  cbv zeta. destruct (int_wrap (file_number w + 1) >? 999); reflexivity.
Qed.

(** C8.  [next_file] called with file number 999 stops the sketch (it
    prints its message and never returns): the number is not wrapped around
    and no name is formatted for 1000.  Whatever the number was, when
    [next_file] returns, the new number is at most 999 and the file name is
    the one of that number; when it does not return, the file name is left
    as it was. *)
Theorem next_file_halts_after_999 :
  (forall w : World,
     file_number w = 999 ->
     exists w', next_file w = Halted w'
                /\ file_number w' = 1000
                /\ filename w' = filename w
                /\ trace w' = trace w ++ [too_many_files])
  /\ (forall w : World,
        match next_file w with
        | Ok _ w' => file_number w' <= 999
                     /\ file_number w' = int_wrap (file_number w + 1)
                     /\ filename w' = dump_name (file_number w')
                     /\ trace w' = trace w
        | Halted w' => 999 < file_number w'
                       /\ file_number w' = int_wrap (file_number w + 1)
                       /\ filename w' = filename w
                       /\ trace w' = trace w ++ [too_many_files]
        | Blocked _ => False
        end).
Proof.
  split.
  - intros w H. rewrite next_file_unfold, H. cbv zeta.
    change (int_wrap (999 + 1)) with 1000. cbn [Z.gtb Z.compare Pos.compare Pos.compare_cont].
    eexists. split; [reflexivity |]. repeat split.
  - intro w. rewrite next_file_unfold. cbv zeta.
    destruct (int_wrap (file_number w + 1) >? 999) eqn:E.
    + repeat split. cbn. apply Z.gtb_lt in E. lia.
    + repeat split. cbn.
      destruct (Z.gtb_spec (int_wrap (file_number w + 1)) 999); [discriminate | lia].
Qed.

(* The file number 999 at work: the sketch stops and the name stays. *)
Example next_file_at_999 :
  next_file (set_filename (dump_name 999) (set_file_number 999 (power_on empty_card)))
  = Halted (effect too_many_files
              (set_file_number 1000
                 (set_filename (dump_name 999) (set_file_number 999 (power_on empty_card))))).
Proof. reflexivity. Qed.

Lemma next_file_ok w :
  - 2 ^ 31 <= file_number w + 1 <= 999 ->
  next_file w = Ok tt (set_filename (dump_name (file_number w + 1))
                         (set_file_number (file_number w + 1) w)).
Proof.
  intro H. rewrite next_file_unfold. cbv zeta.
  rewrite int_wrap_small by lia.
  destruct (Z.gtb_spec (file_number w + 1) 999); [lia | reflexivity].
Qed.

Lemma skip_existing_files_from m :
  forall (fuel : nat) (w : World) (k : Z),
    0 <= k -> k + Z.of_nat m <= 999 ->
    file_number w = k -> filename w = dump_name k ->
    (forall j, k <= j < k + Z.of_nat m -> on_card (card w) j = true) ->
    on_card (card w) (k + Z.of_nat m) = false ->
    (m < fuel)%nat ->
    exists w', skip_existing_files fuel w = Ok tt w'
               /\ file_number w' = k + Z.of_nat m
               /\ filename w' = dump_name (k + Z.of_nat m)
               /\ card w' = card w
               /\ trace w' = trace w ++ probes k m
               /\ pin_mode w' = pin_mode w /\ pin_out w' = pin_out w
               /\ dumpfile w' = dumpfile w.
Proof.
  induction m as [| m IH]; intros fuel w k Hk Hn Hnum Hname Hall Hfree Hfuel.
  - destruct fuel as [| fuel]; [lia |].
    exists (effect (EvSdExists (dump_name k) false) w).
    replace (k + Z.of_nat 0) with k in * by lia.
    unfold on_card in Hfree.
    unfold skip_existing_files. cbn [while_loop].
    unfold bind, load, sd_exists. rewrite Hname.
    destruct (card w (dump_name k)); [discriminate |].
    split; [reflexivity |].
    rewrite file_number_effect, filename_effect, trace_effect.
    repeat split; try assumption.
    unfold probes. cbn. now rewrite Z.add_0_r.
  - destruct fuel as [| fuel]; [lia |].
    set (w1 := effect (EvSdExists (dump_name k) true) w).
    set (w2 := set_filename (dump_name (k + 1)) (set_file_number (k + 1) w1)).
    destruct (IH fuel w2 (k + 1))
      as (w' & Hrun & Hnum' & Hname' & Hcard' & Htrace' & Hmode' & Hout' & Hfile');
      try reflexivity; try lia.
    { intros j Hj. apply Hall. lia. }
    { replace (k + 1 + Z.of_nat m) with (k + Z.of_nat (S m)) by lia. exact Hfree. }
    exists w'.
    assert (Hk_on : on_card (card w) k = true) by (apply Hall; lia).
    unfold on_card in Hk_on.
    split.
    { unfold skip_existing_files in *. cbn [while_loop].
      unfold bind at 1. unfold bind at 1. unfold load, sd_exists. rewrite Hname.
      destruct (card w (dump_name k)); [| discriminate].
      fold w1. unfold bind at 1.
      rewrite next_file_ok by (unfold w1; rewrite file_number_effect; lia).
      unfold w1 at 1 2. rewrite file_number_effect, Hnum. fold w1. fold w2.
      exact Hrun. }
    rewrite Hnum', Hname', Hcard', Htrace', Hmode', Hout', Hfile'.
    replace (k + 1 + Z.of_nat m) with (k + Z.of_nat (S m)) by lia.
    repeat split.
    unfold w2, w1, probes. cbn [trace set_filename set_file_number effect log Zrange map].
    rewrite <- app_assoc. cbn [app].
    replace (k + 1 + Z.of_nat m) with (k + Z.of_nat (S m)) by lia.
    reflexivity.
Qed.

(** C7.  The search of [setup] for the next file name, started with the
    globals as the sketch initialises them (number 0, name CWMEM000.BIN),
    probes the names CWMEM000.BIN, CWMEM001.BIN, ... in this order and
    returns with the first number [n], at most 999, whose file the card does
    not have: 0 on a card without dump files, [n] when the files 0 to n - 1
    are there.  [fuel] only bounds the probes that are followed; any bound
    above [n] gives the result. *)
Theorem skip_existing_files_first_free (fuel : nat) (w : World) (n : Z) :
  file_number w = 0 ->
  filename w = "CWMEM000.BIN"%string ->
  0 <= n <= 999 ->
  (forall k, 0 <= k < n -> on_card (card w) k = true) ->
  on_card (card w) n = false ->
  (Z.to_nat n < fuel)%nat ->
  exists w' : World,
    skip_existing_files fuel w = Ok tt w'
    /\ file_number w' = n
    /\ filename w' = dump_name n
    /\ card w' = card w
    /\ trace w' = trace w
                  ++ map (fun j => EvSdExists (dump_name j) true) (Zrange 0 (Z.to_nat n))
                  ++ [EvSdExists (dump_name n) false]
    /\ pin_mode w' = pin_mode w /\ pin_out w' = pin_out w
    /\ dumpfile w' = dumpfile w.
Proof.
  intros Hnum Hname Hn Hall Hfree Hfuel.
  destruct (skip_existing_files_from (Z.to_nat n) fuel w 0)
    as (w' & Hrun & Hnum' & Hname' & Hcard' & Htrace' & Hmode' & Hout' & Hfile');
    try assumption; try lia.
  - intros j Hj. apply Hall. lia.
  - replace (0 + Z.of_nat (Z.to_nat n)) with n by lia. exact Hfree.
  - exists w'. unfold probes in Htrace'.
    replace (0 + Z.of_nat (Z.to_nat n)) with n in * by lia.
    repeat split; assumption.
Qed.

(* A card with the files 0, 1 and 2: the search returns 3. *)
Lemma skip_existing_files_first_free_witness :
  exists w' : World,
    skip_existing_files 4 (power_on (card_with [0; 1; 2])) = Ok tt w'
    /\ file_number w' = 3
    /\ filename w' = dump_name 3
    /\ card w' = card (power_on (card_with [0; 1; 2]))
    /\ trace w' = trace (power_on (card_with [0; 1; 2]))
                  ++ map (fun j => EvSdExists (dump_name j) true) (Zrange 0 (Z.to_nat 3))
                  ++ [EvSdExists (dump_name 3) false]
    /\ pin_mode w' = pin_mode (power_on (card_with [0; 1; 2]))
    /\ pin_out w' = pin_out (power_on (card_with [0; 1; 2]))
    /\ dumpfile w' = dumpfile (power_on (card_with [0; 1; 2])).
Proof.
  apply (skip_existing_files_first_free 4 (power_on (card_with [0; 1; 2])) 3).
  - reflexivity.
  - reflexivity.
  - lia.
  - intros k Hk.
    assert (Hc : k = 0 \/ k = 1 \/ k = 2) by lia.
    destruct Hc as [-> | [-> | ->]]; reflexivity.
  - reflexivity.
  - vm_compute. lia.
Defined.

(* An empty card: the search returns 0 after one probe. *)
Example skip_existing_files_empty_card :
  exists w', skip_existing_files 1 (power_on empty_card) = Ok tt w'
             /\ file_number w' = 0 /\ filename w' = "CWMEM000.BIN"%string.
Proof. eexists. split; [reflexivity |]. split; reflexivity. Qed.

(* A gap in the numbering: with the files 0, 1 and 3 the search returns 2. *)
Example skip_existing_files_gap :
  exists w', skip_existing_files 3 (power_on (card_with [0; 1; 3])) = Ok tt w'
             /\ file_number w' = 2 /\ filename w' = "CWMEM002.BIN"%string.
Proof. eexists. split; [vm_compute; reflexivity |]. split; reflexivity. Qed.

(** ** The bus arbiter *)

(* A busy-wait on HLDAK that goes on while [again] of the level read is
   true, started with history [trace w]: it returns at the first poll that
   reads [stop], having read [negb stop] at every poll before, and it is still
   waiting after [fuel] polls when all of them read [negb stop]. *)
Lemma wait_hldak (env : Env) (again : bool -> bool) (stop : bool) :
  again stop = false -> again (negb stop) = true ->
  forall (fuel : nat) (w : World),
    match while_loop fuel (v <- digitalRead env HLDAK ;; ret (again v)) (ret tt) w with
    | Ok _ w' =>
        exists k : nat,
          (k < fuel)%nat
          /\ w' = run (repeat (EvRead HLDAK (negb stop)) k ++ [EvRead HLDAK stop]) w
          /\ line_level env (trace w ++ repeat (EvRead HLDAK (negb stop)) k) HLDAK = stop
          /\ (forall j, (j < k)%nat ->
                line_level env (trace w ++ repeat (EvRead HLDAK (negb stop)) j) HLDAK
                = negb stop)
    | Halted _ => False
    | Blocked w' =>
        w' = run (repeat (EvRead HLDAK (negb stop)) fuel) w
        /\ (forall j, (j < fuel)%nat ->
              line_level env (trace w ++ repeat (EvRead HLDAK (negb stop)) j) HLDAK
              = negb stop)
    end.
Proof.
  intros Hstop Hgo. induction fuel as [| fuel IH]; intro w.
  - cbn [while_loop]. unfold blocked. split; [reflexivity | intros; lia].
  - cbn [while_loop]. unfold bind at 1. unfold bind at 1. unfold digitalRead, ret at 1.
    set (v := line_level env (trace w) HLDAK).
    assert (Hv : v = stop \/ v = negb stop) by (destruct v, stop; auto).
    destruct Hv as [Hv | Hv]; rewrite Hv.
    + rewrite Hstop. unfold ret. exists O.
      split; [lia |]. split; [reflexivity |].
      split; [cbn; rewrite app_nil_r; exact Hv | intros; lia].
    + rewrite Hgo. unfold bind, ret at 1.
      specialize (IH (effect (EvRead HLDAK (negb stop)) w)).
      rewrite trace_effect in IH.
      destruct (while_loop fuel _ _ _) as [[] w' | w' | w'].
      * destruct IH as (k & Hk & Hw' & Hlast & Hbefore).
        exists (S k). split; [lia |].
        split; [exact Hw' |].
        split; [cbn [repeat]; rewrite <- app_assoc in Hlast; exact Hlast |].
        intros j Hj. destruct j as [| j].
        -- cbn. rewrite app_nil_r. exact Hv.
        -- cbn [repeat]. specialize (Hbefore j ltac:(lia)).
           rewrite <- app_assoc in Hbefore. exact Hbefore.
      * exact IH.
      * destruct IH as (Hw' & Hbefore).
        split; [exact Hw' |].
        intros j Hj. destruct j as [| j].
        -- cbn. rewrite app_nil_r. exact Hv.
        -- cbn [repeat]. specialize (Hbefore j ltac:(lia)).
           rewrite <- app_assoc in Hbefore. exact Hbefore.
Qed.

(** ** The dump controller *)

Lemma dump_from_step env addr :
  addr <= 0xFFFFF ->
  dump_from env addr
  = (value <- bus_read_cycle env addr ;;
     File_write env value ;;
     dump_from env (ulong_wrap (addr + 1))).
Proof.
  intro H. rewrite dump_from_equation_1. unfold dump_from_unfold_clause_1.
  destruct (Z_le_gt_dec addr 1048575); [reflexivity | lia].
Qed.

Lemma dump_from_done env addr : addr > 0xFFFFF -> dump_from env addr = ret tt.
Proof.
  intro H. rewrite dump_from_equation_1. unfold dump_from_unfold_clause_1.
  destruct (Z_le_gt_dec addr 1048575); [lia | reflexivity].
Qed.

Lemma dumpfile_effect e w : keeps_file e = true -> dumpfile (effect e w) = dumpfile w.
Proof.
  destruct e; try reflexivity; try discriminate.
  intros _. destruct ok; [destruct (dumpfile w) eqn:E; unfold effect; rewrite E; cbn; auto
                         | reflexivity].
Qed.

Lemma dumpfile_run evs w :
  forallb keeps_file evs = true -> dumpfile (run evs w) = dumpfile w.
Proof.
  revert w. induction evs as [| e evs IH]; intros w H; [reflexivity |].
  cbn [forallb] in H. apply andb_true_iff in H as [He Hevs].
  rewrite run_cons, IH by exact Hevs. now apply dumpfile_effect.
Qed.

Lemma read_events_keep_file bits : forallb keeps_file (read_events bits) = true.
Proof.
  unfold read_events. generalize (combine data_pins bits). intro l.
  induction l as [| x l IH]; [reflexivity | exact IH].
Qed.

Lemma cycle_events_keep_file a bits : forallb keeps_file (cycle_events a bits) = true.
Proof.
  unfold cycle_events, cycle_prefix.
  repeat rewrite forallb_app. rewrite read_events_keep_file.
  reflexivity.
Qed.

Lemma capture_chunk_keeps_file a o : forallb keeps_file (capture_chunk a o) = true.
Proof.
  unfold capture_chunk. rewrite forallb_app, cycle_events_keep_file. reflexivity.
Qed.

Lemma is_open_run evs w :
  forallb keeps_file evs = true -> is_open (run evs w) = is_open w.
Proof. intro H. unfold is_open. now rewrite dumpfile_run. Qed.

Lemma File_write_run env value w :
  let ok := if is_open w then sd_ok env (trace w) else false in
  File_write env value w = Ok (if ok then 1 else 0) (run [EvFileWrite value ok] w).
Proof.
  unfold File_write, is_open. destruct (dumpfile w); reflexivity.
Qed.

(* One pass of the dump loop. *)
Lemma dump_step_run env a w :
  let bits := cycle_bits env (trace w) a in
  let ok := if is_open w then sd_ok env (trace w ++ cycle_events a bits) else false in
  (value <- bus_read_cycle env a ;; File_write env value) w
  = Ok (if ok then 1 else 0) (run (capture_chunk a (bits, ok)) w).
Proof.
  intros bits ok. unfold capture_chunk. cbn [fst snd].
  eapply bind_run; [apply bus_read_cycle_run |].
  fold bits. rewrite File_write_run.
  rewrite is_open_run by apply cycle_events_keep_file.
  rewrite trace_run. reflexivity.
Qed.

Lemma bind_assoc {A B C} (m : M A) (k : A -> M B) (k' : B -> M C) :
  forall w, bind (bind m k) k' w = bind m (fun a => bind (k a) k') w.
Proof.
  intro w. unfold bind. destruct (m w); reflexivity.
Qed.

(* The dump loop, entered with [n] addresses to go. *)
Lemma dump_from_run env n :
  forall addr w,
    0 <= addr -> addr + Z.of_nat n = 1048576 ->
    dump_from env addr w
    = Ok tt (run (capture_events (Zrange addr n)
                    (observed env (is_open w) (trace w) (Zrange addr n))) w).
Proof.
  induction n as [| n IH]; intros addr w Hlo Hhi.
  - rewrite dump_from_done by lia. reflexivity.
  - rewrite dump_from_step by lia.
    cbn [Zrange observed capture_events].
    set (bits := cycle_bits env (trace w) addr).
    set (ok := if is_open w then sd_ok env (trace w ++ cycle_events addr bits) else false).
    pose proof (dump_step_run env addr w) as Hstep. cbv zeta in Hstep.
    fold bits ok in Hstep.
    unfold bind in Hstep |- *.
    destruct (bus_read_cycle env addr w) as [value w1 | w1 | w1]; try discriminate.
    rewrite Hstep.
    unfold ulong_wrap. rewrite Z.mod_small by lia.
    rewrite IH by lia.
    rewrite is_open_run by apply capture_chunk_keeps_file.
    rewrite trace_run, run_app. reflexivity.
Qed.

Lemma observed_length env o h addrs :
  List.length (observed env o h addrs) = List.length addrs.
Proof.
  revert h. induction addrs as [| a addrs IH]; intro h; [reflexivity |].
  cbn [observed List.length]. now rewrite IH.
Qed.



Lemma capture_events_keep_file addrs obs :
  forallb keeps_file (capture_events addrs obs) = true.
Proof.
  revert obs. induction addrs as [| a addrs IH]; intros [| o obs]; try reflexivity.
  cbn [capture_events]. now rewrite forallb_app, capture_chunk_keeps_file, IH.
Qed.



Lemma written_app e1 e2 : written (e1 ++ e2) = written e1 ++ written e2.
Proof.
  induction e1 as [| e e1 IH]; [reflexivity |].
  destruct e; cbn [app written]; try exact IH.
  destruct ok; [cbn [app]; now rewrite IH | exact IH].
Qed.

Lemma no_file_write evs :
  existsb is_file_write evs = false -> forwarded evs = [] /\ written evs = [].
Proof.
  induction evs as [| e evs IH]; intro H; [split; reflexivity |].
  cbn [existsb] in H. apply orb_false_iff in H as [He Hevs].
  destruct e; try discriminate; cbn [forwarded written]; auto.
Qed.

Lemma cycle_events_no_file_write a bits :
  existsb is_file_write (cycle_events a bits) = false.
Proof.
  unfold cycle_events, cycle_prefix. repeat rewrite existsb_app.
  assert (H : existsb is_file_write (read_events bits) = false).
  { unfold read_events. generalize (combine data_pins bits). intro l.
    induction l as [| x l IH]; [reflexivity | exact IH]. }
  rewrite H. reflexivity.
Qed.


Lemma written_capture addrs obs :
  List.length addrs = List.length obs ->
  written (capture_events addrs obs)
  = map (fun o => bits_to_byte (fst o)) (filter snd obs).
Proof.
  revert obs. induction addrs as [| a addrs IH]; intros [| o obs] H; try discriminate.
  - reflexivity.
  - cbn [capture_events filter]. unfold capture_chunk.
    rewrite !written_app.
    rewrite (proj2 (no_file_write _ (cycle_events_no_file_write a (fst o)))).
    rewrite IH by (simpl in H; lia).
    destruct o as [bits [|]]; reflexivity.
Qed.


(** ** One capture *)

Lemma bind_step {A B} (m : M A) (k : A -> M B) w a w1 :
  m w = Ok a w1 -> bind m k w = k a w1.
Proof. intro H. unfold bind. now rewrite H. Qed.

Lemma bind_Ok {A B} (m : M A) (k : A -> M B) w b w' :
  bind m k w = Ok b w' -> exists a w1, m w = Ok a w1 /\ k a w1 = Ok b w'.
Proof.
  unfold bind. destruct (m w) as [a w1 | w1 | w1]; try discriminate.
  intro H. now exists a, w1.
Qed.

Lemma load_run {A} (f : World -> A) w : load f w = Ok (f w) w.
Proof. reflexivity. Qed.

Lemma Serial_print_run s w : Serial_print s w = Ok tt (run [EvSerialOut s] w).
Proof. reflexivity. Qed.

Lemma Serial_println_run s w :
  Serial_println s w = Ok tt (run [EvSerialOut (s ++ crlf)] w).
Proof. reflexivity. Qed.

Lemma bus_state_driven_idle_run w :
  bus_state_driven_idle w = Ok tt (run idle_events w).
Proof.
  unfold bus_state_driven_idle.
  change idle_events
    with ([EvWrite BUFEN HIGH] ++ [EvPinMode BUFEN OUTPUT]
          ++ [EvWrite BUFRW LOW] ++ [EvPinMode BUFRW OUTPUT]
          ++ [EvWrite ASTB LOW] ++ [EvPinMode ASTB OUTPUT]
          ++ [EvWrite RD HIGH] ++ [EvPinMode RD OUTPUT]
          ++ [EvWrite WR HIGH] ++ [EvPinMode WR OUTPUT]
          ++ [EvWrite IOMEM LOW] ++ [EvPinMode IOMEM OUTPUT]).
  do 5 (eapply bind_run; [apply digitalWrite_run |];
        eapply bind_run; [apply pinMode_run |]).
  eapply bind_run; [apply digitalWrite_run |].
  apply pinMode_run.
Qed.

Lemma sd_open_run env name w :
  sd_open env name w
  = Ok (sd_ok env (trace w)) (run [EvSdOpen name (sd_ok env (trace w))] w).
Proof. reflexivity. Qed.

Lemma File_close_run env w :
  let ok := if is_open w then sd_ok env (trace w) else false in
  File_close env w = Ok ok (run [EvFileClose ok] w).
Proof. unfold File_close, is_open. destruct (dumpfile w); reflexivity. Qed.

(* The dump to a file, with the bus seized: the card refuses to open the
   file and the sketch stops, or the whole address space is gone through and
   the file closed. *)
Lemma dump_to_file_run env w n :
  Z.of_nat n = 1048576 ->
  dump_to_file env w
  = if sd_ok env (trace w ++ [EvWrite LED_BUILTIN HIGH] ++ idle_events)
    then
      let pro := dump_prologue (filename w) in
      let addrs := Zrange 0 n in
      let obs := observed env true (trace w ++ pro) addrs in
      Ok tt (run (pro ++ capture_events addrs obs
                  ++ dump_epilogue (filename w)
                       (sd_ok env (trace w ++ pro ++ capture_events addrs obs)))
               w)
    else Halted (run (open_failure (filename w)) w).
Proof.
  intro Hn.
  unfold dump_to_file.
  rewrite (bind_step _ _ _ _ _ (digitalWrite_run _ _ w)).
  rewrite (bind_step _ _ _ _ _ (bus_state_driven_idle_run _)).
  rewrite <- run_app.
  set (pre := [EvWrite LED_BUILTIN HIGH] ++ idle_events).
  set (w1 := run pre w).
  assert (Hname : filename w1 = filename w) by apply filename_run.
  assert (Htrace : trace w1 = trace w ++ pre) by apply trace_run.
  rewrite (bind_step (load filename) _ w1 _ _ (load_run _ _)).
  rewrite (bind_step _ _ _ _ _ (sd_open_run env _ w1)).
  rewrite Hname, Htrace.
  destruct (sd_ok env (trace w ++ pre)) eqn:Hopen.
  - cbn [negb].
    rewrite (bind_step (ret tt) _ _ tt _ eq_refl).
    rewrite (bind_step _ _ _ _ _ (Serial_println_run _ _)).
    rewrite <- run_app.
    set (w2 := run ([EvSdOpen (filename w) true] ++ [EvSerialOut ("Dumping ..." ++ crlf)]) w1).
    assert (Hw2 : w2 = run (dump_prologue (filename w)) w).
    { unfold w2, w1, pre, dump_prologue. now rewrite <- run_app, <- !app_assoc. }
    assert (Hopen2 : is_open w2 = true) by reflexivity.
    rewrite (bind_step _ _ _ _ _ (dump_from_run env n 0 w2 ltac:(lia) ltac:(lia))).
    rewrite Hopen2.
    set (addrs := Zrange 0 n).
    rewrite Hw2 at 1 2. rewrite trace_run.
    set (obs := observed env true (trace w ++ dump_prologue (filename w)) addrs).
    set (w3 := run (capture_events addrs obs) w2).
    assert (Hopen3 : is_open w3 = true).
    { unfold w3. now rewrite is_open_run by apply capture_events_keep_file. }
    assert (Htrace3 : trace w3 = trace w ++ dump_prologue (filename w)
                                 ++ capture_events addrs obs).
    { unfold w3. now rewrite trace_run, Hw2, trace_run, <- app_assoc. }
    assert (Hname3 : filename w3 = filename w).
    { unfold w3. now rewrite filename_run, Hw2, filename_run. }
    pose proof (File_close_run env w3) as Hclose. cbv zeta in Hclose.
    rewrite Hopen3, Htrace3 in Hclose.
    rewrite (bind_step _ _ _ _ _ Hclose).
    cbv zeta. fold addrs. fold obs.
    destruct (sd_ok env (trace w ++ dump_prologue (filename w) ++ capture_events addrs obs)).
    + cbn [negb dump_epilogue]. unfold ret.
      unfold w3. rewrite Hw2. rewrite <- !run_app. reflexivity.
    + cbn [negb dump_epilogue].
      rewrite (bind_step _ _ _ _ _ (Serial_print_run _ _)).
      set (w4 := run [EvSerialOut "Failed to close "] (run [EvFileClose false] w3)).
      assert (Hname4 : filename w4 = filename w).
      { unfold w4. now rewrite !filename_run. }
      rewrite (bind_step (load filename) _ w4 _ _ (load_run _ _)).
      rewrite Serial_println_run, Hname4.
      unfold w4, w3. rewrite Hw2. rewrite <- !run_app.
      reflexivity.
  - cbn [negb].
    rewrite bind_assoc.
    rewrite (bind_step _ _ _ _ _ (Serial_print_run _ _)).
    set (w4 := run [EvSerialOut "Failed to open "] (run [EvSdOpen (filename w) false] w1)).
    assert (Hname4 : filename w4 = filename w).
    { unfold w4. now rewrite !filename_run. }
    rewrite bind_assoc.
    rewrite (bind_step (load filename) _ w4 _ _ (load_run _ _)).
    rewrite bind_assoc.
    rewrite (bind_step _ _ _ _ _ (Serial_println_run _ _)).
    unfold bind, halt. rewrite Hname4.
    unfold w4, w1, pre, open_failure. rewrite <- !run_app.
    reflexivity.
Qed.

(* The wait for Enter records console traffic only, however it ends, and it
   never stops the sketch. *)
Lemma await_enter_console env fuel w :
  exists evs : list Event,
    forallb is_console evs = true
    /\ match await_enter env fuel w with
       | Ok _ w' => w' = run evs w
       | Halted _ => False
       | Blocked w' => w' = run evs w
       end.
Proof.
  unfold await_enter.
  rewrite (bind_step _ _ _ _ _ (Serial_println_run _ _)).
  match goal with |- context [run [?e] w] => set (prompt := e) end.
  assert (Hloop : forall w1, exists evs,
             forallb is_console evs = true
             /\ match while_loop fuel
                        (n <- Serial_available env ;;
                         if n =? 0 then ret true
                         else c <- Serial_read env ;; ret (negb (c =? 10)))
                        (ret tt) w1 with
                | Ok _ w' => w' = run evs w1
                | Halted _ => False
                | Blocked w' => w' = run evs w1
                end).
  { induction fuel as [| fuel IH]; intro w1.
    - exists []. split; reflexivity.
    - cbn [while_loop].
      unfold bind at 1. unfold bind at 1. unfold Serial_available.
      destruct (serial_rx env (trace w1)) as [c |] eqn:Hrx.
      + cbn [Z.eqb]. unfold bind at 1. unfold Serial_read.
        rewrite trace_effect.
        destruct (serial_rx env (trace w1 ++ [EvSerialAvailable 1])) as [c' |].
        * unfold ret at 1.
          destruct (negb (c' =? 10)).
          -- unfold bind at 1, ret at 1.
             destruct (IH (effect (EvSerialRead c') (effect (EvSerialAvailable 1) w1)))
               as (evs & Hc & Hr).
             exists ([EvSerialAvailable 1; EvSerialRead c'] ++ evs).
             split; [exact Hc |].
             rewrite run_app. exact Hr.
          -- exists [EvSerialAvailable 1; EvSerialRead c']. split; reflexivity.
        * unfold ret at 1.
          change (negb (-1 =? 10)) with true. cbv iota.
          unfold bind at 1, ret at 1.
          destruct (IH (effect (EvSerialRead (-1)) (effect (EvSerialAvailable 1) w1)))
            as (evs & Hc & Hr).
          exists ([EvSerialAvailable 1; EvSerialRead (-1)] ++ evs).
          split; [exact Hc |].
          rewrite run_app. exact Hr.
      + cbn [Z.eqb]. unfold ret at 1. unfold bind at 1, ret at 1.
        destruct (IH (effect (EvSerialAvailable 0) w1)) as (evs & Hc & Hr).
        exists ([EvSerialAvailable 0] ++ evs).
        split; [exact Hc |].
        rewrite run_app. exact Hr. }
  destruct (Hloop (run [prompt] w)) as (evs & Hc & Hr).
  exists ([prompt] ++ evs). split; [exact Hc |].
  rewrite run_app. exact Hr.
Qed.

(* Taking the bus: the sketch raises HLDRQ and returns at the first poll of
   HLDAK that reads the acknowledge; while the target does not acknowledge
   it goes on polling. *)
Lemma seize_bus_spec env fuel w :
  let request := [EvSerialOut "Seizing the bus ... "; EvWrite HLDRQ BUS_HOLD] in
  match seize_bus env fuel w with
  | Ok _ w' =>
      exists k : nat,
        (k < fuel)%nat
        /\ w' = run (seize_events k) w
        /\ line_level env (trace w ++ request ++ repeat (EvRead HLDAK BUS_NAK) k) HLDAK
           = BUS_ACK
        /\ (forall j, (j < k)%nat ->
              line_level env (trace w ++ request ++ repeat (EvRead HLDAK BUS_NAK) j) HLDAK
              = BUS_NAK)
  | Halted _ => False
  | Blocked w' =>
      w' = run (request ++ repeat (EvRead HLDAK BUS_NAK) fuel) w
      /\ (forall j, (j < fuel)%nat ->
            line_level env (trace w ++ request ++ repeat (EvRead HLDAK BUS_NAK) j) HLDAK
            = BUS_NAK)
  end.
Proof.
  intro request. unfold seize_bus.
  rewrite (bind_step _ _ _ _ _ (Serial_print_run _ _)).
  rewrite (bind_step _ _ _ _ _ (digitalWrite_run _ _ _)).
  rewrite <- run_app.
  change ([EvSerialOut "Seizing the bus ... "] ++ [EvWrite HLDRQ BUS_HOLD]) with request.
  pose proof (wait_hldak env (fun v => negb (Bool.eqb v BUS_ACK)) BUS_ACK
                eq_refl eq_refl fuel (run request w)) as Hwait.
  rewrite trace_run in Hwait.
  unfold bind at 1.
  destruct (while_loop fuel _ _ _) as [[] w1 | w1 | w1].
  - destruct Hwait as (k & Hk & Hw1 & Hack & Hnak).
    rewrite Serial_println_run.
    exists k. split; [exact Hk |].
    split.
    { rewrite Hw1. rewrite <- !run_app. unfold seize_events.
      rewrite <- !app_assoc. reflexivity. }
    split.
    { rewrite <- app_assoc in Hack. exact Hack. }
    intros j Hj. specialize (Hnak j Hj). rewrite <- app_assoc in Hnak. exact Hnak.
  - exact Hwait.
  - destruct Hwait as (Hw1 & Hnak).
    split; [rewrite Hw1, <- run_app; reflexivity |].
    intros j Hj. specialize (Hnak j Hj). rewrite <- app_assoc in Hnak. exact Hnak.
Qed.

(* Giving the bus back: the sketch lowers HLDRQ and returns at the first poll
   of HLDAK that reads the acknowledge withdrawn; while the target keeps
   acknowledging it goes on polling. *)
Lemma release_bus_spec env fuel w :
  let request := [EvSerialOut "Releasing the bus ... "; EvWrite HLDRQ BUS_RELEASE] in
  match release_bus env fuel w with
  | Ok _ w' =>
      exists k : nat,
        (k < fuel)%nat
        /\ w' = run (release_events k) w
        /\ line_level env (trace w ++ request ++ repeat (EvRead HLDAK BUS_ACK) k) HLDAK
           = BUS_NAK
        /\ (forall j, (j < k)%nat ->
              line_level env (trace w ++ request ++ repeat (EvRead HLDAK BUS_ACK) j) HLDAK
              = BUS_ACK)
  | Halted _ => False
  | Blocked w' =>
      w' = run (request ++ repeat (EvRead HLDAK BUS_ACK) fuel) w
      /\ (forall j, (j < fuel)%nat ->
            line_level env (trace w ++ request ++ repeat (EvRead HLDAK BUS_ACK) j) HLDAK
            = BUS_ACK)
  end.
Proof.
  intro request. unfold release_bus.
  rewrite (bind_step _ _ _ _ _ (Serial_print_run _ _)).
  rewrite (bind_step _ _ _ _ _ (digitalWrite_run _ _ _)).
  rewrite <- run_app.
  change ([EvSerialOut "Releasing the bus ... "] ++ [EvWrite HLDRQ BUS_RELEASE]) with request.
  pose proof (wait_hldak env (fun v => Bool.eqb v BUS_ACK) BUS_NAK
                eq_refl eq_refl fuel (run request w)) as Hwait.
  rewrite trace_run in Hwait.
  change (negb BUS_NAK) with BUS_ACK in Hwait.
  unfold bind at 1.
  destruct (while_loop fuel _ _ _) as [[] w1 | w1 | w1].
  - destruct Hwait as (k & Hk & Hw1 & Hack & Hnak).
    rewrite Serial_println_run.
    exists k. split; [exact Hk |].
    split.
    { rewrite Hw1. rewrite <- !run_app. unfold release_events.
      rewrite <- !app_assoc. reflexivity. }
    split.
    { rewrite <- app_assoc in Hack. exact Hack. }
    intros j Hj. specialize (Hnak j Hj). rewrite <- app_assoc in Hnak. exact Hnak.
  - exact Hwait.
  - destruct Hwait as (Hw1 & Hnak).
    split; [rewrite Hw1, <- run_app; reflexivity |].
    intros j Hj. specialize (Hnak j Hj). rewrite <- app_assoc in Hnak. exact Hnak.
Qed.

Lemma store_run f w : store f w = Ok tt (f w).
Proof. reflexivity. Qed.

(* A capture that gets as far as closing the dump file: what it recorded. *)
Lemma loop_hold_Ok env fuel w w' n :
  Z.of_nat n = 1048576 ->
  loop_hold env fuel w = Ok tt w' ->
  exists (console : list Event) (k : nat) (obs : list (list bool * bool)) (closed : bool),
    forallb is_console console = true
    /\ (k < fuel)%nat
    /\ obs = observed env true
               (trace w ++ console ++ seize_events k ++ dump_prologue (filename w))
               (Zrange 0 n)
    /\ closed = sd_ok env (trace w ++ console ++ seize_events k
                           ++ dump_prologue (filename w)
                           ++ capture_events (Zrange 0 n) obs)
    /\ w' = run (console ++ seize_events k ++ dump_prologue (filename w)
                 ++ capture_events (Zrange 0 n) obs
                 ++ dump_epilogue (filename w) closed)
              (set_dumpfile None w).
Proof.
  intro Hn.
  unfold loop_hold.
  rewrite (bind_step _ _ _ _ _ (store_run _ w)).
  set (w0 := set_dumpfile None w).
  destruct (await_enter_console env fuel w0) as (console & Hconsole & Hawait).
  unfold bind at 1.
  destruct (await_enter env fuel w0) as [[] w1 | w1 | w1]; try discriminate.
  subst w1.
  pose proof (seize_bus_spec env fuel (run console w0)) as Hseize. cbv zeta in Hseize.
  unfold bind at 1.
  destruct (seize_bus env fuel (run console w0)) as [[] w2 | w2 | w2]; try discriminate.
  destruct Hseize as (k & Hk & Hw2 & _). subst w2.
  rewrite <- (run_app console (seize_events k) w0).
  pose proof (dump_to_file_run env (run (console ++ seize_events k) w0) n Hn) as Hdump.
  cbv zeta in Hdump.
  rewrite filename_run, trace_run in Hdump.
  change (filename w0) with (filename w) in Hdump.
  change (trace w0) with (trace w) in Hdump.
  rewrite <- !(app_assoc (trace w)) in Hdump.
  rewrite <- !(app_assoc console (seize_events k)) in Hdump.
  rewrite Hdump.
  destruct (sd_ok env _); [| discriminate].
  intro H. apply (f_equal world_of) in H. cbn [world_of] in H. subst w'.
  exists console, k,
    (observed env true
       (trace w ++ console ++ seize_events k ++ dump_prologue (filename w)) (Zrange 0 n)).
  eexists.
  split; [exact Hconsole |]. split; [exact Hk |].
  split; [reflexivity |]. split; [reflexivity |].
  rewrite <- (run_app (console ++ seize_events k)).
  rewrite <- (app_assoc console (seize_events k)). reflexivity.
Qed.

(** *** The direction of the lines after a capture *)

Lemma last_mode_no_pin_mode p evs m :
  (forall e, In e evs -> match e with EvPinMode _ _ => False | _ => True end) ->
  last_mode p evs m = m.
Proof.
  revert m. induction evs as [| e evs IH]; intros m H; [reflexivity |].
  pose proof (H e (or_introl eq_refl)) as He.
  destruct e; try contradiction; cbn [last_mode]; apply IH; intros; apply H; now right.
Qed.

Lemma last_mode_console p evs m :
  forallb is_console evs = true -> last_mode p evs m = m.
Proof.
  intro H. apply last_mode_no_pin_mode. intros e He.
  rewrite forallb_forall in H. specialize (H e He). destruct e; try discriminate; exact I.
Qed.

Lemma last_mode_repeat_read p q v k m : last_mode p (repeat (EvRead q v) k) m = m.
Proof. induction k as [| k IH]; [reflexivity | exact IH]. Qed.

Lemma last_mode_seize p k m : last_mode p (seize_events k) m = m.
Proof.
  unfold seize_events. rewrite !last_mode_app, last_mode_repeat_read. reflexivity.
Qed.

Lemma last_mode_epilogue p name closed m : last_mode p (dump_epilogue name closed) m = m.
Proof. destruct closed; reflexivity. Qed.

Lemma last_mode_pins_other p pins x m :
  ~ In p pins -> last_mode p (map (fun q => EvPinMode q x) pins) m = m.
Proof.
  revert m. induction pins as [| q pins IH]; intros m H; [reflexivity |].
  cbn [map last_mode].
  destruct (Z.eqb_spec q p) as [-> | Hne]; [exfalso; apply H; now left |].
  apply IH. intro Hin. apply H. now right.
Qed.

Lemma existsb_eqb_false p pins : ~ In p pins -> existsb (Z.eqb p) pins = false.
Proof.
  intro H. destruct (existsb (Z.eqb p) pins) eqn:E; [| reflexivity].
  apply existsb_exists in E as (q & Hq & Heq). apply Z.eqb_eq in Heq. now subst.
Qed.

Lemma last_mode_chunk a o p m : last_mode p (capture_chunk a o) m = chunk_mode p m.
Proof.
  unfold capture_chunk, cycle_events, cycle_prefix.
  rewrite !last_mode_app, read_events_no_mode.
  cbn [last_mode].
  destruct (in_dec Z.eq_dec p bus_pins) as [Hin | Hout].
  - cbn in Hin.
    repeat (destruct Hin as [<- | Hin]; [vm_compute; reflexivity |]).
    destruct Hin.
  - rewrite (proj1 (drive_events_other_pins a p Hout)).
    assert (Hdata : ~ In p data_pins).
    { intro H. apply Hout. cbn in H |- *.
      repeat (destruct H as [<- | H]; [tauto |]). destruct H. }
    unfold release_data_events. rewrite last_mode_pins_other by exact Hdata.
    unfold chunk_mode. now rewrite !existsb_eqb_false.
Qed.

Lemma chunk_mode_twice p m : chunk_mode p (chunk_mode p m) = chunk_mode p m.
Proof.
  unfold chunk_mode.
  destruct (existsb (Z.eqb p) data_pins); [reflexivity |].
  destruct (existsb (Z.eqb p) bus_pins); reflexivity.
Qed.

Lemma last_mode_capture addrs obs p m :
  List.length addrs = List.length obs -> addrs <> [] ->
  last_mode p (capture_events addrs obs) m = chunk_mode p m.
Proof.
  revert obs m. induction addrs as [| a addrs IH]; intros [| o obs] m Hlen Hne;
    try discriminate; [contradiction |].
  cbn [capture_events]. rewrite last_mode_app, last_mode_chunk.
  destruct addrs as [| a' addrs].
  - destruct obs; [| discriminate]. reflexivity.
  - rewrite IH; [apply chunk_mode_twice | simpl in *; lia | discriminate].
Qed.

Lemma Zrange_nonempty lo n : (0 < n)%nat -> Zrange lo n <> [].
Proof. destruct n; [lia | discriminate]. Qed.

(* After a capture that got as far as closing the file, every pin is in the
   direction the prologue and the read cycles left it in. *)
Lemma pin_mode_after_hold env fuel w w' p :
  loop_hold env fuel w = Ok tt w' ->
  pin_mode w' p
  = chunk_mode p (last_mode p idle_events (pin_mode w p)).
Proof.
  intro H.
  assert (Hn : Z.of_nat (Z.to_nat 1048576) = 1048576) by lia.
  revert Hn. generalize (Z.to_nat 1048576). intros n Hn.
  destruct (loop_hold_Ok env fuel w w' n Hn H)
    as (console & k & obs & closed & Hc & _ & Hobs & _ & Hw').
  rewrite Hw', pin_mode_run. cbn [pin_mode set_dumpfile].
  rewrite !last_mode_app.
  rewrite (last_mode_console p console) by exact Hc.
  rewrite last_mode_seize, last_mode_epilogue.
  rewrite last_mode_capture;
    [| rewrite Hobs, observed_length; reflexivity | apply Zrange_nonempty; lia].
  unfold dump_prologue. rewrite !last_mode_app. reflexivity.
Qed.

(** *** Captures that complete *)

(* A target that acknowledges at the first poll. *)
Lemma seize_bus_first_poll env fuel w :
  (0 < fuel)%nat ->
  line_level env
    (trace w ++ [EvSerialOut "Seizing the bus ... "; EvWrite HLDRQ BUS_HOLD]) HLDAK
  = BUS_ACK ->
  seize_bus env fuel w = Ok tt (run (seize_events 0) w).
Proof.
  intros Hfuel Hack.
  pose proof (seize_bus_spec env fuel w) as Hspec. cbv zeta in Hspec.
  destruct (seize_bus env fuel w) as [[] w1 | w1 | w1].
  - destruct Hspec as (k & _ & Hw1 & _ & Hnak).
    destruct k as [| k]; [now rewrite Hw1 |].
    specialize (Hnak O ltac:(lia)). cbn [repeat] in Hnak.
    rewrite app_nil_r, Hack in Hnak. discriminate.
  - contradiction.
  - destruct Hspec as (_ & Hnak).
    specialize (Hnak O Hfuel). cbn [repeat] in Hnak.
    rewrite app_nil_r, Hack in Hnak. discriminate.
Qed.

(* A target that withdraws its acknowledge by the first poll. *)
Lemma release_bus_first_poll env fuel w :
  (0 < fuel)%nat ->
  line_level env
    (trace w ++ [EvSerialOut "Releasing the bus ... "; EvWrite HLDRQ BUS_RELEASE]) HLDAK
  = BUS_NAK ->
  release_bus env fuel w = Ok tt (run (release_events 0) w).
Proof.
  intros Hfuel Hnak.
  pose proof (release_bus_spec env fuel w) as Hspec. cbv zeta in Hspec.
  destruct (release_bus env fuel w) as [[] w1 | w1 | w1].
  - destruct Hspec as (k & _ & Hw1 & _ & Hack).
    destruct k as [| k]; [now rewrite Hw1 |].
    specialize (Hack O ltac:(lia)). cbn [repeat] in Hack.
    rewrite app_nil_r, Hnak in Hack. discriminate.
  - contradiction.
  - destruct Hspec as (_ & Hack).
    specialize (Hack O Hfuel). cbn [repeat] in Hack.
    rewrite app_nil_r, Hnak in Hack. discriminate.
Qed.

Lemma bench_hldak pattern card_ok h s v :
  line_level (bench pattern card_ok) (h ++ [EvSerialOut s; EvWrite HLDRQ v]) HLDAK = v.
Proof.
  cbn [line_level bench]. change (HLDAK =? HLDAK) with true. cbv iota.
  rewrite last_written_app. reflexivity.
Qed.

Lemma await_enter_bench pattern card_ok fuel w :
  await_enter (bench pattern card_ok) (S fuel) w = Ok tt (run bench_console w).
Proof. reflexivity. Qed.

(* On the test bench a capture gets to the dump as soon as it is started. *)
Lemma loop_hold_bench pattern card_ok fuel w :
  loop_hold (bench pattern card_ok) (S fuel) w
  = dump_to_file (bench pattern card_ok)
      (run (bench_console ++ seize_events 0) (set_dumpfile None w)).
Proof.
  unfold loop_hold.
  rewrite (bind_step _ _ _ _ _ (store_run _ w)).
  rewrite (bind_step _ _ _ _ _ (await_enter_bench pattern card_ok fuel _)).
  rewrite (bind_step _ _ _ _ _
             (seize_bus_first_poll _ (S fuel) _ ltac:(lia) (bench_hldak _ _ _ _ _))).
  rewrite <- run_app. reflexivity.
Qed.

(* The whole of loop(), when the capture got as far as closing the file. *)
Lemma loop_after_hold env fuel w w1 :
  loop_hold env fuel w = Ok tt w1 ->
  loop env fuel w
  = (release_bus env fuel ;;
     digitalWrite LED_BUILTIN LOW ;;
     Serial_print "Memory dumped to file " ;;
     name <- load filename ;;
     Serial_println name ;;
     next_file) w1.
Proof.
  intro H. unfold loop. now rewrite (bind_step _ _ _ _ _ H).
Qed.

Lemma loop_Ok env fuel w w' :
  loop env fuel w = Ok tt w' ->
  exists (w1 : World) (k : nat),
    loop_hold env fuel w = Ok tt w1
    /\ (k < fuel)%nat
    /\ next_file (run (release_events k ++ report_events (filename w1)) w1) = Ok tt w'.
Proof.
  unfold loop. intro H.
  apply bind_Ok in H as ([] & w1 & Hhold & H).
  exists w1.
  pose proof (release_bus_spec env fuel w1) as Hspec. cbv zeta in Hspec.
  unfold bind at 1 in H.
  destruct (release_bus env fuel w1) as [[] w2 | w2 | w2]; try discriminate.
  destruct Hspec as (k & Hk & Hw2 & _). subst w2.
  exists k. split; [exact Hhold |]. split; [exact Hk |].
  rewrite (bind_step _ _ _ _ _ (digitalWrite_run _ _ _)) in H.
  rewrite (bind_step _ _ _ _ _ (Serial_print_run _ _)) in H.
  rewrite (bind_step (load filename) _ _ _ _ (load_run _ _)) in H.
  rewrite (bind_step _ _ _ _ _ (Serial_println_run _ _)) in H.
  rewrite !filename_run in H.
  rewrite <- !run_app in H. exact H.
Qed.

Lemma emitted_app w w' evs : trace w' = trace w ++ evs -> emitted w w' = evs.
Proof.
  intro H. unfold emitted. rewrite H. clear H.
  induction (trace w) as [| x t IH]; [reflexivity | exact IH].
Qed.

Lemma dump_to_file_sound pattern w n :
  Z.of_nat n = 1048576 ->
  dump_to_file (bench pattern sound_card) w
  = Ok tt (run (dump_prologue (filename w)
                ++ capture_events (Zrange 0 n)
                     (observed (bench pattern sound_card) true
                        (trace w ++ dump_prologue (filename w)) (Zrange 0 n))
                ++ dump_epilogue (filename w) true) w).
Proof.
  intro Hn. rewrite (dump_to_file_run _ w n Hn). reflexivity.
Qed.

(* The pins in output mode after a capture that got as far as closing the
   file. *)
Lemma driven_after_hold env fuel w w1 pins :
  loop_hold env fuel w = Ok tt w1 ->
  driven w1 pins
  = filter (fun p => match chunk_mode p (last_mode p idle_events (pin_mode w p)) with
                     | OUTPUT => true
                     | INPUT => false
                     end) pins.
Proof.
  intro H. unfold driven. apply filter_ext. intro p.
  now rewrite (pin_mode_after_hold env fuel w w1 p H).
Qed.

(* ... and they are the six control lines and the address lines 8 to 19,
   whatever the direction of the pins was before. *)
Lemma lines_driven_after_hold env fuel w w1 :
  loop_hold env fuel w = Ok tt w1 ->
  driven w1 (control_pins ++ bus_pins) = control_pins ++ skipn 8 bus_pins.
Proof.
  intro H. rewrite (driven_after_hold env fuel w w1 _ H).
  generalize (pin_mode w). intro m. vm_compute. reflexivity.
Qed.

(* The rest of loop() changes the direction of no pin. *)
Lemma pin_mode_after_loop env fuel w w' :
  loop env fuel w = Ok tt w' ->
  exists (w1 : World) (k : nat),
    loop_hold env fuel w = Ok tt w1
    /\ (forall p, pin_mode w' p = pin_mode w1 p)
    /\ emitted w1 w' = release_events k ++ report_events (filename w).
Proof.
  intro H. apply loop_Ok in H as (w1 & k & Hhold & _ & Hnext).
  exists w1, k. split; [exact Hhold |].
  assert (Hname : filename w1 = filename w).
  { assert (Hn : Z.of_nat (Z.to_nat 1048576) = 1048576) by lia.
    revert Hn. generalize (Z.to_nat 1048576). intros n Hn.
    destruct (loop_hold_Ok env fuel w w1 n Hn Hhold)
      as (console & k' & obs & closed & _ & _ & _ & _ & Hw1).
    rewrite Hw1. now rewrite filename_run. }
  rewrite next_file_unfold in Hnext. cbv zeta in Hnext.
  destruct (_ >? 999); [discriminate |].
  apply (f_equal world_of) in Hnext. cbn [world_of] in Hnext.
  rewrite <- Hnext, Hname.
  split.
  - intro p. cbn [pin_mode set_filename set_file_number].
    rewrite pin_mode_run, last_mode_app.
    unfold release_events. rewrite !last_mode_app, last_mode_repeat_read.
    reflexivity.
  - apply emitted_app. cbn [trace set_filename set_file_number].
    now rewrite trace_run.
Qed.

(* On the test bench loop() returns once the capture has closed the file. *)
Lemma loop_bench pattern card_ok fuel w w1 :
  loop_hold (bench pattern card_ok) (S fuel) w = Ok tt w1 ->
  - 2 ^ 31 <= file_number w1 + 1 <= 999 ->
  loop (bench pattern card_ok) (S fuel) w
  = Ok tt (set_filename (dump_name (file_number w1 + 1))
             (set_file_number (file_number w1 + 1)
                (run (release_events 0 ++ report_events (filename w1)) w1))).
Proof.
  intros Hhold Hnum.
  rewrite (loop_after_hold _ _ _ _ Hhold).
  rewrite (bind_step _ _ _ _ _
             (release_bus_first_poll _ (S fuel) _ ltac:(lia) (bench_hldak _ _ _ _ _))).
  rewrite (bind_step _ _ _ _ _ (digitalWrite_run _ _ _)).
  rewrite (bind_step _ _ _ _ _ (Serial_print_run _ _)).
  rewrite (bind_step (load filename) _ _ _ _ (load_run _ _)).
  rewrite (bind_step _ _ _ _ _ (Serial_println_run _ _)).
  rewrite !filename_run. rewrite <- !run_app.
  rewrite next_file_ok by (now rewrite file_number_run).
  rewrite file_number_run. reflexivity.
Qed.

(* What the sketch never calls: bus_state_not_driven floats the six control
   lines and the twenty bus lines. *)
Lemma bus_state_not_driven_floats w :
  exists w', bus_state_not_driven w = Ok tt w'
             /\ driven w' (control_pins ++ bus_pins) = [].
Proof.
  exists (run (map (fun p => EvPinMode p INPUT) (control_pins ++ bus_pins)) w).
  split.
  - unfold bus_state_not_driven.
    change (map (fun p => EvPinMode p INPUT) (control_pins ++ bus_pins))
      with ([EvPinMode BUFEN INPUT] ++ [EvPinMode BUFRW INPUT] ++ [EvPinMode ASTB INPUT]
            ++ [EvPinMode RD INPUT] ++ [EvPinMode WR INPUT] ++ [EvPinMode IOMEM INPUT]
            ++ map (fun p => EvPinMode p INPUT) bus_pins).
    do 6 (eapply bind_run; [apply pinMode_run |]).
    apply tristate_address_pins_run.
  - unfold driven.
    erewrite filter_ext; [| intro p; rewrite pin_mode_run; reflexivity].
    generalize (pin_mode w). intro m. vm_compute. reflexivity.
Qed.

(* A whole pass of loop() on the test bench with a card that never fails. *)
Lemma loop_on_bench pattern fuel w n :
  Z.of_nat n = 1048576 ->
  - 2 ^ 31 <= file_number w + 1 <= 999 ->
  exists w1 w2 : World,
    loop_hold (bench pattern sound_card) (S fuel) w = Ok tt w1
    /\ loop (bench pattern sound_card) (S fuel) w = Ok tt w2
    /\ w1 = run (bench_console ++ seize_events 0 ++ dump_prologue (filename w)
                 ++ capture_events (Zrange 0 n)
                      (observed (bench pattern sound_card) true
                         (trace w ++ bench_console ++ seize_events 0
                          ++ dump_prologue (filename w))
                         (Zrange 0 n))
                 ++ dump_epilogue (filename w) true)
              (set_dumpfile None w)
    /\ w2 = set_filename (dump_name (file_number w + 1))
              (set_file_number (file_number w + 1)
                 (run (release_events 0 ++ report_events (filename w)) w1)).
Proof.
  intros Hn Hnum.
  pose proof (eq_trans (loop_hold_bench pattern sound_card fuel w)
                (dump_to_file_sound pattern _ n Hn)) as Hhold.
  rewrite filename_run, trace_run in Hhold.
  change (filename (set_dumpfile None w)) with (filename w) in Hhold.
  change (trace (set_dumpfile None w)) with (trace w) in Hhold.
  rewrite <- (run_app (bench_console ++ seize_events 0)) in Hhold.
  rewrite <- !(app_assoc bench_console (seize_events 0)) in Hhold.
  rewrite <- !(app_assoc (trace w)) in Hhold.
  rewrite <- !(app_assoc bench_console (seize_events 0)) in Hhold.
  eexists. eexists.
  split; [exact Hhold |].
  split; [| split; reflexivity].
  rewrite (loop_bench _ _ _ _ _ Hhold) by (now rewrite !file_number_run).
  now rewrite !file_number_run, !filename_run.
Qed.

(** C2, at a failing input.  On the test bench, from power-up with an empty
    card, loop() gets through the whole capture and returns; between the
    closing of the dump file and the end of loop() it records the withdrawal
    of the hold request, the poll of HLDAK and its report, and no pinMode;
    and both when HLDRQ is lowered and when loop() returns, the six control
    lines and the address lines 8 to 19 are in output mode. *)
Theorem bus_still_driven_at_release :
  exists w1 w2 : World,
    loop_hold (bench 0xAA sound_card) 1 (power_on empty_card) = Ok tt w1
    /\ loop (bench 0xAA sound_card) 1 (power_on empty_card) = Ok tt w2
    /\ emitted w1 w2
       = [EvSerialOut "Releasing the bus ... "; EvWrite HLDRQ BUS_RELEASE;
          EvRead HLDAK BUS_NAK; EvSerialOut ("ok" ++ crlf);
          EvWrite LED_BUILTIN LOW; EvSerialOut "Memory dumped to file ";
          EvSerialOut ("CWMEM000.BIN" ++ crlf)]
    /\ driven w1 (control_pins ++ bus_pins) = control_pins ++ skipn 8 bus_pins
    /\ driven w2 (control_pins ++ bus_pins) = control_pins ++ skipn 8 bus_pins.
Proof.
  destruct (loop_on_bench 0xAA 0 (power_on empty_card) (Z.to_nat 1048576)
              ltac:(lia) ltac:(cbn; lia))
    as (w1 & w2 & Hhold & Hloop & _ & Hw2).
  exists w1, w2.
  split; [exact Hhold |]. split; [exact Hloop |].
  destruct (pin_mode_after_loop _ _ _ _ Hloop) as (w1' & k & Hhold' & Hmodes & _).
  assert (w1' = w1) by congruence. subst w1'.
  split.
  { apply emitted_app. rewrite Hw2. cbn [trace set_filename set_file_number].
    now rewrite trace_run. }
  split; [exact (lines_driven_after_hold _ _ _ _ Hhold) |].
  rewrite <- (lines_driven_after_hold _ _ _ _ Hhold).
  unfold driven. apply filter_ext. intro p. now rewrite Hmodes.
Qed.

(** *** The dump file after a capture *)

Lemma card_effect e w : keeps_card e = true -> card (effect e w) = card w.
Proof.
  destruct e; try reflexivity; destruct ok; try discriminate; reflexivity.
Qed.

Lemma card_run evs w : forallb keeps_card evs = true -> card (run evs w) = card w.
Proof.
  revert w. induction evs as [| e evs IH]; intros w H; [reflexivity |].
  cbn [forallb] in H. apply andb_true_iff in H as [He Hevs].
  rewrite run_cons, IH by exact Hevs. now apply card_effect.
Qed.

(* While the dump file stays open on [name], the card appends to it the
   bytes it accepts. *)
Lemma card_written evs w name bs :
  dumpfile w = Some name -> card w name = Some bs ->
  forallb keeps_file evs = true ->
  card (run evs w) name = Some (bs ++ written evs).
Proof.
  revert w bs. induction evs as [| e evs IH]; intros w bs Hopen Hcard Hkeep.
  - cbn. now rewrite app_nil_r.
  - cbn [forallb] in Hkeep. apply andb_true_iff in Hkeep as [He Hevs].
    rewrite run_cons.
    assert (Hopen' : dumpfile (effect e w) = Some name)
      by (now rewrite dumpfile_effect).
    destruct e; try discriminate;
      try (cbn [written]; apply IH; [exact Hopen' | exact Hcard | exact Hevs]).
    destruct ok.
    + cbn [written]. rewrite (IH _ (bs ++ [b]) Hopen'); [| | exact Hevs].
      * now rewrite <- app_assoc.
      * unfold effect. rewrite Hopen. cbn [card log set_card].
        unfold card_append. rewrite String.eqb_refl, Hcard. reflexivity.
    + cbn [written]. apply IH; [exact Hopen' | exact Hcard | exact Hevs].
Qed.

Lemma console_keeps evs :
  forallb is_console evs = true ->
  forallb keeps_card evs = true /\ forallb keeps_file evs = true.
Proof.
  induction evs as [| e evs IH]; intro H; [split; reflexivity |].
  cbn [forallb] in H. apply andb_true_iff in H as [He Hevs].
  destruct (IH Hevs) as [H1 H2].
  destruct e; try discriminate; cbn [forallb keeps_card keeps_file]; split; assumption.
Qed.

Lemma seize_events_keep k :
  forallb keeps_card (seize_events k) = true /\ forallb keeps_file (seize_events k) = true.
Proof.
  unfold seize_events. rewrite !forallb_app.
  assert (H : forallb keeps_card (repeat (EvRead HLDAK BUS_NAK) k) = true
              /\ forallb keeps_file (repeat (EvRead HLDAK BUS_NAK) k) = true).
  { induction k as [| k IH]; [split; reflexivity | exact IH]. }
  destruct H as [-> ->]. split; reflexivity.
Qed.

(* The file of a capture that got as far as closing it: what it held
   before, then the bytes the card accepted. *)
Lemma card_after_capture (before cap : list Event) name closed w :
  forallb keeps_card before = true -> forallb keeps_file before = true ->
  forallb keeps_file cap = true ->
  filename w = name ->
  card (run (before ++ dump_prologue name ++ cap ++ dump_epilogue name closed)
          (set_dumpfile None w)) name
  = Some (old_contents w ++ written cap).
Proof.
  intros Hcard Hfile Hcap Hname.
  rewrite !run_app.
  set (w1 := run before (set_dumpfile None w)).
  assert (Hc1 : card w1 = card w) by (unfold w1; now rewrite card_run).
  unfold dump_prologue. rewrite !run_app.
  set (w2 := run idle_events (run [EvWrite LED_BUILTIN HIGH] w1)).
  assert (Hc2 : card w2 = card w) by (unfold w2; now rewrite !card_run).
  change [EvSdOpen name true; EvSerialOut ("Dumping ..." ++ crlf)]
    with ([EvSdOpen name true] ++ [EvSerialOut ("Dumping ..." ++ crlf)]).
  rewrite run_app.
  set (w3 := run [EvSerialOut ("Dumping ..." ++ crlf)] (run [EvSdOpen name true] w2)).
  assert (Hopen3 : dumpfile w3 = Some name) by reflexivity.
  assert (Hc3 : card w3 name = Some (old_contents w)).
  { unfold w3. rewrite card_run by reflexivity.
    cbn [run fold_left effect log set_card set_dumpfile card].
    unfold card_create, old_contents. rewrite String.eqb_refl, Hc2, Hname.
    destruct (card w name); reflexivity. }
  rewrite card_run by (destruct closed; reflexivity).
  now apply card_written.
Qed.

Lemma filter_all {A} (f : A -> bool) l : forallb f l = true -> filter f l = l.
Proof.
  induction l as [| x l IH]; intro H; [reflexivity |].
  cbn [forallb] in H. apply andb_true_iff in H as [Hx Hl].
  cbn [filter]. rewrite Hx, IH by exact Hl. reflexivity.
Qed.

Lemma filter_split_length {A} (f : A -> bool) l :
  (List.length (filter f l) + List.length (filter (fun x => negb (f x)) l)
   = List.length l)%nat.
Proof.
  induction l as [| x l IH]; [reflexivity |].
  cbn [filter]. destruct (f x); cbn [negb List.length]; lia.
Qed.

(* A card that never fails accepts every byte of the dump. *)
Lemma observed_all_accepted env h addrs :
  (forall h', sd_ok env h' = true) ->
  forallb snd (observed env true h addrs) = true.
Proof.
  intro Hok. revert h. induction addrs as [| a addrs IH]; intro h; [reflexivity |].
  cbn [observed forallb snd]. now rewrite Hok, IH.
Qed.

(* The general form of the statement on the dump file, for any number [n] of
   passes that the dump loop makes. *)
Lemma capture_file_general env fuel w w1 n :
  Z.of_nat n = 1048576 ->
  loop_hold env fuel w = Ok tt w1 ->
  exists (console : list Event) (k : nat) (obs : list (list bool * bool)) (closed : bool),
    emitted w w1
    = console ++ seize_events k ++ dump_prologue (filename w)
      ++ capture_events (Zrange 0 n) obs
      ++ dump_epilogue (filename w) closed
    /\ forallb is_console console = true
    /\ obs = observed env true
               (trace w ++ console ++ seize_events k ++ dump_prologue (filename w))
               (Zrange 0 n)
    /\ List.length obs = n
    /\ card w1 (filename w)
       = Some (old_contents w ++ map (fun o => bits_to_byte (fst o)) (filter snd obs))
    /\ (List.length (filter snd obs)
        + List.length (filter (fun o => negb (snd o)) obs) = n)%nat
    /\ (forallb snd obs = true -> card w (filename w) = None ->
        exists bytes : list Z,
          card w1 (filename w) = Some bytes
          /\ Z.of_nat (List.length bytes) = 1048576
          /\ forall a, 0 <= a <= 0xFFFFF ->
               nth (Z.to_nat a) bytes 0
               = bits_to_byte (fst (nth (Z.to_nat a) obs ([], false)))).
Proof.
  intros Hn Hhold.
  destruct (loop_hold_Ok env fuel w w1 n Hn Hhold)
    as (console & k & obs & closed & Hc & _ & Hobs & _ & Hw1).
  exists console, k, obs, closed.
  assert (Hlen : List.length obs = n)
    by (rewrite Hobs, observed_length; apply Zrange_length).
  assert (Hcard : card w1 (filename w)
                  = Some (old_contents w
                          ++ map (fun o => bits_to_byte (fst o)) (filter snd obs))).
  { rewrite Hw1.
    rewrite (app_assoc console (seize_events k)).
    rewrite card_after_capture.
    - rewrite written_capture by (now rewrite Zrange_length). reflexivity.
    - rewrite forallb_app. rewrite (proj1 (console_keeps _ Hc)).
      now rewrite (proj1 (seize_events_keep k)).
    - rewrite forallb_app. rewrite (proj2 (console_keeps _ Hc)).
      now rewrite (proj2 (seize_events_keep k)).
    - apply capture_events_keep_file.
    - reflexivity. }
  split.
  { apply emitted_app. rewrite Hw1, trace_run. reflexivity. }
  split; [exact Hc |].
  split; [exact Hobs |]. split; [exact Hlen |]. split; [exact Hcard |].
  split; [rewrite <- Hlen; apply filter_split_length |].
  intros Hall Hnew.
  exists (map (fun o => bits_to_byte (fst o)) obs).
  split.
  { rewrite Hcard. unfold old_contents. rewrite Hnew.
    now rewrite (filter_all _ _ Hall). }
  split; [rewrite length_map, Hlen; exact Hn |].
  intros a Ha.
  exact (map_nth (fun o => bits_to_byte (fst o)) obs ([], false) (Z.to_nat a)).
Qed.

(* Once a write has been recorded, the card that fails the first write
   accepts every byte. *)
Lemma observed_after_first_write pattern h addrs :
  existsb is_file_write h = true ->
  forallb snd (observed (bench pattern card_failing_first_write) true h addrs) = true.
Proof.
  revert h. induction addrs as [| a addrs IH]; intros h Hh; [reflexivity |].
  cbn [observed forallb snd sd_ok bench].
  unfold card_failing_first_write at 1.
  rewrite (existsb_app is_file_write h), Hh, orb_true_r. cbn [andb orb].
  apply IH. rewrite existsb_app, Hh. reflexivity.
Qed.

Lemma console_no_file_event evs :
  forallb is_console evs = true ->
  existsb is_file_write evs = false /\ existsb is_sd_open evs = false.
Proof.
  induction evs as [| e evs IH]; intro H; [split; reflexivity |].
  cbn [forallb] in H. apply andb_true_iff in H as [He Hevs].
  destruct e; try discriminate; exact (IH Hevs).
Qed.

Lemma seize_events_no_file_event k :
  existsb is_file_write (seize_events k) = false
  /\ existsb is_sd_open (seize_events k) = false.
Proof.
  unfold seize_events. rewrite !existsb_app.
  assert (H : existsb is_file_write (repeat (EvRead HLDAK BUS_NAK) k) = false
              /\ existsb is_sd_open (repeat (EvRead HLDAK BUS_NAK) k) = false).
  { induction k as [| k IH]; [split; reflexivity | exact IH]. }
  destruct H as [-> ->]. split; reflexivity.
Qed.

(* A capture on the test bench with the card that fails the first write:
   it completes, and the file gets one byte less than there are addresses. *)
Lemma capture_with_failed_write pattern fuel w n :
  Z.of_nat n = 1048576 ->
  existsb is_sd_open (trace w) = false ->
  existsb is_file_write (trace w) = false ->
  exists (w1 : World) (bytes : list Z),
    loop_hold (bench pattern card_failing_first_write) (S fuel) w = Ok tt w1
    /\ card w1 (filename w) = Some (old_contents w ++ bytes)
    /\ Z.of_nat (List.length bytes) = 1048575.
Proof.
  intros Hn Hopen Hwrite.
  set (env := bench pattern card_failing_first_write).
  (* the capture completes *)
  pose proof (loop_hold_bench pattern card_failing_first_write fuel w) as Hhold.
  fold env in Hhold.
  pose proof (dump_to_file_run env
                (run (bench_console ++ seize_events 0) (set_dumpfile None w)) n Hn)
    as Hdump.
  assert (Hcond : sd_ok env
                    (trace (run (bench_console ++ seize_events 0) (set_dumpfile None w))
                     ++ [EvWrite LED_BUILTIN HIGH] ++ idle_events) = true).
  { rewrite trace_run. cbn [sd_ok env bench trace set_dumpfile].
    unfold card_failing_first_write.
    rewrite !(existsb_app is_sd_open), Hopen. reflexivity. }
  rewrite Hcond in Hdump. cbv zeta in Hdump.
  pose proof (eq_trans Hhold Hdump) as Hok. clear Hhold Hdump Hcond.
  match type of Hok with _ = Ok tt ?x => generalize dependent x end.
  intros w1 Hok. exists w1.
  (* what the file holds *)
  destruct (capture_file_general env (S fuel) w w1 n Hn Hok)
    as (console & k & obs & closed & _ & Hc & Hobs & Hlen & Hcard & _ & _).
  exists (map (fun o => bits_to_byte (fst o)) (filter snd obs)).
  split; [exact Hok |]. split; [exact Hcard |].
  destruct n as [| m]; [lia |].
  cbn [Zrange observed] in Hobs.
  set (h0 := trace w ++ console ++ seize_events k ++ dump_prologue (filename w)) in *.
  assert (Hopened : existsb is_sd_open h0 = true).
  { unfold h0, dump_prologue. rewrite !existsb_app. cbn. now rewrite !orb_true_r. }
  assert (Hnone : existsb is_file_write h0 = false).
  { unfold h0, dump_prologue. rewrite !existsb_app, Hwrite.
    rewrite (proj1 (console_no_file_event _ Hc)).
    rewrite (proj1 (seize_events_no_file_event k)). reflexivity. }
  set (bits0 := cycle_bits env h0 0) in *.
  assert (Hfirst : sd_ok env (h0 ++ cycle_events 0 bits0) = false).
  { cbn [sd_ok env bench]. unfold card_failing_first_write.
    rewrite (existsb_app is_sd_open), Hopened.
    rewrite (existsb_app is_file_write), Hnone, cycle_events_no_file_write.
    reflexivity. }
  rewrite Hfirst in Hobs.
  set (rest := observed env true (h0 ++ capture_chunk 0 (bits0, false)) (Zrange (0 + 1) m))
    in *.
  assert (Hrest : forallb snd rest = true).
  { apply observed_after_first_write.
    unfold capture_chunk. rewrite !existsb_app. cbn. now rewrite !orb_true_r. }
  rewrite Hobs. cbn [filter snd].
  rewrite (filter_all _ _ Hrest), length_map.
  unfold rest. rewrite observed_length, Zrange_length. lia.
Qed.

(** C5, against the claim.  On the test bench, from power-up with an empty
    card that fails the first write to the dump file and nothing else, the
    capture completes and the file it leaves is 1,048,575 bytes long. *)
Lemma failed_write_shortens_the_file :
  exists (w1 : World) (bytes : list Z),
    loop_hold (bench 0xAA card_failing_first_write) 1 (power_on empty_card) = Ok tt w1
    /\ card w1 "CWMEM000.BIN" = Some bytes
    /\ Z.of_nat (List.length bytes) = 1048575.
Proof.
  destruct (capture_with_failed_write 0xAA 0 (power_on empty_card) (Z.to_nat 1048576)
              ltac:(lia) eq_refl eq_refl)
    as (w1 & bytes & Hhold & Hcard & Hlen).
  exists w1, bytes. split; [exact Hhold |]. split; [exact Hcard | exact Hlen].
Qed.

(** C5, amended.  A capture that gets as far as closing its dump file has
    gone through all 1,048,576 addresses, and the file then holds what it
    held before the capture followed by the samples whose write the card
    accepted, in the order of the addresses; a write that fails is ignored,
    so that the bytes added and the failed writes together number 1,048,576.
    When every write is accepted and the file is new, the file is exactly
    1,048,576 bytes long and its byte at offset a is the sample read at
    address a. *)
Theorem capture_file_holds_accepted_samples
    (env : Env) (fuel : nat) (w w1 : World) :
  loop_hold env fuel w = Ok tt w1 ->
  exists (console : list Event) (k : nat) (obs : list (list bool * bool)) (closed : bool),
    emitted w w1
    = console ++ seize_events k ++ dump_prologue (filename w)
      ++ capture_events (Zrange 0 (Z.to_nat 1048576)) obs
      ++ dump_epilogue (filename w) closed
    /\ forallb is_console console = true
    /\ obs = observed env true
               (trace w ++ console ++ seize_events k ++ dump_prologue (filename w))
               (Zrange 0 (Z.to_nat 1048576))
    /\ List.length obs = Z.to_nat 1048576
    /\ card w1 (filename w)
       = Some (old_contents w ++ map (fun o => bits_to_byte (fst o)) (filter snd obs))
    /\ (List.length (filter snd obs)
        + List.length (filter (fun o => negb (snd o)) obs) = Z.to_nat 1048576)%nat
    /\ (forallb snd obs = true -> card w (filename w) = None ->
        exists bytes : list Z,
          card w1 (filename w) = Some bytes
          /\ Z.of_nat (List.length bytes) = 1048576
          /\ forall a, 0 <= a <= 0xFFFFF ->
               nth (Z.to_nat a) bytes 0
               = bits_to_byte (fst (nth (Z.to_nat a) obs ([], false)))).
Proof.
  exact (capture_file_general env fuel w w1 (Z.to_nat 1048576) (Z2Nat.id 1048576 ltac:(lia))).
Qed.

(* What the test bench presents on the data lines, whatever the history. *)
Lemma bench_bits card_ok h a :
  cycle_bits (bench 0xAA card_ok) h a
  = [false; true; false; true; false; true; false; true].
Proof. reflexivity. Qed.

Lemma bench_samples card_ok opened addrs :
  forall h o, In o (observed (bench 0xAA card_ok) opened h addrs) ->
              bits_to_byte (fst o) = 0xAA.
Proof.
  induction addrs as [| a addrs IH]; intros h o Hin; [destruct Hin |].
  cbn [observed] in Hin. destruct Hin as [<- | Hin].
  - cbn [fst]. now rewrite bench_bits.
  - exact (IH _ _ Hin).
Qed.

(* The test bench, from power-up with an empty card that never fails: the
   capture completes and leaves a file of 1,048,576 bytes, every one 0xAA. *)
Lemma capture_file_holds_accepted_samples_witness :
  exists (w1 : World) (bytes : list Z),
    loop_hold (bench 0xAA sound_card) 1 (power_on empty_card) = Ok tt w1
    /\ card w1 "CWMEM000.BIN" = Some bytes
    /\ Z.of_nat (List.length bytes) = 1048576
    /\ forall a, 0 <= a <= 0xFFFFF -> nth (Z.to_nat a) bytes 0 = 0xAA.
Proof.
  destruct (loop_on_bench 0xAA 0 (power_on empty_card) (Z.to_nat 1048576)
              ltac:(lia) ltac:(cbn; lia))
    as (w1 & w2 & Hhold & _).
  destruct (capture_file_holds_accepted_samples
              (bench 0xAA sound_card) 1 (power_on empty_card) w1 Hhold)
    as (console & k & obs & closed & _ & _ & Hobs & Hlen & _ & _ & Hall).
  destruct Hall as (bytes & Hcard & Hbytes & Hnth).
  - rewrite Hobs. apply observed_all_accepted. reflexivity.
  - reflexivity.
  - exists w1, bytes.
    split; [exact Hhold |]. split; [exact Hcard |]. split; [exact Hbytes |].
    intros a Ha. rewrite (Hnth a Ha).
    apply (bench_samples sound_card true (Zrange 0 (Z.to_nat 1048576))
             (trace (power_on empty_card) ++ console ++ seize_events k
              ++ dump_prologue (filename (power_on empty_card)))).
    rewrite <- Hobs. apply nth_In. rewrite Hlen. lia.
Defined.

(** *** Every way a pass of loop() can go *)

(* The recorded events of a capture up to the closing of the file, however
   it ends: stuck waiting for Enter or for the acknowledge, stopped because
   the file could not be opened, or complete. *)
Lemma loop_hold_outcomes env fuel w n :
  Z.of_nat n = 1048576 ->
  exists console : list Event,
    forallb is_console console = true
    /\ match loop_hold env fuel w with
       | Ok _ w1 =>
           exists (k : nat) (obs : list (list bool * bool)) (closed : bool),
             List.length obs = n
             /\ filename w1 = filename w
             /\ trace w1 = trace w ++ console ++ seize_events k
                           ++ dump_prologue (filename w)
                           ++ capture_events (Zrange 0 n) obs
                           ++ dump_epilogue (filename w) closed
       | Halted w1 =>
           exists k : nat,
             trace w1 = trace w ++ console ++ seize_events k
                        ++ open_failure (filename w)
       | Blocked w1 =>
           trace w1 = trace w ++ console
           \/ trace w1 = trace w ++ console
                         ++ [EvSerialOut "Seizing the bus ... "; EvWrite HLDRQ BUS_HOLD]
                         ++ repeat (EvRead HLDAK BUS_NAK) fuel
       end.
Proof.
  intro Hn. unfold loop_hold.
  rewrite (bind_step _ _ _ _ _ (store_run _ w)).
  set (w0 := set_dumpfile None w).
  destruct (await_enter_console env fuel w0) as (console & Hconsole & Hawait).
  exists console. split; [exact Hconsole |].
  unfold bind at 1.
  destruct (await_enter env fuel w0) as [[] w1 | w1 | w1].
  - subst w1.
    pose proof (seize_bus_spec env fuel (run console w0)) as Hseize. cbv zeta in Hseize.
    unfold bind at 1.
    destruct (seize_bus env fuel (run console w0)) as [[] w2 | w2 | w2].
    + destruct Hseize as (k & Hk & Hw2 & _). subst w2.
      pose proof (dump_to_file_run env (run (seize_events k) (run console w0)) n Hn)
        as Hdump.
      cbv zeta in Hdump. rewrite Hdump.
      rewrite !filename_run. change (filename w0) with (filename w).
      destruct (sd_ok env _).
      * eexists k, _, _.
        split; [rewrite observed_length; apply Zrange_length |].
        split; [now rewrite !filename_run |].
        rewrite !trace_run. change (trace w0) with (trace w).
        rewrite <- !(app_assoc (trace w)), <- !(app_assoc console). reflexivity.
      * exists k. rewrite !trace_run. change (trace w0) with (trace w).
        rewrite <- !(app_assoc (trace w)), <- !(app_assoc console). reflexivity.
    + contradiction.
    + destruct Hseize as (Hw2 & _). right.
      rewrite Hw2, !trace_run. change (trace w0) with (trace w).
      rewrite <- !(app_assoc (trace w)). reflexivity.
  - contradiction.
  - left. rewrite Hawait, trace_run. reflexivity.
Qed.

(* The recorded events of a whole pass of loop(), however it ends. *)
Lemma loop_outcomes env fuel w n :
  Z.of_nat n = 1048576 ->
  exists console : list Event,
    forallb is_console console = true
    /\ match loop env fuel w with
       | Ok _ w' =>
           exists (k1 k2 : nat) (obs : list (list bool * bool)) (closed : bool),
             List.length obs = n
             /\ trace w' = trace w ++ console ++ seize_events k1
                           ++ (dump_prologue (filename w)
                               ++ capture_events (Zrange 0 n) obs
                               ++ dump_epilogue (filename w) closed)
                           ++ release_events k2
                           ++ report_events (filename w)
       | Halted w' =>
           (exists k1 : nat,
              trace w' = trace w ++ console ++ seize_events k1
                         ++ open_failure (filename w))
           \/ (exists (k1 k2 : nat) (obs : list (list bool * bool)) (closed : bool),
                 List.length obs = n
                 /\ trace w' = trace w ++ console ++ seize_events k1
                               ++ (dump_prologue (filename w)
                                   ++ capture_events (Zrange 0 n) obs
                                   ++ dump_epilogue (filename w) closed)
                               ++ release_events k2
                               ++ report_events (filename w)
                               ++ [too_many_files])
       | Blocked w' =>
           trace w' = trace w ++ console
           \/ trace w' = trace w ++ console
                         ++ [EvSerialOut "Seizing the bus ... "; EvWrite HLDRQ BUS_HOLD]
                         ++ repeat (EvRead HLDAK BUS_NAK) fuel
           \/ (exists (k1 : nat) (obs : list (list bool * bool)) (closed : bool),
                 List.length obs = n
                 /\ trace w' = trace w ++ console ++ seize_events k1
                               ++ (dump_prologue (filename w)
                                   ++ capture_events (Zrange 0 n) obs
                                   ++ dump_epilogue (filename w) closed)
                               ++ [EvSerialOut "Releasing the bus ... ";
                                   EvWrite HLDRQ BUS_RELEASE]
                               ++ repeat (EvRead HLDAK BUS_ACK) fuel)
       end.
Proof.
  intro Hn.
  destruct (loop_hold_outcomes env fuel w n Hn) as (console & Hconsole & Hhold).
  exists console. split; [exact Hconsole |].
  unfold loop. unfold bind at 1.
  destruct (loop_hold env fuel w) as [[] w1 | w1 | w1].
  - destruct Hhold as (k1 & obs & closed & Hlen & Hname & Htrace).
    pose proof (release_bus_spec env fuel w1) as Hrel. cbv zeta in Hrel.
    unfold bind at 1.
    destruct (release_bus env fuel w1) as [[] w2 | w2 | w2].
    + destruct Hrel as (k2 & _ & Hw2 & _). subst w2.
      rewrite (bind_step _ _ _ _ _ (digitalWrite_run _ _ _)).
      rewrite (bind_step _ _ _ _ _ (Serial_print_run _ _)).
      rewrite (bind_step (load filename) _ _ _ _ (load_run _ _)).
      rewrite (bind_step _ _ _ _ _ (Serial_println_run _ _)).
      rewrite !filename_run, Hname. rewrite <- !run_app.
      change ([EvWrite LED_BUILTIN LOW] ++ [EvSerialOut "Memory dumped to file "]
              ++ [EvSerialOut (filename w ++ crlf)])
        with (report_events (filename w)).
      rewrite next_file_unfold. cbv zeta.
      destruct (_ >? 999).
      * right. exists k1, k2, obs, closed. split; [exact Hlen |].
        rewrite trace_effect. cbn [trace set_file_number].
        rewrite trace_run, Htrace. rewrite <- !app_assoc. reflexivity.
      * exists k1, k2, obs, closed. split; [exact Hlen |].
        cbn [trace set_filename set_file_number].
        rewrite trace_run, Htrace. rewrite <- !app_assoc. reflexivity.
    + contradiction.
    + destruct Hrel as (Hw2 & _). right. right.
      exists k1, obs, closed. split; [exact Hlen |].
      rewrite Hw2, trace_run, Htrace. rewrite <- !app_assoc. reflexivity.
  - left. exact Hhold.
  - destruct Hhold as [H | H]; [left | right; left]; exact H.
Qed.

(** C6.  Taking the bus, the sketch raises HLDRQ and then polls HLDAK: it
    returns at the first poll that reads the acknowledge, every poll before
    having read none, and as long as the target does not acknowledge it is
    still polling, whatever the number of polls.  Giving the bus back is
    the mirror image: HLDRQ lowered, then polls until the first one that
    reads the acknowledge withdrawn.  Neither ever stops the sketch.  In a
    pass of loop(), however it ends, what is recorded is console traffic,
    then the request and the polls up to the observed acknowledge, then the
    capture (the only events on the bus lines and on the card), then the
    release and the polls up to the observed withdrawal, then the report:
    a pass that is stuck or stopped has recorded a beginning of this, and
    nothing of the capture before the acknowledge was read. *)
Theorem bus_handshake_waits_for_the_target :
  (forall (env : Env) (fuel : nat) (w : World),
     let request := [EvSerialOut "Seizing the bus ... "; EvWrite HLDRQ BUS_HOLD] in
     match seize_bus env fuel w with
     | Ok _ w' =>
         exists k : nat,
           (k < fuel)%nat
           /\ trace w' = trace w ++ request ++ repeat (EvRead HLDAK BUS_NAK) k
                         ++ [EvRead HLDAK BUS_ACK; EvSerialOut ("ok" ++ crlf)]
           /\ line_level env (trace w ++ request ++ repeat (EvRead HLDAK BUS_NAK) k) HLDAK
              = BUS_ACK
           /\ (forall j, (j < k)%nat ->
                 line_level env (trace w ++ request ++ repeat (EvRead HLDAK BUS_NAK) j)
                   HLDAK = BUS_NAK)
     | Halted _ => False
     | Blocked w' =>
         trace w' = trace w ++ request ++ repeat (EvRead HLDAK BUS_NAK) fuel
         /\ (forall j, (j < fuel)%nat ->
               line_level env (trace w ++ request ++ repeat (EvRead HLDAK BUS_NAK) j)
                 HLDAK = BUS_NAK)
     end)
  /\ (forall (env : Env) (fuel : nat) (w : World),
        let request := [EvSerialOut "Releasing the bus ... "; EvWrite HLDRQ BUS_RELEASE] in
        match release_bus env fuel w with
        | Ok _ w' =>
            exists k : nat,
              (k < fuel)%nat
              /\ trace w' = trace w ++ request ++ repeat (EvRead HLDAK BUS_ACK) k
                            ++ [EvRead HLDAK BUS_NAK; EvSerialOut ("ok" ++ crlf)]
              /\ line_level env (trace w ++ request ++ repeat (EvRead HLDAK BUS_ACK) k)
                   HLDAK = BUS_NAK
              /\ (forall j, (j < k)%nat ->
                    line_level env (trace w ++ request ++ repeat (EvRead HLDAK BUS_ACK) j)
                      HLDAK = BUS_ACK)
        | Halted _ => False
        | Blocked w' =>
            trace w' = trace w ++ request ++ repeat (EvRead HLDAK BUS_ACK) fuel
            /\ (forall j, (j < fuel)%nat ->
                  line_level env (trace w ++ request ++ repeat (EvRead HLDAK BUS_ACK) j)
                    HLDAK = BUS_ACK)
        end)
  /\ (forall (env : Env) (fuel : nat) (w : World),
        exists console : list Event,
          forallb is_console console = true
          /\ match loop env fuel w with
             | Ok _ w' =>
                 exists (k1 k2 : nat) (obs : list (list bool * bool)) (closed : bool),
                   List.length obs = Z.to_nat 1048576
                   /\ trace w'
                      = trace w ++ console ++ seize_events k1
                        ++ (dump_prologue (filename w)
                            ++ capture_events (Zrange 0 (Z.to_nat 1048576)) obs
                            ++ dump_epilogue (filename w) closed)
                        ++ release_events k2
                        ++ report_events (filename w)
             | Halted w' =>
                 (exists k1 : nat,
                    trace w' = trace w ++ console ++ seize_events k1
                               ++ open_failure (filename w))
                 \/ (exists (k1 k2 : nat) (obs : list (list bool * bool))
                            (closed : bool),
                       List.length obs = Z.to_nat 1048576
                       /\ trace w'
                          = trace w ++ console ++ seize_events k1
                            ++ (dump_prologue (filename w)
                                ++ capture_events (Zrange 0 (Z.to_nat 1048576)) obs
                                ++ dump_epilogue (filename w) closed)
                            ++ release_events k2
                            ++ report_events (filename w)
                            ++ [too_many_files])
             | Blocked w' =>
                 trace w' = trace w ++ console
                 \/ trace w' = trace w ++ console
                               ++ [EvSerialOut "Seizing the bus ... ";
                                   EvWrite HLDRQ BUS_HOLD]
                               ++ repeat (EvRead HLDAK BUS_NAK) fuel
                 \/ (exists (k1 : nat) (obs : list (list bool * bool)) (closed : bool),
                       List.length obs = Z.to_nat 1048576
                       /\ trace w'
                          = trace w ++ console ++ seize_events k1
                            ++ (dump_prologue (filename w)
                                ++ capture_events (Zrange 0 (Z.to_nat 1048576)) obs
                                ++ dump_epilogue (filename w) closed)
                            ++ [EvSerialOut "Releasing the bus ... ";
                                EvWrite HLDRQ BUS_RELEASE]
                            ++ repeat (EvRead HLDAK BUS_ACK) fuel)
             end).
Proof.
  split; [| split].
  - intros env fuel w request.
    pose proof (seize_bus_spec env fuel w) as H. cbv zeta in H. fold request in H.
    destruct (seize_bus env fuel w) as [[] w1 | w1 | w1].
    + destruct H as (k & Hk & Hw1 & Hack & Hnak).
      exists k. split; [exact Hk |].
      split; [rewrite Hw1, trace_run; reflexivity |].
      split; assumption.
    + exact H.
    + destruct H as (Hw1 & Hnak).
      split; [rewrite Hw1, trace_run; reflexivity | exact Hnak].
  - intros env fuel w request.
    pose proof (release_bus_spec env fuel w) as H. cbv zeta in H. fold request in H.
    destruct (release_bus env fuel w) as [[] w1 | w1 | w1].
    + destruct H as (k & Hk & Hw1 & Hnak & Hack).
      exists k. split; [exact Hk |].
      split; [rewrite Hw1, trace_run; reflexivity |].
      split; assumption.
    + exact H.
    + destruct H as (Hw1 & Hack).
      split; [rewrite Hw1, trace_run; reflexivity | exact Hack].
  - intros env fuel w.
    exact (loop_outcomes env fuel w (Z.to_nat 1048576) (Z2Nat.id 1048576 ltac:(lia))).
Qed.

(* A target that never acknowledges: the sketch never gets the bus. *)
Example seize_bus_never_acknowledged (fuel : nat) (w : World) :
  exists w', seize_bus {| line_level := fun _ _ => LOW;
                          serial_rx := fun _ => None;
                          sd_ok := fun _ => true |} fuel w = Blocked w'.
Proof.
  pose proof (seize_bus_spec {| line_level := fun _ _ => LOW;
                                serial_rx := fun _ => None;
                                sd_ok := fun _ => true |} fuel w) as H.
  cbv zeta in H.
  destruct (seize_bus _ fuel w) as [[] w1 | w1 | w1].
  - destruct H as (k & _ & _ & Hack & _). discriminate Hack.
  - contradiction.
  - now exists w1.
Qed.


(** ** The slot identifier over a session *)

(* The file names of the numbers 0 to 999 are pairwise distinct. *)
Lemma slot_of_dump_name n : 0 <= n <= 999 -> slot_of_name (dump_name n) = n.
Proof.
  intro Hn.
  assert (Hall : forallb (fun k => slot_of_name (dump_name k) =? k) (Zrange 0 1000) = true)
    by (vm_compute; reflexivity).
  rewrite forallb_forall in Hall.
  apply Z.eqb_eq, Hall, Zrange_In. lia.
Qed.

Lemma dump_name_injective a b :
  0 <= a <= 999 -> 0 <= b <= 999 -> dump_name a = dump_name b -> a = b.
Proof.
  intros Ha Hb E.
  rewrite <- (slot_of_dump_name a Ha), <- (slot_of_dump_name b Hb). now rewrite E.
Qed.

Lemma delay_run ms w : delay ms w = Ok tt (run [EvDelay ms] w).
Proof. reflexivity. Qed.

Lemma Serial_begin_run baud w : Serial_begin baud w = Ok tt (run [EvSerialBegin baud] w).
Proof. reflexivity. Qed.

Lemma sd_begin_run env w :
  sd_begin env w = Ok (sd_ok env (trace w)) (run [EvSdBegin (sd_ok env (trace w))] w).
Proof. reflexivity. Qed.

(* setup() up to the search for a file name: the pins of the handshake are
   set up, and the sketch stops when the card does not start. *)
Lemma setup_unfold env fuel w :
  setup env fuel w
  = if sd_ok env (trace w ++ setup_events)
    then (skip_existing_files fuel ;;
          n <- load file_number ;;
          (if n =? 1 then Serial_println "One dump file already exists on this SD card."
           else if n >? 1 then
                  Serial_print (decimal n) ;;
                  Serial_println " dump files already exist on this SD card."
                else ret tt))
           (run (setup_events ++ [EvSdBegin true]) w)
    else Halted (run (setup_events
                      ++ [EvSdBegin false; EvSerialOut ("SD card not working!" ++ crlf);
                          EvSerialOut ("SdFatSdioEX begin() failed" ++ crlf)]) w).
Proof.
  unfold setup.
  rewrite (bind_step _ _ _ _ _ (delay_run _ _)).
  rewrite (bind_step _ _ _ _ _ (Serial_begin_run _ _)).
  rewrite (bind_step _ _ _ _ _ (Serial_println_run _ _)).
  rewrite (bind_step _ _ _ _ _ (pinMode_run _ _ _)).
  rewrite (bind_step _ _ _ _ _ (digitalWrite_run _ _ _)).
  rewrite (bind_step _ _ _ _ _ (pinMode_run _ _ _)).
  rewrite (bind_step _ _ _ _ _ (pinMode_run _ _ _)).
  rewrite <- !run_app.
  change ([EvDelay 1000] ++ [EvSerialBegin 9600]
          ++ [EvSerialOut ("Cadetwriter ROM dumper 0.2" ++ crlf)]
          ++ [EvPinMode HLDRQ OUTPUT] ++ [EvWrite HLDRQ BUS_RELEASE]
          ++ [EvPinMode HLDAK INPUT] ++ [EvPinMode LED_BUILTIN OUTPUT])
    with setup_events.
  rewrite (bind_step _ _ _ _ _ (sd_begin_run env _)).
  rewrite trace_run.
  destruct (sd_ok env (trace w ++ setup_events)).
  - cbn [negb]. rewrite (bind_step (ret tt) _ _ tt _ eq_refl).
    rewrite <- run_app. reflexivity.
  - cbn [negb]. rewrite bind_assoc.
    rewrite (bind_step _ _ _ _ _ (Serial_println_run _ _)).
    unfold sd_initErrorHalt. rewrite bind_assoc.
    rewrite (bind_step _ _ _ _ _ (Serial_println_run _ _)).
    unfold bind, halt. rewrite <- !run_app. reflexivity.
Qed.

(* A pass of loop() that returns has moved on to the next file number, which
   is at most 999, and to its name. *)
Lemma loop_advances_slot env fuel w w' :
  loop env fuel w = Ok tt w' ->
  file_number w' = int_wrap (file_number w + 1)
  /\ file_number w' <= 999
  /\ filename w' = dump_name (file_number w').
Proof.
  intro H. apply loop_Ok in H as (w1 & k & Hhold & _ & Hnext).
  assert (Hnum : file_number w1 = file_number w).
  { assert (Hn : Z.of_nat (Z.to_nat 1048576) = 1048576) by lia.
    revert Hn. generalize (Z.to_nat 1048576). intros n Hn.
    destruct (loop_hold_Ok env fuel w w1 n Hn Hhold)
      as (console & k' & obs & closed & _ & _ & _ & _ & Hw1).
    rewrite Hw1. now rewrite file_number_run. }
  rewrite next_file_unfold in Hnext. cbv zeta in Hnext.
  rewrite file_number_run, Hnum in Hnext.
  destruct (Z.gtb_spec (int_wrap (file_number w + 1)) 999) as [| Hle];
    [discriminate |].
  apply (f_equal world_of) in Hnext. cbn [world_of] in Hnext. subst w'.
  cbn [file_number filename set_filename set_file_number].
  split; [reflexivity |]. split; [exact Hle | reflexivity].
Qed.

(* A card that holds all thousand dump files: setup() never gets past the
   search for a name. *)
Example skip_existing_files_full_card :
  exists w', skip_existing_files 1001 (power_on (fun _ => Some [])) = Halted w'
             /\ file_number w' = 1000
             /\ filename w' = "CWMEM999.BIN"%string.
Proof. vm_compute. eexists. split; [reflexivity |]. split; reflexivity. Qed.

(** * The sketch as a whole

    setup(), the passes of loop() and the helpers they call, from any state
    and for every way they can end. *)

(** ** States that differ in the file number and name only *)

Lemma effect_relabel e n s w : effect e (relabel n s w) = relabel n s (effect e w).
Proof.
  destruct e; try reflexivity.
  - destruct ok; reflexivity.
  - destruct ok; [| reflexivity].
    unfold effect, relabel. cbn [dumpfile set_filename set_file_number].
    destruct (dumpfile w); reflexivity.
Qed.

Lemma run_relabel evs n s w : run evs (relabel n s w) = relabel n s (run evs w).
Proof.
  revert w. induction evs as [| e evs IH]; intro w; [reflexivity |].
  rewrite !run_cons, effect_relabel. apply IH.
Qed.

Lemma relabel_same w : relabel (file_number w) (filename w) w = w.
Proof. destruct w; reflexivity. Qed.

Lemma relabel_run_same evs w :
  relabel (file_number w) (filename w) (run evs w) = run evs w.
Proof.
  rewrite <- (file_number_run evs w) at 1. rewrite <- (filename_run evs w) at 1.
  apply relabel_same.
Qed.

Lemma quiet_effect e w :
  is_quiet e = true ->
  (forall p, pin_mode (effect e w) p = pin_mode w p)
  /\ (forall p, pin_out (effect e w) p = pin_out w p)
  /\ (forall s, card (effect e w) s = card w s)
  /\ dumpfile (effect e w) = dumpfile w.
Proof. destruct e; try discriminate; intros _; repeat split. Qed.

Lemma quiet_run evs w :
  forallb is_quiet evs = true ->
  (forall p, pin_mode (run evs w) p = pin_mode w p)
  /\ (forall p, pin_out (run evs w) p = pin_out w p)
  /\ (forall s, card (run evs w) s = card w s)
  /\ dumpfile (run evs w) = dumpfile w.
Proof.
  revert w. induction evs as [| e evs IH]; intros w H; [repeat split |].
  cbn [forallb] in H. apply andb_true_iff in H as [He Hevs].
  rewrite run_cons.
  destruct (IH (effect e w) Hevs) as (H1 & H2 & H3 & H4).
  destruct (quiet_effect e w He) as (E1 & E2 & E3 & E4).
  repeat split; intros; congruence.
Qed.

(** ** setup() *)

(* The search for a free name, however it ends: only probes of the card and
   the message of next_file are recorded. *)
Lemma skip_existing_files_world fuel :
  forall w, exists evs num name,
    world_of (skip_existing_files fuel w) = relabel num name (run evs w)
    /\ forallb is_quiet evs = true.
Proof.
  induction fuel as [| fuel IH]; intro w.
  - exists [], (file_number w), (filename w). split; [| reflexivity].
    cbn [world_of skip_existing_files while_loop blocked]. now rewrite relabel_run_same.
  - unfold skip_existing_files in *. cbn [while_loop].
    unfold bind at 1. unfold bind at 1. unfold load, sd_exists.
    destruct (card w (filename w)).
    + set (w1 := effect (EvSdExists (filename w) true) w).
      unfold bind at 1. rewrite next_file_unfold. cbv zeta.
      destruct (_ >? 999).
      * exists [EvSdExists (filename w) true; too_many_files],
               (int_wrap (file_number w1 + 1)), (filename w).
        split; reflexivity.
      * destruct (IH (set_filename (dump_name (int_wrap (file_number w1 + 1)))
                        (set_file_number (int_wrap (file_number w1 + 1)) w1)))
          as (evs & num & name & Hw & Hq).
        exists (EvSdExists (filename w) true :: evs), num, name.
        split; [| exact Hq].
        refine (eq_trans Hw _).
        change (set_filename ?s (set_file_number ?n w1)) with (relabel n s w1).
        rewrite run_relabel. reflexivity.
    + exists [EvSdExists (filename w) false], (file_number w), (filename w).
      split; [| reflexivity]. cbn [world_of]. now rewrite relabel_run_same.
Qed.

(* setup(), lines 273-279. *)
Lemma files_found_report_run n w :
  (if n =? 1 then Serial_println "One dump file already exists on this SD card."
   else if n >? 1 then
          Serial_print (decimal n) ;;
          Serial_println " dump files already exist on this SD card."
        else ret tt) w
  = Ok tt (run (files_found_report n) w).
Proof.
  unfold files_found_report.
  destruct (n =? 1); [reflexivity |].
  destruct (n >? 1); reflexivity.
Qed.

Lemma files_found_report_quiet n : forallb is_quiet (files_found_report n) = true.
Proof.
  unfold files_found_report.
  destruct (n =? 1); [reflexivity |]. destruct (n >? 1); reflexivity.
Qed.

(* setup(), however it ends: after the events that set up the console and
   the handshake pins, nothing it records changes a pin or the card. *)
Lemma setup_world env fuel w :
  exists evs num name,
    world_of (setup env fuel w) = relabel num name (run (setup_events ++ evs) w)
    /\ forallb is_quiet evs = true.
Proof.
  rewrite setup_unfold.
  destruct (sd_ok env (trace w ++ setup_events)).
  - set (w1 := run (setup_events ++ [EvSdBegin true]) w).
    destruct (skip_existing_files_world fuel w1) as (evs & num & name & Hw & Hq).
    unfold bind at 1.
    destruct (skip_existing_files fuel w1) as [[] w2 | w2 | w2];
      cbn [world_of] in Hw; subst w2.
    + rewrite (bind_step (load file_number) _ _ _ _ (load_run _ _)).
      rewrite files_found_report_run. cbn [world_of].
      exists ([EvSdBegin true] ++ evs ++ files_found_report (file_number (relabel num name (run evs w1)))),
             num, name.
      split.
      * unfold w1. rewrite run_relabel, <- !run_app, <- !app_assoc. reflexivity.
      * rewrite !forallb_app, Hq, files_found_report_quiet. reflexivity.
    + exists ([EvSdBegin true] ++ evs), num, name. split.
      * cbn [world_of]. unfold w1. rewrite <- !run_app, <- !app_assoc. reflexivity.
      * rewrite forallb_app, Hq. reflexivity.
    + exists ([EvSdBegin true] ++ evs), num, name. split.
      * cbn [world_of]. unfold w1. rewrite <- !run_app, <- !app_assoc. reflexivity.
      * rewrite forallb_app, Hq. reflexivity.
  - eexists _, (file_number w), (filename w). split.
    + cbn [world_of]. rewrite relabel_run_same. reflexivity.
    + reflexivity.
Qed.

Lemma last_mode_quiet p evs m : forallb is_quiet evs = true -> last_mode p evs m = m.
Proof.
  revert m. induction evs as [| e evs IH]; intros m H; [reflexivity |].
  cbn [forallb] in H. apply andb_true_iff in H as [He Hevs].
  destruct e; try discriminate; cbn [last_mode]; now apply IH.
Qed.

Lemma last_written_quiet p evs v : forallb is_quiet evs = true -> last_written p evs v = v.
Proof.
  revert v. induction evs as [| e evs IH]; intros v H; [reflexivity |].
  cbn [forallb] in H. apply andb_true_iff in H as [He Hevs].
  destruct e; try discriminate; cbn [last_written]; now apply IH.
Qed.

Lemma last_mode_setup p m :
  last_mode p setup_events m
  = if p =? HLDRQ then OUTPUT
    else if p =? HLDAK then INPUT
    else if p =? LED_BUILTIN then OUTPUT
    else m.
Proof.
  unfold setup_events. cbn [last_mode].
  rewrite !(Z.eqb_sym _ p).
  destruct (Z.eqb_spec p HLDRQ) as [-> |]; [reflexivity |].
  destruct (Z.eqb_spec p HLDAK) as [-> |]; [reflexivity |].
  destruct (p =? LED_BUILTIN); reflexivity.
Qed.

Lemma last_written_setup p v :
  last_written p setup_events v = if p =? HLDRQ then BUS_RELEASE else v.
Proof.
  unfold setup_events. cbn [last_written].
  rewrite (Z.eqb_sym _ p). reflexivity.
Qed.



(* setup() on a card that starts and has a free file name. *)
Lemma setup_returns env fuel w n :
  sd_ok env (trace w ++ setup_events) = true ->
  file_number w = 0 -> filename w = "CWMEM000.BIN"%string ->
  0 <= n <= 999 ->
  (forall k, 0 <= k < n -> on_card (card w) k = true) ->
  on_card (card w) n = false ->
  (Z.to_nat n < fuel)%nat ->
  exists w' : World,
    setup env fuel w = Ok tt w'
    /\ emitted w w'
       = setup_events ++ [EvSdBegin true] ++ probes 0 (Z.to_nat n) ++ files_found_report n
    /\ file_number w' = n
    /\ filename w' = dump_name n
    /\ (forall s, card w' s = card w s)
    /\ pin_mode w' HLDRQ = OUTPUT /\ pin_out w' HLDRQ = BUS_RELEASE
    /\ pin_mode w' HLDAK = INPUT /\ pin_mode w' LED_BUILTIN = OUTPUT.
Proof.
  intros Hok Hnum Hname Hn Hall Hfree Hfuel.
  rewrite setup_unfold, Hok.
  set (w1 := run (setup_events ++ [EvSdBegin true]) w).
  assert (Hcard1 : card w1 = card w) by (unfold w1; now rewrite card_run).
  assert (Hnum1 : file_number w1 = 0) by (unfold w1; now rewrite file_number_run).
  assert (Hname1 : filename w1 = dump_name 0)
    by (unfold w1; now rewrite filename_run).
  rewrite <- Hcard1 in Hall, Hfree.
  assert (Hto : 0 + Z.of_nat (Z.to_nat n) = n) by lia.
  destruct (skip_existing_files_from (Z.to_nat n) fuel w1 0)
    as (w2 & Hskip & Hnum2 & Hname2 & Hcard2 & Htrace2 & Hmode2 & Hout2 & _);
    [lia | lia | exact Hnum1 | exact Hname1
     | intros j Hj; apply Hall; lia | now rewrite Hto | exact Hfuel |].
  rewrite Hto in Hnum2, Hname2.
  rewrite (bind_step _ _ _ _ _ Hskip).
  rewrite (bind_step (load file_number) _ _ _ _ (load_run _ _)).
  rewrite files_found_report_run, Hnum2.
  exists (run (files_found_report n) w2).
  split; [reflexivity |].
  split.
  { apply emitted_app. rewrite trace_run, Htrace2. unfold w1. rewrite trace_run.
    rewrite <- !app_assoc. reflexivity. }
  rewrite file_number_run, filename_run.
  split; [exact Hnum2 |]. split; [exact Hname2 |].
  pose proof (quiet_run (files_found_report n) w2 (files_found_report_quiet n))
    as (Qm & Qo & Qc & _).
  split; [intro s; now rewrite Qc, Hcard2, Hcard1 |].
  rewrite !Qm, Qo, Hmode2, Hout2. unfold w1.
  rewrite !pin_mode_run, pin_out_run. repeat split.
Qed.


(** X2.  On a card that starts and holds the dump files 0 to n - 1 but not
    file n (n at most 999), setup() started from the initial globals returns
    with file number n and the name of n.  It has probed the names 0 to n in
    order and then told the user how many files it found: nothing when there
    is none, the singular message for one, the count and the plural message
    otherwise.  It leaves HLDRQ an output at low, HLDAK an input, the LED pin
    an output, and the card as it was. *)
Theorem setup_reports_existing_files (env : Env) (fuel : nat) (w : World) (n : Z) :
  sd_ok env (trace w ++ setup_events) = true ->
  file_number w = 0 -> filename w = "CWMEM000.BIN"%string ->
  0 <= n <= 999 ->
  (forall k, 0 <= k < n -> on_card (card w) k = true) ->
  on_card (card w) n = false ->
  (Z.to_nat n < fuel)%nat ->
  exists w' : World,
    setup env fuel w = Ok tt w'
    /\ emitted w w'
       = setup_events ++ [EvSdBegin true] ++ probes 0 (Z.to_nat n) ++ files_found_report n
    /\ file_number w' = n
    /\ filename w' = dump_name n
    /\ (forall s, card w' s = card w s)
    /\ pin_mode w' HLDRQ = OUTPUT /\ pin_out w' HLDRQ = BUS_RELEASE
    /\ pin_mode w' HLDAK = INPUT /\ pin_mode w' LED_BUILTIN = OUTPUT.
Proof. exact (setup_returns env fuel w n). Qed.

(* A card that holds the files 0, 1 and 2. *)
Lemma setup_reports_existing_files_witness :
  exists w' : World,
    setup (bench 0 sound_card) 4 (power_on (card_with [0; 1; 2])) = Ok tt w'
    /\ emitted (power_on (card_with [0; 1; 2])) w'
       = setup_events ++ [EvSdBegin true] ++ probes 0 (Z.to_nat 3) ++ files_found_report 3
    /\ file_number w' = 3
    /\ filename w' = dump_name 3
    /\ (forall s, card w' s = card (power_on (card_with [0; 1; 2])) s)
    /\ pin_mode w' HLDRQ = OUTPUT /\ pin_out w' HLDRQ = BUS_RELEASE
    /\ pin_mode w' HLDAK = INPUT /\ pin_mode w' LED_BUILTIN = OUTPUT.
Proof.
  apply (setup_reports_existing_files (bench 0 sound_card) 4
           (power_on (card_with [0; 1; 2])) 3).
  - reflexivity.
  - reflexivity.
  - reflexivity.
  - lia.
  - intros k Hk.
    assert (Hc : k = 0 \/ k = 1 \/ k = 2) by lia.
    destruct Hc as [-> | [-> | ->]]; reflexivity.
  - reflexivity.
  - vm_compute. lia.
Defined.

(** X3.  However setup() ends (it returns, it stops on a card that does not
    start or on a card full of dump files), it has touched three pins only:
    HLDRQ is an output at low, HLDAK an input, the LED pin an output.  No bus
    line and no bus control line has changed direction or level, and the
    card and the dump file are as they were: before the first capture the
    V20 keeps its bus. *)
Theorem setup_leaves_the_bus_to_the_target (env : Env) (fuel : nat) (w : World) :
  let w' := world_of (setup env fuel w) in
  (forall p, pin_mode w' p
             = if p =? HLDRQ then OUTPUT
               else if p =? HLDAK then INPUT
               else if p =? LED_BUILTIN then OUTPUT
               else pin_mode w p)
  /\ (forall p, pin_out w' p = if p =? HLDRQ then BUS_RELEASE else pin_out w p)
  /\ Forall (fun p => pin_mode w' p = pin_mode w p /\ pin_out w' p = pin_out w p)
            (control_pins ++ bus_pins)
  /\ (forall s, card w' s = card w s)
  /\ dumpfile w' = dumpfile w.
Proof.
  intro w'.
  destruct (setup_world env fuel w) as (evs & num & name & Hw & Hq).
  fold w' in Hw.
  assert (Hmode : forall p, pin_mode w' p = last_mode p setup_events (pin_mode w p)).
  { intro p. rewrite Hw. unfold relabel. cbn [pin_mode set_filename set_file_number].
    rewrite pin_mode_run, last_mode_app. now apply last_mode_quiet. }
  assert (Hout : forall p, pin_out w' p = last_written p setup_events (pin_out w p)).
  { intro p. rewrite Hw. unfold relabel. cbn [pin_out set_filename set_file_number].
    rewrite pin_out_run, last_written_app. now apply last_written_quiet. }
  split; [intro p; rewrite Hmode; apply last_mode_setup |].
  split; [intro p; rewrite Hout; apply last_written_setup |].
  split.
  { apply Forall_forall. intros p Hp.
    rewrite Hmode, Hout, last_mode_setup, last_written_setup.
    cbn in Hp.
    repeat (destruct Hp as [<- | Hp]; [split; reflexivity |]). contradiction. }
  rewrite Hw. unfold relabel. cbn [card dumpfile set_filename set_file_number].
  rewrite run_app.
  pose proof (quiet_run evs (run setup_events w) Hq) as (_ & _ & Qc & Qd).
  split; [intro s; rewrite Qc |]; [| rewrite Qd]; reflexivity.
Qed.

(** ** The bus lines *)

Lemma last_mode_release pins p m :
  last_mode p (map (fun q => EvPinMode q INPUT) pins) m
  = if existsb (Z.eqb p) pins then INPUT else m.
Proof.
  revert m. induction pins as [| q pins IH]; intro m; [reflexivity |].
  cbn [map last_mode existsb]. rewrite IH, (Z.eqb_sym q p).
  destruct (p =? q), (existsb (Z.eqb p) pins); reflexivity.
Qed.

Lemma last_written_release pins p v :
  last_written p (map (fun q => EvPinMode q INPUT) pins) v = v.
Proof. induction pins as [| q pins IH]; [reflexivity | exact IH]. Qed.

Lemma last_mode_idle p m :
  last_mode p idle_events m = if existsb (Z.eqb p) control_pins then OUTPUT else m.
Proof.
  unfold idle_events, control_pins. cbn [last_mode existsb].
  rewrite !(Z.eqb_sym _ p).
  destruct (p =? BUFEN), (p =? BUFRW), (p =? ASTB), (p =? RD), (p =? WR), (p =? IOMEM);
    reflexivity.
Qed.

Lemma last_written_idle p v :
  last_written p idle_events v
  = if existsb (Z.eqb p) control_pins then idle_level p else v.
Proof.
  unfold idle_events, control_pins, idle_level. cbn [last_written existsb].
  rewrite !(Z.eqb_sym _ p).
  destruct (Z.eqb_spec p BUFEN) as [-> |]; [reflexivity |].
  destruct (Z.eqb_spec p BUFRW) as [-> |]; [reflexivity |].
  destruct (Z.eqb_spec p ASTB) as [-> |]; [reflexivity |].
  destruct (Z.eqb_spec p RD) as [-> |]; [reflexivity |].
  destruct (Z.eqb_spec p WR) as [-> |]; [reflexivity |].
  destruct (p =? IOMEM); reflexivity.
Qed.

(** X4.  bus_state_driven_idle always returns, and leaves the six control
    lines in output mode at their idle levels (BUFEN, RD and WR high; BUFRW,
    ASTB and IOMEM low), whatever they were; no other pin changes direction
    or level, and the card and the globals are untouched.  Each line gets
    its idle level written before it is made an output. *)
Theorem bus_state_driven_idle_takes_the_control_lines (w : World) :
  exists w' : World,
    bus_state_driven_idle w = Ok tt w'
    /\ (forall p, pin_mode w' p
                  = if existsb (Z.eqb p) control_pins then OUTPUT else pin_mode w p)
    /\ (forall p, pin_out w' p
                  = if existsb (Z.eqb p) control_pins then idle_level p else pin_out w p)
    /\ forallb (fun p => precedes (is_write p (idle_level p)) (is_mode p OUTPUT)
                           (emitted w w'))
               control_pins = true
    /\ List.length (emitted w w') = 12%nat
    /\ (forall s, card w' s = card w s)
    /\ dumpfile w' = dumpfile w
    /\ file_number w' = file_number w /\ filename w' = filename w.
Proof.
  exists (run idle_events w).
  split; [apply bus_state_driven_idle_run |].
  split; [intro p; rewrite pin_mode_run; apply last_mode_idle |].
  split; [intro p; rewrite pin_out_run; apply last_written_idle |].
  rewrite emitted_run, file_number_run, filename_run.
  split; [reflexivity |]. split; [reflexivity |].
  split; [intro s; now rewrite card_run |].
  split; [now rewrite dumpfile_run |].
  split; reflexivity.
Qed.

Lemma bus_state_not_driven_run w :
  bus_state_not_driven w
  = Ok tt (run (map (fun p => EvPinMode p INPUT) (control_pins ++ bus_pins)) w).
Proof.
  unfold bus_state_not_driven.
  change (map (fun p => EvPinMode p INPUT) (control_pins ++ bus_pins))
    with ([EvPinMode BUFEN INPUT] ++ [EvPinMode BUFRW INPUT] ++ [EvPinMode ASTB INPUT]
          ++ [EvPinMode RD INPUT] ++ [EvPinMode WR INPUT] ++ [EvPinMode IOMEM INPUT]
          ++ map (fun p => EvPinMode p INPUT) bus_pins).
  do 6 (eapply bind_run; [apply pinMode_run |]).
  apply tristate_address_pins_run.
Qed.

(** X5.  bus_state_not_driven always returns, and puts the six control lines
    and the twenty bus lines in input mode, whatever their direction was:
    after it the sketch drives none of them.  It records 26 pinMode calls
    and nothing else; no latch, no other pin's direction, nothing on the
    card and no global changes. *)
Theorem bus_state_not_driven_floats_every_line (w : World) :
  exists w' : World,
    bus_state_not_driven w = Ok tt w'
    /\ (forall p, pin_mode w' p
                  = if existsb (Z.eqb p) (control_pins ++ bus_pins) then INPUT
                    else pin_mode w p)
    /\ (forall p, pin_out w' p = pin_out w p)
    /\ driven w' (control_pins ++ bus_pins) = []
    /\ emitted w w' = map (fun p => EvPinMode p INPUT) (control_pins ++ bus_pins)
    /\ (forall s, card w' s = card w s)
    /\ dumpfile w' = dumpfile w
    /\ file_number w' = file_number w /\ filename w' = filename w.
Proof.
  exists (run (map (fun p => EvPinMode p INPUT) (control_pins ++ bus_pins)) w).
  split; [apply bus_state_not_driven_run |].
  split; [intro p; rewrite pin_mode_run; apply last_mode_release |].
  split; [intro p; rewrite pin_out_run; apply last_written_release |].
  split.
  { unfold driven.
    erewrite filter_ext; [| intro p; rewrite pin_mode_run; reflexivity].
    generalize (pin_mode w). intro m. vm_compute. reflexivity. }
  rewrite emitted_run, file_number_run, filename_run.
  split; [reflexivity |].
  split; [intro s; now rewrite card_run |].
  split; [now rewrite dumpfile_run |].
  split; reflexivity.
Qed.

(** ** One read cycle *)

Lemma line_of_pin_None p pins i : ~ In p pins -> line_of_pin p pins i = None.
Proof.
  revert i. induction pins as [| q pins IH]; intros i H; [reflexivity |].
  cbn [line_of_pin].
  destruct (Z.eqb_spec q p) as [-> | _]; [exfalso; apply H; now left |].
  apply IH. intro Hin. apply H. now right.
Qed.

Lemma bus_pin_In p : In p bus_pins -> exists i, 0 <= i < 20 /\ p = bus_pin i.
Proof.
  intro H. destruct (In_nth bus_pins p 0 H) as (k & Hk & E).
  exists (Z.of_nat k). split; [cbn in Hk; lia |].
  unfold bus_pin. now rewrite Nat2Z.id.
Qed.

(* Every bus pin belongs to one line: the table of the pins has no pin
   twice. *)
Lemma line_of_bus_pin i : 0 <= i < 20 -> line_of_pin (bus_pin i) bus_pins 0 = Some i.
Proof.
  intro Hi. apply bus_line_cases in Hi.
  repeat (destruct Hi as [<- | Hi]; [reflexivity |]). destruct Hi.
Qed.

Lemma last_mode_cycle a bits p m :
  last_mode p (cycle_events a bits) m = chunk_mode p m.
Proof.
  rewrite <- (last_mode_chunk a (bits, false) p m).
  unfold capture_chunk. cbn [fst snd]. now rewrite last_mode_app.
Qed.

Lemma last_written_cycle a bits p v :
  last_written p (cycle_events a bits) v = cycle_level a p v.
Proof.
  unfold cycle_level.
  destruct (In_dec Z.eq_dec p bus_pins) as [Hin | Hout].
  - destruct (bus_pin_In p Hin) as (i & Hi & ->).
    rewrite line_of_bus_pin by exact Hi.
    unfold cycle_events, cycle_prefix.
    rewrite !last_written_app, read_events_no_write.
    unfold release_data_events. rewrite last_written_release.
    rewrite drive_events_levels by exact Hi.
    apply bus_line_cases in Hi.
    repeat (destruct Hi as [<- | Hi]; [reflexivity |]). destruct Hi.
  - rewrite line_of_pin_None by exact Hout.
    unfold cycle_events, cycle_prefix.
    rewrite !last_written_app, read_events_no_write.
    unfold release_data_events. rewrite last_written_release.
    rewrite (proj2 (drive_events_other_pins a p Hout)).
    cbn [last_written]. rewrite !(Z.eqb_sym _ p).
    destruct (Z.eqb_spec p ASTB) as [-> |]; [reflexivity |].
    destruct (Z.eqb_spec p RD) as [-> |]; [reflexivity |].
    destruct (p =? BUFEN); reflexivity.
Qed.

Lemma cycle_events_keep_card a bits : forallb keeps_card (cycle_events a bits) = true.
Proof.
  unfold cycle_events, cycle_prefix, drive_events, release_data_events, read_events.
  rewrite !forallb_app.
  assert (Hreads : forall l : list (Z * bool),
             forallb keeps_card (map (fun pb => EvRead (fst pb) (snd pb)) l) = true)
    by (induction l; [reflexivity | assumption]).
  rewrite Hreads. reflexivity.
Qed.

(** X6.  In a read cycle the data lines are sampled while the sketch does not
    drive them: when read_data starts, the eight data lines are inputs, the
    address lines 8 to 19 are still outputs that carry their address bits,
    and the strobe is low with read-enable and buffer-enable asserted (low).
    The rest of the cycle is the sampling and the two writes that deassert
    the enables. *)
Theorem data_lines_float_while_sampled (env : Env) (a : Z) (w : World) :
  let ws := run (cycle_prefix a) w in
  bus_read_cycle env a w
  = (value <- read_data env ;;
     digitalWrite BUFEN HIGH ;;
     digitalWrite RD HIGH ;;
     ret value) ws
  /\ Forall (fun p => pin_mode ws p = INPUT) data_pins
  /\ Forall (fun i => pin_mode ws (bus_pin i) = OUTPUT
                      /\ pin_out ws (bus_pin i) = Z.testbit a i)
            (Zrange 8 12)
  /\ pin_out ws ASTB = LOW /\ pin_out ws RD = LOW /\ pin_out ws BUFEN = LOW.
Proof.
  intro ws. split.
  - unfold bus_read_cycle.
    rewrite (bind_step _ _ _ _ _ (drive_address_run a w)).
    rewrite (bind_step _ _ _ _ _ (digitalWrite_run _ _ _)).
    rewrite (bind_step _ _ _ _ _ (digitalWrite_run _ _ _)).
    rewrite (bind_step _ _ _ _ _ (tristate_data_pins_run _)).
    rewrite (bind_step _ _ _ _ _ (digitalWrite_run _ _ _)).
    rewrite (bind_step _ _ _ _ _ (digitalWrite_run _ _ _)).
    rewrite (bind_step _ _ _ _ _ (delayMicroseconds_run _ _)).
    rewrite <- !run_app. reflexivity.
  - unfold ws.
    split.
    { apply Forall_forall. intros p Hp. rewrite pin_mode_run.
      unfold cycle_prefix. rewrite !last_mode_app.
      cbn in Hp.
      repeat (destruct Hp as [<- | Hp]; [reflexivity |]). contradiction. }
    split.
    { apply Forall_forall. intros i Hi. rewrite pin_mode_run, pin_out_run.
      unfold cycle_prefix. rewrite !last_mode_app, !last_written_app.
      cbn in Hi.
      repeat (destruct Hi as [<- | Hi]; [split; reflexivity |]). contradiction. }
    rewrite !pin_out_run. unfold cycle_prefix. rewrite !last_written_app.
    repeat split.
Qed.

(** X7.  A read cycle works on the twenty bus lines and on the latches of
    ASTB, RD and BUFEN, and on nothing else.  It leaves HLDRQ, HLDAK, the LED
    pin, BUFRW, WR and IOMEM as they were, direction and level; it changes
    the direction of no control line; the card, the dump file and the file
    number and name are untouched.  Every pin ends up as [chunk_mode] and
    [cycle_level] say: data lines floating, the other address lines driven
    with their address bits, strobe and enables idle. *)
Theorem bus_read_cycle_frame (env : Env) (a : Z) (w : World) :
  exists (value : Z) (w' : World),
    bus_read_cycle env a w = Ok value w'
    /\ Forall (fun p => pin_mode w' p = pin_mode w p /\ pin_out w' p = pin_out w p)
              [HLDRQ; HLDAK; LED_BUILTIN; BUFRW; WR; IOMEM]
    /\ Forall (fun p => pin_mode w' p = pin_mode w p) control_pins
    /\ (forall p, pin_mode w' p = chunk_mode p (pin_mode w p))
    /\ (forall p, pin_out w' p = cycle_level a p (pin_out w p))
    /\ (forall s, card w' s = card w s)
    /\ dumpfile w' = dumpfile w
    /\ file_number w' = file_number w /\ filename w' = filename w.
Proof.
  pose proof (bus_read_cycle_run env a w) as Hrun. cbv zeta in Hrun.
  set (bits := cycle_bits env (trace w) a) in Hrun.
  exists (bits_to_byte bits), (run (cycle_events a bits) w).
  split; [exact Hrun |].
  assert (Hmode : forall p, pin_mode (run (cycle_events a bits) w) p
                            = chunk_mode p (pin_mode w p))
    by (intro p; rewrite pin_mode_run; apply last_mode_cycle).
  assert (Hout : forall p, pin_out (run (cycle_events a bits) w) p
                           = cycle_level a p (pin_out w p))
    by (intro p; rewrite pin_out_run; apply last_written_cycle).
  split.
  { apply Forall_forall. intros p Hp. rewrite Hmode, Hout. cbn in Hp.
    repeat (destruct Hp as [<- | Hp]; [split; reflexivity |]). contradiction. }
  split.
  { apply Forall_forall. intros p Hp. rewrite Hmode. cbn in Hp.
    repeat (destruct Hp as [<- | Hp]; [reflexivity |]). contradiction. }
  split; [exact Hmode |]. split; [exact Hout |].
  rewrite file_number_run, filename_run.
  split; [intro s; rewrite card_run; [reflexivity | apply cycle_events_keep_card] |].
  split; [apply dumpfile_run, cycle_events_keep_file |].
  split; reflexivity.
Qed.

(** ** A target with a memory *)

Lemma nth_map_Zrange {A} (f : Z -> A) (d : A) lo n k :
  (k < n)%nat -> nth k (map f (Zrange lo n)) d = f (lo + Z.of_nat k).
Proof.
  revert lo k. induction n as [| n IH]; intros lo k Hk; [lia |].
  destruct k as [| k]; cbn [Zrange map nth].
  - f_equal. lia.
  - rewrite IH by lia. f_equal. lia.
Qed.

(* The number spelled by the low [n] bits of [m] is [m mod 2 ^ n]. *)
Lemma bits_to_byte_testbits m n :
  bits_to_byte (map (Z.testbit m) (Zrange 0 n)) = m mod 2 ^ Z.of_nat n.
Proof.
  apply Z.bits_inj'. intros i Hi.
  rewrite testbit_bits_to_byte by exact Hi.
  destruct (Z_lt_le_dec i (Z.of_nat n)) as [Hlt | Hge].
  - rewrite nth_map_Zrange by lia.
    rewrite Z.mod_pow2_bits_low by lia. f_equal. lia.
  - rewrite nth_overflow by (rewrite length_map, Zrange_length; lia).
    now rewrite Z.mod_pow2_bits_high by lia.
Qed.

Lemma address_of_ext lines lines' :
  (forall q, lines q = lines' q) -> address_of lines = address_of lines'.
Proof.
  intro H. unfold address_of. f_equal. apply map_ext. intro i. apply H.
Qed.

Lemma latched_ext h :
  forall lines lines' held,
    (forall q, lines q = lines' q) -> latched h lines held = latched h lines' held.
Proof.
  induction h as [| e h IH]; intros lines lines' held H; [reflexivity |].
  destruct e; cbn [latched]; try (now apply IH).
  rewrite (address_of_ext (fun q => if pin =? q then level else lines q)
                          (fun q => if pin =? q then level else lines' q))
    by (intro q; now rewrite H).
  apply IH. intro q. now rewrite H.
Qed.

Lemma latched_app h1 :
  forall h2 lines held,
    latched (h1 ++ h2) lines held
    = latched h2 (fun q => last_written q h1 (lines q)) (latched h1 lines held).
Proof.
  induction h1 as [| e h1 IH]; intros h2 lines held; [reflexivity |].
  destruct e; cbn [app latched last_written]; apply IH.
Qed.

(* Events that do not write ASTB low leave the latch as it is. *)
Lemma latched_hold h :
  forall lines held,
    existsb (is_write ASTB LOW) h = false -> latched h lines held = held.
Proof.
  induction h as [| e h IH]; intros lines held H; [reflexivity |].
  cbn [existsb] in H. apply orb_false_iff in H as [He Hh].
  destruct e; cbn [latched]; try (now apply IH).
  cbn [is_write] in He.
  rewrite IH by exact Hh.
  destruct (pin =? ASTB); [| reflexivity].
  destruct level; [reflexivity | discriminate].
Qed.

Lemma read_events_no_strobe bits : existsb (is_write ASTB LOW) (read_events bits) = false.
Proof.
  unfold read_events. generalize (combine data_pins bits). intro l.
  induction l as [| x l IH]; [reflexivity | exact IH].
Qed.

Lemma latched_strobe lines held :
  latched [EvWrite ASTB HIGH; EvWrite ASTB LOW] lines held
  = address_of (fun q => if ASTB =? q then LOW
                         else if ASTB =? q then HIGH else lines q).
Proof. reflexivity. Qed.

(* Once the address [a] has been driven and the strobe pulsed, the latch
   holds the low twenty bits of [a], whatever came before. *)
Lemma latched_drive h a lines held :
  latched (h ++ drive_events a ++ [EvWrite ASTB HIGH; EvWrite ASTB LOW]) lines held
  = a mod 2 ^ 20.
Proof.
  rewrite app_assoc, latched_app, latched_strobe.
  change (a mod 2 ^ 20) with (a mod 2 ^ Z.of_nat 20).
  rewrite <- (bits_to_byte_testbits a 20).
  unfold address_of. f_equal.
  apply map_ext_in. intros i Hi. apply Zrange_In in Hi.
  assert (E : (ASTB =? bus_pin i) = false).
  { assert (Hi' : 0 <= i < 20) by lia. apply bus_line_cases in Hi'.
    repeat (destruct Hi' as [<- | Hi']; [reflexivity |]). destruct Hi'. }
  rewrite E, last_written_app.
  apply drive_events_levels. lia.
Qed.

(* What the memory presents during the sampling of a read cycle. *)
Lemma latched_cycle h a reads :
  existsb (is_write ASTB LOW) reads = false ->
  latched (h ++ cycle_prefix a ++ reads) (fun _ => LOW) 0 = a mod 2 ^ 20.
Proof.
  intro Hreads. unfold cycle_prefix.
  replace (h ++ (drive_events a ++ [EvWrite ASTB HIGH; EvWrite ASTB LOW]
                 ++ release_data_events ++ [EvWrite RD LOW; EvWrite BUFEN LOW]
                 ++ [EvDelayMicros 1]) ++ reads)
    with ((h ++ drive_events a ++ [EvWrite ASTB HIGH; EvWrite ASTB LOW])
          ++ (release_data_events ++ [EvWrite RD LOW; EvWrite BUFEN LOW]
              ++ [EvDelayMicros 1]) ++ reads)
    by (rewrite <- !app_assoc; reflexivity).
  rewrite latched_app, latched_drive.
  apply latched_hold.
  rewrite existsb_app, Hreads. reflexivity.
Qed.

Lemma read_enable_cycle h a reads :
  (forall v, last_written RD reads v = v) ->
  last_written RD (h ++ cycle_prefix a ++ reads) HIGH = LOW.
Proof.
  intro Hreads. unfold cycle_prefix.
  rewrite !last_written_app, Hreads. reflexivity.
Qed.

(* The levels the target presents to reads of the pins [pins], all of them
   data lines, once a read cycle has got to its sampling. *)
Lemma observe_target mem card_ok h a pins :
  forall reads,
    existsb (is_write ASTB LOW) reads = false ->
    (forall v, last_written RD reads v = v) ->
    incl pins data_pins ->
    observe (target mem card_ok) (h ++ cycle_prefix a ++ reads) pins
    = map (fun p => match line_of_pin p bus_pins 0 with
                    | Some i => Z.testbit (mem (a mod 2 ^ 20)) i
                    | None => false
                    end) pins.
Proof.
  induction pins as [| p pins IH]; intros reads Hs Hr Hin; [reflexivity |].
  cbn [observe map].
  assert (Hp : In p data_pins) by (apply Hin; now left).
  assert (Hlevel : line_level (target mem card_ok) (h ++ cycle_prefix a ++ reads) p
                   = match line_of_pin p bus_pins 0 with
                     | Some i => Z.testbit (mem (a mod 2 ^ 20)) i
                     | None => false
                     end).
  { cbn [line_level target].
    rewrite latched_cycle by exact Hs. rewrite read_enable_cycle by exact Hr.
    cbn in Hp.
    repeat (destruct Hp as [<- | Hp]; [reflexivity |]). contradiction. }
  rewrite Hlevel. f_equal.
  replace ((h ++ cycle_prefix a ++ reads) ++ [EvRead p _])
    with (h ++ cycle_prefix a ++ (reads ++ [EvRead p
            match line_of_pin p bus_pins 0 with
            | Some i => Z.testbit (mem (a mod 2 ^ 20)) i
            | None => false
            end]))
    by (rewrite <- !app_assoc; reflexivity).
  apply IH.
  - rewrite existsb_app, Hs. reflexivity.
  - intro v. rewrite last_written_app, Hr. reflexivity.
  - intros q Hq. apply Hin. now right.
Qed.

(* ... the bits of the byte at the address driven, line 0 first. *)
Lemma target_bits mem card_ok h a :
  cycle_bits (target mem card_ok) h a
  = map (Z.testbit (mem (a mod 2 ^ 20))) (Zrange 0 8).
Proof.
  unfold cycle_bits.
  rewrite <- (app_nil_r (cycle_prefix a)).
  rewrite (observe_target mem card_ok h a data_pins []);
    [reflexivity | reflexivity | reflexivity | apply incl_refl].
Qed.

(** X8.  On a target with a memory, a read cycle at address [a] returns the
    byte that the memory holds at [a mod 2 ^ 20], whatever was on the bus
    before: the cycle latches its own address and samples with read-enable
    asserted.  Addresses beyond the twenty address lines wrap around. *)
Theorem bus_read_cycle_reads_the_memory
    (mem : Z -> Z) (card_ok : list Event -> bool) (a : Z) (w : World) :
  exists w' : World,
    bus_read_cycle (target mem card_ok) a w = Ok (mem (a mod 2 ^ 20) mod 2 ^ 8) w'
    /\ bus_read_cycle (target mem card_ok) (a mod 2 ^ 20) w
       = bus_read_cycle (target mem card_ok) a w.
Proof.
  pose proof (bus_read_cycle_run (target mem card_ok) a w) as Hrun.
  pose proof (bus_read_cycle_run (target mem card_ok) (a mod 2 ^ 20) w) as Hrun'.
  cbv zeta in Hrun, Hrun'.
  rewrite target_bits in Hrun, Hrun'.
  rewrite Z.mod_mod in Hrun' by lia.
  eexists. split.
  - rewrite Hrun. f_equal. apply (bits_to_byte_testbits _ 8).
  - rewrite Hrun, Hrun'. unfold cycle_events, cycle_prefix.
    now rewrite drive_events_low_bits.
Qed.

(** ** A pass of loop(), however it ends *)

Lemma loop_hold_world env fuel w n :
  Z.of_nat n = 1048576 ->
  exists console : list Event,
    forallb is_console console = true
    /\ match loop_hold env fuel w with
       | Ok _ w1 =>
           exists (k : nat) (obs : list (list bool * bool)) (closed : bool),
             List.length obs = n
             /\ w1 = run (console ++ seize_events k ++ dump_prologue (filename w)
                          ++ capture_events (Zrange 0 n) obs
                          ++ dump_epilogue (filename w) closed)
                       (set_dumpfile None w)
       | Halted w1 =>
           exists k : nat,
             w1 = run (console ++ seize_events k ++ open_failure (filename w))
                    (set_dumpfile None w)
       | Blocked w1 =>
           w1 = run console (set_dumpfile None w)
           \/ w1 = run (console
                        ++ [EvSerialOut "Seizing the bus ... "; EvWrite HLDRQ BUS_HOLD]
                        ++ repeat (EvRead HLDAK BUS_NAK) fuel)
                     (set_dumpfile None w)
       end.
Proof.
  intro Hn. unfold loop_hold.
  rewrite (bind_step _ _ _ _ _ (store_run _ w)).
  set (w0 := set_dumpfile None w).
  destruct (await_enter_console env fuel w0) as (console & Hconsole & Hawait).
  exists console. split; [exact Hconsole |].
  unfold bind at 1.
  destruct (await_enter env fuel w0) as [[] w1 | w1 | w1].
  - subst w1.
    pose proof (seize_bus_spec env fuel (run console w0)) as Hseize. cbv zeta in Hseize.
    unfold bind at 1.
    destruct (seize_bus env fuel (run console w0)) as [[] w2 | w2 | w2].
    + destruct Hseize as (k & Hk & Hw2 & _). subst w2.
      pose proof (dump_to_file_run env (run (seize_events k) (run console w0)) n Hn)
        as Hdump.
      cbv zeta in Hdump. rewrite Hdump.
      rewrite !filename_run. change (filename w0) with (filename w).
      destruct (sd_ok env _).
      * eexists k, _, _.
        split; [rewrite observed_length; apply Zrange_length |].
        rewrite <- !run_app. reflexivity.
      * exists k. rewrite <- !run_app. reflexivity.
    + contradiction.
    + destruct Hseize as (Hw2 & _). right.
      rewrite Hw2, <- run_app. reflexivity.
  - contradiction.
  - left. exact Hawait.
Qed.

Lemma loop_world env fuel w n :
  Z.of_nat n = 1048576 ->
  exists (st : Stage) (evs : list Event) (num : Z) (name : string),
    loop env fuel w = outcome st (relabel num name (run evs (set_dumpfile None w)))
    /\ pass (filename w) n st evs
    /\ match st with
       | Returned =>
           num = int_wrap (file_number w + 1) /\ num <= 999 /\ name = dump_name num
       | OutOfNames =>
           num = int_wrap (file_number w + 1) /\ 999 < num /\ name = filename w
       | _ => num = file_number w /\ name = filename w
       end.
Proof.
  intro Hn.
  destruct (loop_hold_world env fuel w n Hn) as (console & Hconsole & Hhold).
  set (w0 := set_dumpfile None w) in *.
  assert (Hsame : forall evs, run evs w0
                              = relabel (file_number w) (filename w) (run evs w0))
    by (intro evs; symmetry; apply (relabel_run_same evs w0)).
  unfold loop. unfold bind at 1.
  destruct (loop_hold env fuel w) as [[] w1 | w1 | w1].
  - destruct Hhold as (k1 & obs & closed & Hlen & Hw1).
    assert (Hname : filename w1 = filename w)
      by (rewrite Hw1; now rewrite filename_run).
    assert (Hnum : file_number w1 = file_number w)
      by (rewrite Hw1; now rewrite file_number_run).
    pose proof (release_bus_spec env fuel w1) as Hrel. cbv zeta in Hrel.
    unfold bind at 1.
    destruct (release_bus env fuel w1) as [[] w2 | w2 | w2].
    + destruct Hrel as (k2 & _ & Hw2 & _). subst w2.
      rewrite (bind_step _ _ _ _ _ (digitalWrite_run _ _ _)).
      rewrite (bind_step _ _ _ _ _ (Serial_print_run _ _)).
      rewrite (bind_step (load filename) _ _ _ _ (load_run _ _)).
      rewrite (bind_step _ _ _ _ _ (Serial_println_run _ _)).
      rewrite !filename_run, Hname. rewrite <- !run_app.
      change ([EvWrite LED_BUILTIN LOW] ++ [EvSerialOut "Memory dumped to file "]
              ++ [EvSerialOut (filename w ++ crlf)])
        with (report_events (filename w)).
      rewrite next_file_unfold. cbv zeta.
      rewrite file_number_run, Hnum.
      set (num := int_wrap (file_number w + 1)).
      destruct (Z.gtb_spec num 999) as [Hgt | Hle].
      * exists OutOfNames. eexists _, num, (filename w).
        split; [| split; [exact (pass_out_of_names (filename w) n console k1 obs closed k2
                                   Hconsole Hlen) |]].
        -- cbn [outcome]. f_equal. rewrite Hw1, <- !run_app.
           rewrite run_one.
           change (set_file_number num ?x) with (relabel num (filename x) x).
           rewrite filename_run. change (filename w0) with (filename w).
           rewrite <- run_relabel, <- run_app, run_relabel.
           rewrite <- !app_assoc. reflexivity.
        -- repeat split. lia.
      * exists Returned. eexists _, num, (dump_name num).
        split; [| split; [exact (pass_returned (filename w) n console k1 obs closed k2
                                   Hconsole Hlen) |]].
        -- cbn [outcome]. f_equal. rewrite Hw1, <- !run_app.
           rewrite <- !app_assoc. reflexivity.
        -- repeat split. exact Hle.
    + contradiction.
    + destruct Hrel as (Hw2 & _).
      exists Releasing. eexists _, (file_number w), (filename w).
      split; [| split; [exact (pass_releasing (filename w) n console k1 obs closed fuel
                                 Hconsole Hlen) | now split]].
      cbn [outcome]. f_equal. rewrite Hw2, Hw1, <- run_app, <- Hsame.
      rewrite <- !app_assoc. reflexivity.
  - destruct Hhold as (k & Hw1).
    exists OpenFailed. eexists _, (file_number w), (filename w).
    split; [| split; [exact (pass_open_failed (filename w) n console k Hconsole)
                     | now split]].
    cbn [outcome]. f_equal. rewrite Hw1, <- Hsame. reflexivity.
  - destruct Hhold as [Hw1 | Hw1].
    + exists Waiting. eexists _, (file_number w), (filename w).
      split; [| split; [exact (pass_waiting (filename w) n console Hconsole) | now split]].
      cbn [outcome]. f_equal. rewrite Hw1, <- Hsame. reflexivity.
    + exists Requesting. eexists _, (file_number w), (filename w).
      split; [| split; [exact (pass_requesting (filename w) n console fuel Hconsole)
                       | now split]].
      cbn [outcome]. f_equal. rewrite Hw1, <- Hsame. reflexivity.
Qed.

Lemma world_of_outcome st w : world_of (outcome st w) = w.
Proof. destruct st; reflexivity. Qed.

(** *** What a pass does to the card *)

Lemma forallb_weaken {A} (f g : A -> bool) l :
  (forall x, f x = true -> g x = true) -> forallb f l = true -> forallb g l = true.
Proof.
  intros Hfg. induction l as [| x l IH]; intro H; [reflexivity |].
  cbn [forallb] in *. apply andb_true_iff in H as [Hx Hl].
  now rewrite (Hfg x Hx), IH.
Qed.

Lemma forallb_repeat {A} (f : A -> bool) x k : f x = true -> forallb f (repeat x k) = true.
Proof. intro H. induction k as [| k IH]; [reflexivity |]. cbn. now rewrite H, IH. Qed.

Lemma keeps_file_opens_only name e : keeps_file e = true -> opens_only name e = true.
Proof. destruct e; try reflexivity. discriminate. Qed.

(* With the dump file closed or open on [name], events that open no other
   file leave every other file as it is, and only ever add to [name]. *)
Lemma card_grows name evs :
  forall w,
    forallb (opens_only name) evs = true ->
    dumpfile w = None \/ dumpfile w = Some name ->
    (forall s, s <> name -> card (run evs w) s = card w s)
    /\ (forall old, card w name = Some old ->
                    exists more, card (run evs w) name = Some (old ++ more))
    /\ (dumpfile (run evs w) = None \/ dumpfile (run evs w) = Some name).
Proof.
  induction evs as [| e evs IH]; intros w Hevs Hopen.
  - split; [reflexivity |]. split; [| exact Hopen].
    intros old Hold. exists []. now rewrite app_nil_r.
  - cbn [forallb] in Hevs. apply andb_true_iff in Hevs as [He Hevs].
    rewrite run_cons.
    assert (Hstep : (forall s, s <> name -> card (effect e w) s = card w s)
                    /\ (forall old, card w name = Some old ->
                                    exists more, card (effect e w) name = Some (old ++ more))
                    /\ (dumpfile (effect e w) = None \/ dumpfile (effect e w) = Some name)).
    { assert (Hnop : forall old, card w name = Some old ->
                                 exists more, card w name = Some (old ++ more))
        by (intros old Hold; exists []; now rewrite app_nil_r).
      destruct e; try (split; [reflexivity | split; [exact Hnop | exact Hopen]]).
      - destruct ok.
        + cbn [opens_only] in He. apply String.eqb_eq in He. subst name0.
          cbn [effect log card dumpfile set_dumpfile set_card].
          split; [| split; [| now right]].
          * intros s Hs. unfold card_create.
            apply String.eqb_neq in Hs. now rewrite Hs.
          * intros old Hold. exists []. unfold card_create.
            rewrite String.eqb_refl, Hold, app_nil_r. reflexivity.
        + split; [reflexivity | split; [exact Hnop | now left]].
      - destruct ok; [| split; [reflexivity | split; [exact Hnop | exact Hopen]]].
        unfold effect. cbn [log card dumpfile].
        destruct Hopen as [Hd | Hd]; rewrite Hd.
        + split; [reflexivity | split; [exact Hnop | now left]].
        + cbn [card dumpfile set_card].
          split; [| split; [| now right]].
          * intros s Hs. unfold card_append.
            apply String.eqb_neq in Hs. now rewrite Hs.
          * intros old Hold. exists [b]. unfold card_append.
            rewrite String.eqb_refl, Hold. reflexivity.
      - split; [reflexivity | split; [exact Hnop | now left]]. }
    destruct Hstep as (S1 & S2 & S3).
    destruct (IH (effect e w) Hevs S3) as (I1 & I2 & I3).
    split; [intros s Hs; now rewrite I1, S1 |].
    split; [| exact I3].
    intros old Hold.
    destruct (S2 old Hold) as (m1 & Hm1).
    destruct (I2 _ Hm1) as (m2 & Hm2).
    exists (m1 ++ m2). now rewrite Hm2, app_assoc.
Qed.

Lemma console_opens_only name evs :
  forallb is_console evs = true -> forallb (opens_only name) evs = true.
Proof.
  intro H. apply (forallb_weaken keeps_file); [apply keeps_file_opens_only |].
  now apply console_keeps.
Qed.

Lemma seize_opens_only name k : forallb (opens_only name) (seize_events k) = true.
Proof.
  apply (forallb_weaken keeps_file); [apply keeps_file_opens_only |].
  apply seize_events_keep.
Qed.

Lemma capture_opens_only name addrs obs :
  forallb (opens_only name) (capture_events addrs obs) = true.
Proof.
  apply (forallb_weaken keeps_file); [apply keeps_file_opens_only |].
  apply capture_events_keep_file.
Qed.

Lemma prologue_opens_only name : forallb (opens_only name) (dump_prologue name) = true.
Proof.
  unfold dump_prologue. rewrite !forallb_app. cbn. now rewrite String.eqb_refl.
Qed.

Lemma epilogue_opens_only name closed :
  forallb (opens_only name) (dump_epilogue name closed) = true.
Proof. destruct closed; reflexivity. Qed.

Lemma pass_opens_only name n st evs :
  pass name n st evs -> forallb (opens_only name) evs = true.
Proof.
  intro H. destruct H as [console Hc | console k Hc | console k Hc
                          | console k obs closed j Hc Hlen
                          | console k obs closed j Hc Hlen
                          | console k obs closed j Hc Hlen];
    rewrite ?forallb_app, ?(console_opens_only name console Hc),
            ?seize_opens_only, ?prologue_opens_only, ?capture_opens_only,
            ?epilogue_opens_only;
    try reflexivity.
  - now rewrite forallb_repeat.
  - cbn [forallb opens_only andb]. now rewrite forallb_repeat.
  - unfold release_events. rewrite !forallb_app, forallb_repeat by reflexivity.
    reflexivity.
  - unfold release_events. rewrite !forallb_app, forallb_repeat by reflexivity.
    reflexivity.
Qed.

(** X9.  However a pass of loop() ends (it returns, it stops, it is stuck
    waiting for Enter or for the target), the only file of the card it has
    touched is the one named by [filename] at its start: every other file is
    as it was.  That file is never truncated or removed either: what it held
    before the pass is still the beginning of what it holds after. *)
Theorem loop_touches_one_file (env : Env) (fuel : nat) (w : World) :
  let w' := world_of (loop env fuel w) in
  (forall s, s = filename w \/ card w' s = card w s)
  /\ match card w (filename w) with
     | Some old => exists more, card w' (filename w) = Some (old ++ more)
     | None => True
     end
  /\ (dumpfile w' = None \/ dumpfile w' = Some (filename w)).
Proof.
  intro w'.
  assert (Hn : Z.of_nat (Z.to_nat 1048576) = 1048576) by lia.
  revert Hn. generalize (Z.to_nat 1048576). intros n Hn.
  destruct (loop_world env fuel w n Hn) as (st & evs & num & name & Hloop & Hpass & _).
  assert (Hw' : w' = relabel num name (run evs (set_dumpfile None w)))
    by (unfold w'; rewrite Hloop; apply world_of_outcome).
  destruct (card_grows (filename w) evs (set_dumpfile None w)
              (pass_opens_only _ _ _ _ Hpass) (or_introl eq_refl))
    as (Hother & Hgrow & Hfile).
  rewrite Hw'. unfold relabel. cbn [card dumpfile set_filename set_file_number].
  split.
  - intro s. destruct (string_dec s (filename w)) as [-> | Hs]; [now left | right].
    now rewrite Hother.
  - split; [| exact Hfile].
    destruct (card w (filename w)) as [old |] eqn:Hold; [| exact I].
    apply Hgrow. exact Hold.
Qed.

(** ** A capture on a responsive target *)

Lemma target_responsive mem card_ok : responsive (target mem card_ok).
Proof. split; intro h; reflexivity. Qed.

Lemma bench_responsive pattern card_ok : responsive (bench pattern card_ok).
Proof. split; intro h; reflexivity. Qed.

Lemma await_enter_responsive env fuel w :
  responsive env -> await_enter env (S fuel) w = Ok tt (run bench_console w).
Proof.
  intros [Hrx _]. unfold await_enter.
  rewrite (bind_step _ _ _ _ _ (Serial_println_run _ _)).
  cbn [while_loop]. unfold bind, Serial_available, Serial_read, ret.
  rewrite Hrx. change (1 =? 0) with false. cbv beta iota.
  rewrite Hrx. reflexivity.
Qed.

Lemma responsive_hldak env h s v :
  responsive env -> line_level env (h ++ [EvSerialOut s; EvWrite HLDRQ v]) HLDAK = v.
Proof.
  intros [_ Hack]. rewrite Hack, last_written_app. reflexivity.
Qed.

Lemma loop_hold_responsive env fuel w :
  responsive env ->
  loop_hold env (S fuel) w
  = dump_to_file env (run (bench_console ++ seize_events 0) (set_dumpfile None w)).
Proof.
  intro Hr. unfold loop_hold.
  rewrite (bind_step _ _ _ _ _ (store_run _ w)).
  rewrite (bind_step _ _ _ _ _ (await_enter_responsive env fuel _ Hr)).
  rewrite (bind_step _ _ _ _ _
             (seize_bus_first_poll _ (S fuel) _ ltac:(lia) (responsive_hldak _ _ _ _ Hr))).
  rewrite <- run_app. reflexivity.
Qed.

(* Once the dump file is closed, the rest of the pass. *)
Lemma loop_responsive env fuel w w1 :
  responsive env ->
  loop_hold env (S fuel) w = Ok tt w1 ->
  loop env (S fuel) w
  = next_file (run (release_events 0 ++ report_events (filename w1)) w1).
Proof.
  intros Hr Hhold.
  rewrite (loop_after_hold _ _ _ _ Hhold).
  rewrite (bind_step _ _ _ _ _
             (release_bus_first_poll _ (S fuel) _ ltac:(lia) (responsive_hldak _ _ _ _ Hr))).
  rewrite (bind_step _ _ _ _ _ (digitalWrite_run _ _ _)).
  rewrite (bind_step _ _ _ _ _ (Serial_print_run _ _)).
  rewrite (bind_step (load filename) _ _ _ _ (load_run _ _)).
  rewrite (bind_step _ _ _ _ _ (Serial_println_run _ _)).
  rewrite !filename_run. rewrite <- !run_app. reflexivity.
Qed.

(* What the dump samples on the target and forwards to a card that accepts
   whatever does not come right after a write. *)
Lemma target_observed mem card_ok addrs :
  (forall h e, is_file_write e = false -> card_ok (h ++ [e]) = true) ->
  forall h,
    observed (target mem card_ok) true h addrs
    = map (fun a => (map (Z.testbit (mem (a mod 2 ^ 20))) (Zrange 0 8), true)) addrs.
Proof.
  intro Hok. induction addrs as [| a addrs IH]; intro h; [reflexivity |].
  cbn [observed map]. rewrite target_bits.
  assert (E : sd_ok (target mem card_ok)
                (h ++ cycle_events a (map (Z.testbit (mem (a mod 2 ^ 20))) (Zrange 0 8)))
              = true).
  { cbn [sd_ok target]. unfold cycle_events.
    change [EvWrite BUFEN HIGH; EvWrite RD HIGH]
      with ([EvWrite BUFEN HIGH] ++ [EvWrite RD HIGH]).
    rewrite !app_assoc. now apply Hok. }
  rewrite E, IH. reflexivity.
Qed.

Lemma target_image mem n :
  Z.of_nat n <= 2 ^ 20 ->
  map (fun o : list bool * bool => bits_to_byte (fst o))
      (filter snd
         (map (fun a => (map (Z.testbit (mem (a mod 2 ^ 20))) (Zrange 0 8), true))
              (Zrange 0 n)))
  = memory_image mem n.
Proof.
  intro Hn.
  rewrite filter_all by (rewrite forallb_forall; intros o Ho;
                         apply in_map_iff in Ho as (a & <- & _); reflexivity).
  rewrite map_map. unfold memory_image.
  apply map_ext_in. intros a Ha. apply Zrange_In in Ha.
  cbn [fst]. rewrite (bits_to_byte_testbits _ 8).
  rewrite (Z.mod_small a) by lia. reflexivity.
Qed.

Lemma memory_image_length mem n : List.length (memory_image mem n) = n.
Proof. unfold memory_image. now rewrite length_map, Zrange_length. Qed.

Lemma memory_image_nth mem n a :
  0 <= a < Z.of_nat n -> nth (Z.to_nat a) (memory_image mem n) 0 = mem a mod 2 ^ 8.
Proof.
  intro Ha. unfold memory_image.
  rewrite (nth_map_Zrange (fun a => mem a mod 2 ^ 8) 0 0 n (Z.to_nat a)) by lia.
  f_equal. f_equal. lia.
Qed.

(* A whole pass on the target, with a card that accepts whatever does not
   come right after a write: the capture completes whether or not the close
   succeeds, the file receives the memory image, and the pass goes on to
   next_file with the bus released. *)
Lemma loop_on_target mem card_ok fuel w n :
  Z.of_nat n = 1048576 ->
  (forall h e, is_file_write e = false -> card_ok (h ++ [e]) = true) ->
  exists (w1 : World) (obs : list (list bool * bool)) (closed : bool),
    loop_hold (target mem card_ok) (S fuel) w = Ok tt w1
    /\ loop (target mem card_ok) (S fuel) w
       = next_file (run (release_events 0 ++ report_events (filename w)) w1)
    /\ w1 = run (bench_console ++ seize_events 0 ++ dump_prologue (filename w)
                 ++ capture_events (Zrange 0 n) obs
                 ++ dump_epilogue (filename w) closed)
              (set_dumpfile None w)
    /\ List.length obs = n
    /\ closed = card_ok (trace w ++ bench_console ++ seize_events 0
                         ++ dump_prologue (filename w)
                         ++ capture_events (Zrange 0 n) obs)
    /\ card w1 (filename w) = Some (old_contents w ++ memory_image mem n).
Proof.
  intros Hn Hok.
  pose proof (target_responsive mem card_ok) as Hr.
  pose proof (loop_hold_responsive _ fuel w Hr) as Hhold.
  rewrite (dump_to_file_run _ _ n Hn) in Hhold.
  rewrite filename_run, trace_run in Hhold.
  change (filename (set_dumpfile None w)) with (filename w) in Hhold.
  change (trace (set_dumpfile None w)) with (trace w) in Hhold.
  assert (Hopen : sd_ok (target mem card_ok)
                    ((trace w ++ bench_console ++ seize_events 0)
                     ++ [EvWrite LED_BUILTIN HIGH] ++ idle_events) = true).
  { cbn [sd_ok target].
    change idle_events
      with (firstn 11 idle_events ++ [EvPinMode IOMEM OUTPUT]).
    rewrite !app_assoc. now apply Hok. }
  rewrite Hopen in Hhold. cbv zeta in Hhold.
  rewrite !(target_observed mem card_ok _ Hok) in Hhold.
  cbn [sd_ok target] in Hhold.
  rewrite <- (run_app (bench_console ++ seize_events 0)) in Hhold.
  rewrite <- !(app_assoc bench_console (seize_events 0)) in Hhold.
  rewrite <- !(app_assoc (trace w)) in Hhold.
  rewrite <- !(app_assoc bench_console (seize_events 0)) in Hhold.
  eexists _, _, _.
  split; [exact Hhold |].
  split.
  { rewrite (loop_responsive _ _ _ _ Hr Hhold). now rewrite filename_run. }
  split; [reflexivity |].
  split; [now rewrite length_map, Zrange_length |].
  split; [reflexivity |].
  destruct (capture_file_general _ _ _ _ n Hn Hhold)
    as (console & k & obs & closed & _ & _ & Hobs & _ & Hcard & _).
  rewrite Hcard, Hobs, (target_observed mem card_ok _ Hok).
  rewrite target_image by lia. reflexivity.
Qed.

Lemma release_report_keep k name :
  forallb keeps_card (release_events k ++ report_events name) = true
  /\ forallb keeps_file (release_events k ++ report_events name) = true.
Proof.
  unfold release_events. rewrite !forallb_app.
  rewrite !forallb_repeat by reflexivity. split; reflexivity.
Qed.

(* next_file touches neither the pins nor the card. *)
Lemma next_file_world w :
  exists said, (said = [] \/ said = [too_many_files])
    /\ world_of (next_file w)
       = relabel (int_wrap (file_number w + 1))
           (if int_wrap (file_number w + 1) >? 999 then filename w
            else dump_name (int_wrap (file_number w + 1)))
           (run said w)
    /\ next_file w
       = (if int_wrap (file_number w + 1) >? 999
          then Halted (world_of (next_file w))
          else Ok tt (world_of (next_file w)))
    /\ (said = [] <-> int_wrap (file_number w + 1) <= 999).
Proof.
  rewrite next_file_unfold. cbv zeta.
  destruct (Z.gtb_spec (int_wrap (file_number w + 1)) 999) as [Hgt | Hle].
  - exists [too_many_files]. split; [now right |].
    split; [reflexivity |]. split; [reflexivity |].
    split; [discriminate | lia].
  - exists []. split; [now left |].
    split; [reflexivity |]. split; [reflexivity |].
    split; [intros _; exact Hle | reflexivity].
Qed.

(** X10.  On a target that answers the handshake, with a card that never
    fails, a pass of loop() started in any state never blocks and appends to
    the file named by [filename] exactly the 1,048,576 bytes of the memory,
    the byte of address [a] at offset [a] of what is appended (the file is
    created when the card does not have it).  Then the bus is released and
    the LED is off.  The pass returns, except when no file number is left
    (the number was 999): then it stops in next_file, after the dump is
    complete and the bus released. *)
Theorem dump_is_the_memory_image (mem : Z -> Z) (fuel : nat) (w : World) :
  exists w' : World,
    (if int_wrap (file_number w + 1) >? 999
     then loop (target mem sound_card) (S fuel) w = Halted w'
     else loop (target mem sound_card) (S fuel) w = Ok tt w')
    /\ card w' (filename w)
       = Some (old_contents w ++ memory_image mem (Z.to_nat 1048576))
    /\ Z.of_nat (List.length (memory_image mem (Z.to_nat 1048576))) = 1048576
    /\ (forall a, 0 <= a <= 0xFFFFF ->
          nth (Z.to_nat a) (memory_image mem (Z.to_nat 1048576)) 0 = mem a mod 2 ^ 8)
    /\ dumpfile w' = None
    /\ pin_out w' HLDRQ = BUS_RELEASE
    /\ pin_out w' LED_BUILTIN = LOW.
Proof.
  assert (Hn : Z.of_nat (Z.to_nat 1048576) = 1048576) by lia.
  revert Hn. generalize (Z.to_nat 1048576). intros n Hn.
  destruct (loop_on_target mem sound_card fuel w n Hn (fun _ _ _ => eq_refl))
    as (w1 & obs & closed & Hhold & Hloop & Hw1 & Hlen & Hclosed & Hcard).
  assert (Hfile : dumpfile w1 = None).
  { rewrite Hw1. rewrite !app_assoc, run_app. now destruct closed. }
  assert (Hnum : file_number w1 = file_number w)
    by (rewrite Hw1; now rewrite file_number_run).
  clear Hw1.
  set (w2 := run (release_events 0 ++ report_events (filename w)) w1) in *.
  destruct (next_file_world w2) as (said & Hsaid & Hworld & Hnext & _).
  assert (Hnum2 : file_number w2 = file_number w)
    by (unfold w2; now rewrite file_number_run).
  rewrite Hnum2 in Hworld, Hnext.
  exists (world_of (next_file w2)).
  split.
  { rewrite Hloop. destruct (_ >? 999); exact Hnext. }
  rewrite Hworld. unfold relabel.
  cbn [card dumpfile pin_out set_filename set_file_number].
  assert (Hq : forallb is_quiet said = true) by (destruct Hsaid as [-> | ->]; reflexivity).
  destruct (quiet_run said w2 Hq) as (_ & Qo & Qc & Qd).
  rewrite Qc, Qd, !Qo. unfold w2.
  rewrite card_run by apply release_report_keep.
  rewrite dumpfile_run by apply release_report_keep.
  rewrite !pin_out_run.
  split; [exact Hcard |].
  split; [rewrite memory_image_length; exact Hn |].
  split; [intros a Ha; apply memory_image_nth; lia |].
  split; [exact Hfile |].
  split; reflexivity.
Qed.

Lemma capture_events_last addrs :
  forall obs, addrs <> [] -> List.length addrs = List.length obs ->
              exists pre b ok, capture_events addrs obs = pre ++ [EvFileWrite b ok].
Proof.
  induction addrs as [| a addrs IH]; intros [| o obs] Hne Hlen;
    try congruence; try discriminate.
  cbn [capture_events]. destruct addrs as [| a' addrs].
  - destruct obs; [| discriminate].
    cbn [capture_events]. rewrite app_nil_r. unfold capture_chunk. eauto.
  - destruct (IH obs ltac:(discriminate) ltac:(cbn in *; lia)) as (pre & b & ok & E).
    rewrite E. exists (capture_chunk a o ++ pre), b, ok. now rewrite app_assoc.
Qed.

Lemma card_failing_close_after_write h b ok :
  card_failing_close (h ++ [EvFileWrite b ok]) = false.
Proof. unfold card_failing_close. now rewrite rev_app_distr. Qed.

Lemma card_failing_close_otherwise h e :
  is_file_write e = false -> card_failing_close (h ++ [e]) = true.
Proof.
  intro He. unfold card_failing_close. rewrite rev_app_distr. cbn.
  destruct e; try reflexivity. discriminate.
Qed.

(** X11.  A dump file that cannot be closed does not stop the sketch.  On a
    target that answers the handshake, with a card that carries out
    everything but the close, a pass of loop() writes the whole memory image
    to the file, records the failed close, says "Failed to close" and the
    file name on the console, and then goes on as after a good close: it
    releases the bus, reports the dump and moves on to the next file name
    (or stops there when the names are used up). *)
Theorem failed_close_is_reported_and_ignored (mem : Z -> Z) (fuel : nat) (w : World) :
  exists (w' : World) (before after : list Event),
    (if int_wrap (file_number w + 1) >? 999
     then loop (target mem card_failing_close) (S fuel) w = Halted w'
     else loop (target mem card_failing_close) (S fuel) w = Ok tt w')
    /\ emitted w w'
       = before
         ++ [EvFileClose false; EvSerialOut "Failed to close ";
             EvSerialOut (filename w ++ crlf)]
         ++ release_events 0 ++ report_events (filename w) ++ after
    /\ (after = [] <-> int_wrap (file_number w + 1) <= 999)
    /\ card w' (filename w)
       = Some (old_contents w ++ memory_image mem (Z.to_nat 1048576))
    /\ dumpfile w' = None
    /\ pin_out w' HLDRQ = BUS_RELEASE.
Proof.
  assert (Hn : Z.of_nat (Z.to_nat 1048576) = 1048576) by lia.
  revert Hn. generalize (Z.to_nat 1048576). intros n Hn.
  destruct (loop_on_target mem card_failing_close fuel w n Hn card_failing_close_otherwise)
    as (w1 & obs & closed & Hhold & Hloop & Hw1 & Hlen & Hclosed & Hcard).
  assert (Hfalse : closed = false).
  { rewrite Hclosed.
    destruct (capture_events_last (Zrange 0 n) obs) as (pre & b & ok & E).
    - apply Zrange_nonempty. lia.
    - now rewrite Zrange_length.
    - rewrite E, !app_assoc. apply card_failing_close_after_write. }
  clear Hclosed. subst closed. cbn [dump_epilogue] in Hw1.
  assert (Hfile : dumpfile w1 = None).
  { rewrite Hw1. rewrite !app_assoc, run_app. reflexivity. }
  assert (Hnum : file_number w1 = file_number w)
    by (rewrite Hw1; now rewrite file_number_run).
  assert (Htrace : trace w1
                   = trace w
                     ++ (bench_console ++ seize_events 0 ++ dump_prologue (filename w)
                         ++ capture_events (Zrange 0 n) obs)
                     ++ [EvFileClose false; EvSerialOut "Failed to close ";
                         EvSerialOut (filename w ++ crlf)]).
  { rewrite Hw1, trace_run. cbn [trace set_dumpfile].
    rewrite <- !app_assoc. reflexivity. }
  clear Hw1.
  set (before := bench_console ++ seize_events 0 ++ dump_prologue (filename w)
                 ++ capture_events (Zrange 0 n) obs) in *.
  set (w2 := run (release_events 0 ++ report_events (filename w)) w1) in *.
  destruct (next_file_world w2) as (said & Hsaid & Hworld & Hnext & Hiff).
  assert (Hnum2 : file_number w2 = file_number w)
    by (unfold w2; now rewrite file_number_run).
  rewrite Hnum2 in Hworld, Hnext, Hiff.
  exists (world_of (next_file w2)), before, said.
  split.
  { rewrite Hloop. destruct (_ >? 999); exact Hnext. }
  rewrite Hworld. unfold relabel.
  assert (Hq : forallb is_quiet said = true) by (destruct Hsaid as [-> | ->]; reflexivity).
  destruct (quiet_run said w2 Hq) as (_ & Qo & Qc & Qd).
  split.
  { apply emitted_app. cbn [trace set_filename set_file_number].
    rewrite trace_run. unfold w2. rewrite trace_run, Htrace.
    rewrite <- !app_assoc. reflexivity. }
  split; [exact Hiff |].
  cbn [card dumpfile pin_out set_filename set_file_number].
  rewrite Qc, Qd, Qo. unfold w2.
  rewrite card_run by apply release_report_keep.
  rewrite dumpfile_run by apply release_report_keep.
  rewrite pin_out_run.
  split; [exact Hcard |]. split; [exact Hfile |]. reflexivity.
Qed.

(** *** What a pass does to the pins *)











(** X13.  When the card does not open the dump file, the sketch says "Failed
    to open" and the file name, and stops for good where it is: with the bus
    seized.  On a target that answers the handshake, with a card that refuses
    everything, a pass of loop() ends there: HLDRQ is high, the LED on, the
    six control lines are outputs at their idle levels; no read cycle has
    been made (the twenty bus lines are as they were, direction and level)
    and the card and the file number and name are untouched. *)
Theorem failed_open_stops_the_sketch_on_the_bus
    (mem : Z -> Z) (fuel : nat) (w : World) :
  exists w' : World,
    loop (target mem dead_card) (S fuel) w = Halted w'
    /\ emitted w w' = bench_console ++ seize_events 0 ++ open_failure (filename w)
    /\ pin_out w' HLDRQ = BUS_HOLD
    /\ pin_out w' LED_BUILTIN = HIGH
    /\ Forall (fun p => pin_mode w' p = OUTPUT /\ pin_out w' p = idle_level p)
              control_pins
    /\ Forall (fun p => pin_mode w' p = pin_mode w p /\ pin_out w' p = pin_out w p)
              bus_pins
    /\ (forall s, card w' s = card w s)
    /\ dumpfile w' = None
    /\ file_number w' = file_number w /\ filename w' = filename w.
Proof.
  assert (Hn : Z.of_nat (Z.to_nat 1048576) = 1048576) by lia.
  revert Hn. generalize (Z.to_nat 1048576). intros n Hn.
  pose proof (loop_hold_responsive _ fuel w (target_responsive mem dead_card)) as Hhold.
  rewrite (dump_to_file_run _ _ n Hn) in Hhold.
  change (sd_ok (target mem dead_card) ?h) with false in Hhold. cbv iota in Hhold.
  rewrite filename_run in Hhold.
  change (filename (set_dumpfile None w)) with (filename w) in Hhold.
  rewrite <- run_app in Hhold.
  set (evs := (bench_console ++ seize_events 0) ++ open_failure (filename w)) in *.
  exists (run evs (set_dumpfile None w)).
  split; [unfold loop, bind at 1; now rewrite Hhold |].
  split.
  { apply emitted_app. rewrite trace_run. unfold evs. now rewrite <- app_assoc. }
  rewrite file_number_run, filename_run.
  split; [rewrite pin_out_run; reflexivity |].
  split; [rewrite pin_out_run; reflexivity |].
  split.
  { apply Forall_forall. intros p Hp. rewrite pin_mode_run, pin_out_run. cbn in Hp.
    repeat (destruct Hp as [<- | Hp]; [split; reflexivity |]). contradiction. }
  split.
  { apply Forall_forall. intros p Hp. rewrite pin_mode_run, pin_out_run. cbn in Hp.
    repeat (destruct Hp as [<- | Hp]; [split; reflexivity |]). contradiction. }
  split; [intro s; now rewrite card_run |].
  split; [reflexivity |].
  split; reflexivity.
Qed.

(** ** File names *)

Lemma dump_name_length n : 0 <= n <= 999 -> String.length (dump_name n) = 12%nat.
Proof.
  intro Hn.
  assert (Hall : forallb (fun k => Nat.eqb (String.length (dump_name k)) 12)
                         (Zrange 0 1000) = true)
    by (vm_compute; reflexivity).
  rewrite forallb_forall in Hall.
  apply Nat.eqb_eq, Hall, Zrange_In. lia.
Qed.

(** X14.  While the file number is in the range 0 to 999 that the sketch
    keeps it in, a call of next_file that returns has added one to the
    number and left in [filename] a name of exactly twelve characters, which
    is what the thirteen-byte buffer holds; the three digits of the name
    spell the number, and no other number from 0 to 999 has the same name. *)
Theorem next_file_names_fit_and_differ (w w' : World) :
  0 <= file_number w <= 999 ->
  next_file w = Ok tt w' ->
  file_number w' = file_number w + 1
  /\ file_number w' <= 999
  /\ String.length (filename w') = 12%nat
  /\ slot_of_name (filename w') = file_number w'
  /\ (forall k, 0 <= k <= 999 -> dump_name k = filename w' -> k = file_number w').
Proof.
  intros Hnum Hnext.
  rewrite next_file_unfold in Hnext. cbv zeta in Hnext.
  rewrite int_wrap_small in Hnext by lia.
  destruct (Z.gtb_spec (file_number w + 1) 999) as [| Hle]; [discriminate |].
  apply (f_equal world_of) in Hnext. cbn [world_of] in Hnext. subst w'.
  cbn [file_number filename set_filename set_file_number].
  split; [reflexivity |]. split; [exact Hle |].
  split; [apply dump_name_length; lia |].
  split; [apply slot_of_dump_name; lia |].
  intros k Hk E. apply dump_name_injective; [exact Hk | lia | exact E].
Qed.

(* The first call after power-up. *)
Lemma next_file_names_fit_and_differ_witness :
  file_number (relabel 1 "CWMEM001.BIN" (power_on empty_card))
  = file_number (power_on empty_card) + 1
  /\ file_number (relabel 1 "CWMEM001.BIN" (power_on empty_card)) <= 999
  /\ String.length (filename (relabel 1 "CWMEM001.BIN" (power_on empty_card))) = 12%nat
  /\ slot_of_name (filename (relabel 1 "CWMEM001.BIN" (power_on empty_card)))
     = file_number (relabel 1 "CWMEM001.BIN" (power_on empty_card))
  /\ (forall k, 0 <= k <= 999 ->
        dump_name k = filename (relabel 1 "CWMEM001.BIN" (power_on empty_card)) ->
        k = file_number (relabel 1 "CWMEM001.BIN" (power_on empty_card))).
Proof.
  apply (next_file_names_fit_and_differ (power_on empty_card)
           (relabel 1 "CWMEM001.BIN" (power_on empty_card))).
  - vm_compute. split; discriminate.
  - reflexivity.
Defined.

(** ** Waiting for Enter *)



(** ** Addresses on the bus lines *)

(** X16.  Two addresses drive the twenty bus lines alike exactly when they
    agree modulo 2 ^ 20: below one megabyte no two addresses are confused,
    and an address is confused with those that differ from it by a multiple
    of 2 ^ 20. *)
Theorem drive_address_same_lines_iff (a b : Z) (w : World) :
  drive_address a w = drive_address b w <-> a mod 2 ^ 20 = b mod 2 ^ 20.
Proof.
  rewrite !drive_address_run. split.
  - intro H. apply (f_equal world_of) in H. cbn [world_of] in H.
    apply (f_equal trace) in H. rewrite !trace_run in H.
    apply app_inv_head in H.
    apply Z.bits_inj'. intros i Hi.
    destruct (Z_lt_le_dec i 20) as [Hlt | Hge].
    + rewrite !Z.mod_pow2_bits_low by lia.
      rewrite <- (drive_events_levels a i LOW), <- (drive_events_levels b i LOW) by lia.
      now rewrite H.
    + now rewrite !Z.mod_pow2_bits_high by lia.
  - intro H.
    rewrite <- (drive_events_low_bits a), <- (drive_events_low_bits b). now rewrite H.
Qed.

(** ** One capture after another *)

(* A pass on the target with a card that never fails, up to next_file. *)
Lemma target_pass mem fuel w n :
  Z.of_nat n = 1048576 ->
  exists w2 : World,
    loop (target mem sound_card) (S fuel) w = next_file w2
    /\ file_number w2 = file_number w
    /\ filename w2 = filename w
    /\ card w2 (filename w)
       = Some (contents_of (card w) (filename w) ++ memory_image mem n)
    /\ (forall s, s <> filename w -> card w2 s = card w s)
    /\ dumpfile w2 = None
    /\ pin_out w2 HLDRQ = BUS_RELEASE.
Proof.
  intro Hn.
  destruct (loop_on_target mem sound_card fuel w n Hn (fun _ _ _ => eq_refl))
    as (w1 & obs & closed & Hhold & Hloop & Hw1 & Hlen & Hclosed & Hcard).
  exists (run (release_events 0 ++ report_events (filename w)) w1).
  split; [exact Hloop |].
  rewrite file_number_run, filename_run.
  rewrite card_run by apply release_report_keep.
  rewrite dumpfile_run by apply release_report_keep.
  rewrite pin_out_run.
  assert (Hopens : forallb (opens_only (filename w))
                     (bench_console ++ seize_events 0 ++ dump_prologue (filename w)
                      ++ capture_events (Zrange 0 n) obs
                      ++ dump_epilogue (filename w) closed) = true).
  { rewrite !forallb_app, seize_opens_only, prologue_opens_only, capture_opens_only,
      epilogue_opens_only. reflexivity. }
  destruct (card_grows (filename w) _ (set_dumpfile None w) Hopens (or_introl eq_refl))
    as (Hother & _ & _).
  rewrite <- Hw1 in Hother.
  split; [rewrite Hw1; now rewrite file_number_run |].
  split; [rewrite Hw1; now rewrite filename_run |].
  split; [exact Hcard |].
  split; [exact Hother |].
  split; [| reflexivity].
  rewrite Hw1, !app_assoc, run_app. now destruct closed.
Qed.

Lemma loop_passes_on_target mem fuel n (Hn : Z.of_nat n = 1048576) k :
  forall w,
    0 <= file_number w -> file_number w + Z.of_nat k <= 999 ->
    filename w = dump_name (file_number w) ->
    exists w' : World,
      loop_passes (target mem sound_card) (S fuel) k w = Ok tt w'
      /\ file_number w' = file_number w + Z.of_nat k
      /\ filename w' = dump_name (file_number w')
      /\ (forall i, 0 <= i < Z.of_nat k ->
            card w' (dump_name (file_number w + i))
            = Some (contents_of (card w) (dump_name (file_number w + i))
                    ++ memory_image mem n))
      /\ (forall s, (forall i, 0 <= i < Z.of_nat k -> s <> dump_name (file_number w + i)) ->
                    card w' s = card w s).
Proof.
  induction k as [| k IH]; intros w Hlo Hhi Hname.
  - exists w. split; [reflexivity |].
    split; [lia |]. split; [exact Hname |].
    split; [intros i Hi; lia | reflexivity].
  - cbn [loop_passes].
    destruct (target_pass mem fuel w n Hn)
      as (w2 & Hloop & Hnum2 & Hname2 & Hcard2 & Hother2 & _).
    assert (Hnext : next_file w2
                    = Ok tt (set_filename (dump_name (file_number w + 1))
                               (set_file_number (file_number w + 1) w2))).
    { rewrite next_file_ok by lia. now rewrite Hnum2. }
    set (w3 := set_filename (dump_name (file_number w + 1))
                 (set_file_number (file_number w + 1) w2)) in *.
    rewrite Hnext in Hloop.
    rewrite (bind_step _ _ _ _ _ Hloop).
    destruct (IH w3) as (w' & Hrun & Hnum' & Hname' & Hfiles & Hother);
      [cbn; lia | cbn; lia | reflexivity |].
    change (file_number w3) with (file_number w + 1) in *.
    change (card w3) with (card w2) in *.
    exists w'. split; [exact Hrun |].
    split; [lia |]. split; [exact Hname' |].
    split.
    + intros i Hi. destruct (Z.eq_dec i 0) as [-> | Hi0].
      * rewrite Z.add_0_r, <- Hname.
        rewrite Hother; [exact Hcard2 |].
        intros j Hj E. rewrite Hname in E.
        apply dump_name_injective in E; lia.
      * replace (file_number w + i) with (file_number w + 1 + (i - 1)) by lia.
        rewrite Hfiles by lia. unfold contents_of.
        rewrite Hother2; [reflexivity |].
        rewrite Hname. intro E. apply dump_name_injective in E; lia.
    + intros s Hs. rewrite Hother.
      * apply Hother2. rewrite Hname.
        specialize (Hs 0 ltac:(lia)). now rewrite Z.add_0_r in Hs.
      * intros j Hj. replace (file_number w + 1 + j) with (file_number w + (j + 1)) by lia.
        apply Hs. lia.
Qed.

(** X17.  Captures made one after another go to consecutive files.  On a
    target that answers the handshake, with a card that never fails, [k]
    passes of loop() started with file number [m] and the name of [m], where
    m + k does not exceed 999, all return; they leave the file number at
    m + k with its name, and each of the files m, ..., m + k - 1 holds what
    it held before followed by the 1,048,576 bytes of the memory.  loop()
    does not look whether a name is free: a file that exists is appended to.
    No other file of the card is touched. *)
Theorem consecutive_captures_fill_consecutive_files
    (mem : Z -> Z) (fuel : nat) (k : nat) (w : World) :
  0 <= file_number w ->
  file_number w + Z.of_nat k <= 999 ->
  filename w = dump_name (file_number w) ->
  exists w' : World,
    loop_passes (target mem sound_card) (S fuel) k w = Ok tt w'
    /\ file_number w' = file_number w + Z.of_nat k
    /\ filename w' = dump_name (file_number w')
    /\ (forall i, 0 <= i < Z.of_nat k ->
          card w' (dump_name (file_number w + i))
          = Some (contents_of (card w) (dump_name (file_number w + i))
                  ++ memory_image mem (Z.to_nat 1048576)))
    /\ (forall s, (forall i, 0 <= i < Z.of_nat k -> s <> dump_name (file_number w + i)) ->
                  card w' s = card w s).
Proof.
  exact (loop_passes_on_target mem fuel (Z.to_nat 1048576)
           (Z2Nat.id 1048576 ltac:(lia)) k w).
Qed.

(* Two captures after power-up, on a card that already has a file 1 (an
   empty one): the second capture goes into it. *)
Lemma consecutive_captures_fill_consecutive_files_witness :
  exists w' : World,
    loop_passes (target (fun a => a) sound_card) 1 2 (power_on (card_with [1])) = Ok tt w'
    /\ file_number w' = file_number (power_on (card_with [1])) + Z.of_nat 2
    /\ filename w' = dump_name (file_number w')
    /\ (forall i, 0 <= i < Z.of_nat 2 ->
          card w' (dump_name (file_number (power_on (card_with [1])) + i))
          = Some (contents_of (card (power_on (card_with [1])))
                    (dump_name (file_number (power_on (card_with [1])) + i))
                  ++ memory_image (fun a => a) (Z.to_nat 1048576)))
    /\ (forall s, (forall i, 0 <= i < Z.of_nat 2 ->
                     s <> dump_name (file_number (power_on (card_with [1])) + i)) ->
                  card w' s = card (power_on (card_with [1])) s).
Proof.
  apply (consecutive_captures_fill_consecutive_files (fun a => a) 0 2
           (power_on (card_with [1]))).
  - vm_compute. discriminate.
  - vm_compute. discriminate.
  - reflexivity.
Defined.

(** ** A card full of dump files *)

Lemma skip_existing_files_full m :
  forall (fuel : nat) (w : World) (k : Z),
    0 <= k -> k + Z.of_nat (S m) = 1000 ->
    file_number w = k -> filename w = dump_name k ->
    (forall j, k <= j <= 999 -> on_card (card w) j = true) ->
    (m < fuel)%nat ->
    skip_existing_files fuel w
    = Halted (relabel 1000 (dump_name 999)
                (run (map (fun j => EvSdExists (dump_name j) true) (Zrange k (S m))
                      ++ [too_many_files]) w)).
Proof.
  induction m as [| m IH]; intros fuel w k Hk Hm Hnum Hname Hall Hfuel.
  - destruct fuel as [| fuel]; [lia |].
    assert (Hk9 : k = 999) by lia. rewrite Hk9 in *. clear Hk9.
    assert (Hon : on_card (card w) 999 = true) by (apply Hall; lia).
    unfold on_card in Hon.
    unfold skip_existing_files. cbn [while_loop].
    unfold bind at 1. unfold bind at 1. unfold load, sd_exists. rewrite Hname.
    destruct (card w (dump_name 999)); [| discriminate].
    unfold bind at 1. rewrite next_file_unfold. cbv zeta.
    rewrite file_number_effect, Hnum.
    change (int_wrap (999 + 1) >? 999) with true. cbv iota.
    change (int_wrap (999 + 1)) with 1000.
    f_equal.
    change (set_file_number 1000 ?x) with (relabel 1000 (filename x) x).
    rewrite filename_effect, Hname, effect_relabel. reflexivity.
  - destruct fuel as [| fuel]; [lia |].
    assert (Hon : on_card (card w) k = true) by (apply Hall; lia).
    unfold on_card in Hon.
    set (w1 := effect (EvSdExists (dump_name k) true) w).
    set (w2 := set_filename (dump_name (k + 1)) (set_file_number (k + 1) w1)).
    assert (Hrest := IH fuel w2 (k + 1) ltac:(lia) ltac:(lia) eq_refl eq_refl).
    unfold skip_existing_files in *. cbn [while_loop].
    unfold bind at 1. unfold bind at 1. unfold load, sd_exists. rewrite Hname.
    destruct (card w (dump_name k)) eqn:Hfile; [| discriminate].
    fold w1. unfold bind at 1.
    rewrite next_file_ok by (unfold w1; rewrite file_number_effect; lia).
    unfold w1 at 1 2. rewrite file_number_effect, Hnum. fold w1. fold w2.
    refine (eq_trans (Hrest _ ltac:(lia)) _).
    + intros j Hj. apply Hall. lia.
    + f_equal. unfold w2.
      change (set_filename ?s (set_file_number ?n w1)) with (relabel n s w1).
      rewrite run_relabel. unfold w1. rewrite run_one, <- run_app.
      reflexivity.
Qed.

Lemma setup_on_a_full_card env fuel w n :
  Z.of_nat n = 1000 ->
  sd_ok env (trace w ++ setup_events) = true ->
  file_number w = 0 -> filename w = "CWMEM000.BIN"%string ->
  (forall k, 0 <= k <= 999 -> on_card (card w) k = true) ->
  (n <= fuel)%nat ->
  exists w' : World,
    setup env fuel w = Halted w'
    /\ emitted w w'
       = setup_events ++ [EvSdBegin true]
         ++ map (fun j => EvSdExists (dump_name j) true) (Zrange 0 n)
         ++ [too_many_files]
    /\ file_number w' = 1000
    /\ filename w' = dump_name 999
    /\ (forall s, card w' s = card w s)
    /\ pin_mode w' HLDRQ = OUTPUT /\ pin_out w' HLDRQ = BUS_RELEASE.
Proof.
  intros Hn Hok Hnum Hname Hall Hfuel.
  destruct n as [| m]; [discriminate |].
  rewrite setup_unfold, Hok.
  set (w1 := run (setup_events ++ [EvSdBegin true]) w).
  assert (Hcard1 : card w1 = card w) by (unfold w1; now rewrite card_run).
  assert (Hnum1 : file_number w1 = 0) by (unfold w1; now rewrite file_number_run).
  assert (Hname1 : filename w1 = dump_name 0) by (unfold w1; now rewrite filename_run).
  rewrite <- Hcard1 in Hall.
  pose proof (skip_existing_files_full m fuel w1 0 (Z.le_refl 0) Hn
                Hnum1 Hname1 Hall Hfuel) as Hskip.
  unfold bind at 1. rewrite Hskip.
  eexists. split; [reflexivity |].
  unfold relabel.
  cbn [file_number filename card pin_mode pin_out set_filename set_file_number].
  split.
  { apply emitted_app. cbn [trace set_filename set_file_number].
    rewrite trace_run. unfold w1. rewrite trace_run.
    rewrite <- !app_assoc. reflexivity. }
  split; [reflexivity |]. split; [reflexivity |].
  assert (Hq : forallb is_quiet
                 (map (fun j => EvSdExists (dump_name j) true) (Zrange 0 (S m))
                  ++ [too_many_files]) = true).
  { rewrite forallb_app. apply andb_true_iff. split; [| reflexivity].
    apply forallb_forall. intros e He.
    apply in_map_iff in He as (j & <- & _). reflexivity. }
  destruct (quiet_run _ w1 Hq) as (Qm & Qo & Qc & _).
  split; [intro s; now rewrite Qc, Hcard1 |].
  rewrite Qm, Qo. unfold w1. rewrite pin_mode_run, pin_out_run.
  split; reflexivity.
Qed.

(** X18.  A card that starts and already holds all the thousand dump files
    000 to 999 stops the sketch at power-up: setup(), started from the
    initial globals, probes the thousand names in order, says "Too many
    files" and never returns.  The file number is then 1000, the name still
    that of 999, the card untouched and HLDRQ low: the V20 keeps its bus. *)
Theorem setup_stops_on_a_full_card (env : Env) (fuel : nat) (w : World) :
  sd_ok env (trace w ++ setup_events) = true ->
  file_number w = 0 -> filename w = "CWMEM000.BIN"%string ->
  (forall k, 0 <= k <= 999 -> on_card (card w) k = true) ->
  (1000 <= fuel)%nat ->
  exists w' : World,
    setup env fuel w = Halted w'
    /\ emitted w w'
       = setup_events ++ [EvSdBegin true]
         ++ map (fun j => EvSdExists (dump_name j) true) (Zrange 0 1000)
         ++ [too_many_files]
    /\ file_number w' = 1000
    /\ filename w' = dump_name 999
    /\ (forall s, card w' s = card w s)
    /\ pin_mode w' HLDRQ = OUTPUT /\ pin_out w' HLDRQ = BUS_RELEASE.
Proof. exact (setup_on_a_full_card env fuel w 1000 eq_refl). Qed.

(* A card on which every name exists. *)
Lemma setup_stops_on_a_full_card_witness :
  exists w' : World,
    setup (bench 0 sound_card) 1000 (power_on (fun _ => Some [])) = Halted w'
    /\ emitted (power_on (fun _ => Some [])) w'
       = setup_events ++ [EvSdBegin true]
         ++ map (fun j => EvSdExists (dump_name j) true) (Zrange 0 1000)
         ++ [too_many_files]
    /\ file_number w' = 1000
    /\ filename w' = dump_name 999
    /\ (forall s, card w' s = card (power_on (fun _ => Some [])) s)
    /\ pin_mode w' HLDRQ = OUTPUT /\ pin_out w' HLDRQ = BUS_RELEASE.
Proof.
  apply (setup_stops_on_a_full_card (bench 0 sound_card) 1000 (power_on (fun _ => Some []))).
  - reflexivity.
  - reflexivity.
  - reflexivity.
  - intros k Hk. reflexivity.
  - lia.
Defined.

(** ** From power-up to the first dump file *)

(** X19.  From power-up to the first dump: with a card that never fails and
    holds the dump files 0 to n - 1 but not file n (n below 999), and a
    target that answers the handshake, setup() followed by one pass of
    loop() returns and has created file n, which holds exactly the
    1,048,576 bytes of the memory; every other file of the card is as it
    was, the file number is n + 1 with its name, and the bus is released. *)
Theorem first_capture_after_power_up
    (mem : Z -> Z) (fuel : nat) (c : string -> option (list Z)) (n : Z) :
  0 <= n < 999 ->
  (forall k, 0 <= k < n -> on_card c k = true) ->
  on_card c n = false ->
  (Z.to_nat n < fuel)%nat ->
  exists w' : World,
    (setup (target mem sound_card) fuel ;; loop (target mem sound_card) fuel)
      (power_on c) = Ok tt w'
    /\ card w' (dump_name n) = Some (memory_image mem (Z.to_nat 1048576))
    /\ (forall s, s <> dump_name n -> card w' s = c s)
    /\ file_number w' = n + 1
    /\ filename w' = dump_name (n + 1)
    /\ pin_out w' HLDRQ = BUS_RELEASE.
Proof.
  intros Hn Hall Hfree Hfuel.
  destruct (setup_returns (target mem sound_card) fuel (power_on c) n
              eq_refl eq_refl eq_refl ltac:(lia) Hall Hfree Hfuel)
    as (w1 & Hsetup & _ & Hnum1 & Hname1 & Hcard1 & _).
  rewrite (bind_step _ _ _ _ _ Hsetup).
  destruct fuel as [| fuel]; [lia |].
  assert (HN : Z.of_nat (Z.to_nat 1048576) = 1048576) by lia.
  revert HN. generalize (Z.to_nat 1048576). intros N HN.
  destruct (target_pass mem fuel w1 N HN)
    as (w2 & Hloop & Hnum2 & Hname2 & Hcard2 & Hother2 & _ & Hrq).
  rewrite Hloop, next_file_ok by lia.
  eexists. split; [reflexivity |].
  cbn [card file_number filename pin_out set_filename set_file_number].
  rewrite Hname1 in Hcard2, Hother2.
  split.
  { rewrite Hcard2. unfold contents_of. rewrite Hcard1.
    unfold on_card in Hfree. cbn [card power_on].
    destruct (c (dump_name n)); [discriminate | reflexivity]. }
  split; [intros s Hs; now rewrite Hother2, Hcard1 |].
  rewrite Hnum2, Hnum1.
  split; [reflexivity |]. split; [reflexivity | exact Hrq].
Qed.

(* A card with the files 0, 1 and 2: the first capture creates file 3. *)
Lemma first_capture_after_power_up_witness :
  exists w' : World,
    (setup (target (fun a => a) sound_card) 4 ;; loop (target (fun a => a) sound_card) 4)
      (power_on (card_with [0; 1; 2])) = Ok tt w'
    /\ card w' (dump_name 3) = Some (memory_image (fun a => a) (Z.to_nat 1048576))
    /\ (forall s, s <> dump_name 3 -> card w' s = card_with [0; 1; 2] s)
    /\ file_number w' = 3 + 1
    /\ filename w' = dump_name (3 + 1)
    /\ pin_out w' HLDRQ = BUS_RELEASE.
Proof.
  apply (first_capture_after_power_up (fun a => a) 4 (card_with [0; 1; 2]) 3).
  - lia.
  - intros k Hk.
    assert (Hc : k = 0 \/ k = 1 \/ k = 2) by lia.
    destruct Hc as [-> | [-> | ->]]; reflexivity.
  - reflexivity.
  - vm_compute. lia.
Defined.
